(** * Amazon Fashion review pipeline: JSONL -> CSV converter and ClickHouse loader

    A shallow embedding of [convert_jsonl_to_csv.py] and [data_ingestion.py].

    Conventions of the embedding.
    - A Python [str] is a [string]; every [ascii] stands for one code point
      below 256, so the character tables below ([isspace], [lower]) are the
      interpreter's tables on that range.
    - A Python [float] is a binary64 [spec_float]; a Python [int] is a [Z].
    - A raised exception is the [Raise] branch of [result].
    - Interpreter and library routines that the two scripts call but do not
      define (float formatting, [json.loads], [json.dumps], number parsing)
      are the fields of the class [Builtins]; every statement holds for
      every instance. *)

From Stdlib Require Import ZArith List String Ascii Bool Lia Arith.
From Stdlib Require Import SpecFloat DecimalString DecimalZ.
Import ListNotations.
Local Open Scope list_scope.
Local Open Scope string_scope.

Set Implicit Arguments.

(* ================================================================== *)
(** * Python values and exceptions *)
(* ================================================================== *)

Inductive exn : Type :=
| ValueError
| TypeError
| OverflowError
| ZeroDivisionError
| KeyError
| AttributeError
| FileNotFoundError
| RecursionError
| SinkError (msg : string).

(** [JSONDecodeError] is a subclass of [ValueError]; the reader is the only
    place that tells them apart, and it does so on the decoder's answer
    (see [decoding] below). *)

Inductive result (A : Type) : Type :=
| Ok (a : A)
| Raise (e : exn).
Arguments Ok {A} a.
Arguments Raise {A} e.

Definition bind {A B} (r : result A) (k : A -> result B) : result B :=
  match r with
  | Ok a => k a
  | Raise e => Raise e
  end.

Notation "x <- r ;; k" := (bind r (fun x => k))
  (at level 61, r at next level, right associativity).

(** [try: body / except (classes): handler]. *)
Definition try_except {A} (body : result A) (caught : exn -> bool)
    (handler : result A) : result A :=
  match body with
  | Ok a => Ok a
  | Raise e => if caught e then handler else Raise e
  end.

(** The tuple [(ValueError, TypeError)] of the two numeric conversions. *)
Definition value_or_type_error (e : exn) : bool :=
  match e with
  | ValueError | TypeError => true
  | _ => false
  end.

(** What [json.loads] can produce. *)
#[warnings="-register-all"]
Inductive value : Type :=
| VNone
| VBool (b : bool)
| VInt (z : Z)
| VFloat (f : spec_float)
| VStr (s : string)
| VList (l : list value)
| VDict (d : list (string * value)).

(** A Python [dict] with [str] keys, in insertion order. *)
Definition dict := list (string * value).

Section Assoc.
Variable V : Type.

Fixpoint assoc_get (d : list (string * V)) (k : string) : option V :=
  match d with
  | [] => None
  | (k', v) :: d' => if String.eqb k' k then Some v else assoc_get d' k
  end.

(** [d[k] = v]: overwrite in place, or append a new key. *)
Fixpoint assoc_set (d : list (string * V)) (k : string) (v : V)
    : list (string * V) :=
  match d with
  | [] => [(k, v)]
  | (k', v') :: d' =>
      if String.eqb k' k then (k, v) :: d' else (k', v') :: assoc_set d' k v
  end.

(** [k in d]. *)
Definition assoc_mem (d : list (string * V)) (k : string) : bool :=
  match assoc_get d k with Some _ => true | None => false end.
End Assoc.

(** [d.get(k, default)]. *)
Definition dict_get_default (d : dict) (k : string) (default : value) : value :=
  match assoc_get d k with
  | Some v => v
  | None => default
  end.

(** [d[k]]. *)
Definition dict_item (d : dict) (k : string) : result value :=
  match assoc_get d k with
  | Some v => Ok v
  | None => Raise KeyError
  end.

(* ------------------------------------------------------------------ *)
(** ** Floats *)

Definition prec64 : Z := 53.
Definition emax64 : Z := 1024.

Definition float_zero : spec_float := S754_zero false.
Definition float_one : spec_float := binary_normalize prec64 emax64 1 0 false.
Definition float_inf : spec_float := S754_infinity false.

Definition float_is_zero (f : spec_float) : bool :=
  match f with
  | S754_zero _ => true
  | _ => false
  end.

(** [float(z)] for an [int]: round to nearest even, [OverflowError] when the
    result does not fit. *)
Definition float_of_int (z : Z) : result spec_float :=
  match binary_normalize prec64 emax64 z 0 false with
  | S754_infinity _ => Raise OverflowError
  | f => Ok f
  end.

(** [int(f)] for a [float]: truncation towards zero. *)
Definition int_of_float (f : spec_float) : result Z :=
  match f with
  | S754_zero _ => Ok 0%Z
  | S754_nan => Raise ValueError
  | S754_infinity _ => Raise OverflowError
  | S754_finite s m e =>
      let mag := match e with
                 | Zneg p => Z.shiftr (Zpos m) (Zpos p)
                 | _ => Z.shiftl (Zpos m) e
                 end in
      Ok (if s then Z.opp mag else mag)
  end.

(* ------------------------------------------------------------------ *)
(** ** Strings *)

Definition LF : ascii := ascii_of_nat 10.
Definition CR : ascii := ascii_of_nat 13.
Definition SP : ascii := ascii_of_nat 32.

(** [str.isspace] on one character. *)
Definition isspace (c : ascii) : bool :=
  let n := N_of_ascii c in
  ((9 <=? n) && (n <=? 13) || (28 <=? n) && (n <=? 32)
   || (n =? 133) || (n =? 160))%N.

(** [str.lower] on one character. *)
Definition lower_char (c : ascii) : ascii :=
  let n := N_of_ascii c in
  if ((65 <=? n) && (n <=? 90)
      || (192 <=? n) && (n <=? 222) && negb (n =? 215))%N
  then ascii_of_N (n + 32) else c.

Fixpoint lower (s : string) : string :=
  match s with
  | EmptyString => EmptyString
  | String c s' => String (lower_char c) (lower s')
  end.

(** [s.replace(old, new)] for one-character [old] and [new]. *)
Fixpoint replace (old new : ascii) (s : string) : string :=
  match s with
  | EmptyString => EmptyString
  | String c s' =>
      String (if Ascii.eqb c old then new else c) (replace old new s')
  end.

Definition flush_word (w : string) : list string :=
  match w with
  | EmptyString => []
  | _ => [w]
  end.

(** The scan of [s.split()]: [w] is the word read so far. *)
Fixpoint split_scan (w : string) (s : string) : list string :=
  match s with
  | EmptyString => flush_word w
  | String c s' =>
      if isspace c then (flush_word w ++ split_scan EmptyString s')%list
      else split_scan (w ++ String c EmptyString) s'
  end.

(** [s.split()]: the maximal runs of non-whitespace characters. *)
Definition split (s : string) : list string := split_scan EmptyString s.

(** [sep.join(words)]. *)
Definition join (sep : string) (words : list string) : string :=
  String.concat sep words.

Fixpoint lstrip (s : string) : string :=
  match s with
  | EmptyString => EmptyString
  | String c s' => if isspace c then lstrip s' else s
  end.

Fixpoint rstrip (s : string) : string :=
  match s with
  | EmptyString => EmptyString
  | String c s' =>
      match rstrip s' with
      | EmptyString => if isspace c then EmptyString else String c EmptyString
      | t => String c t
      end
  end.

(** [s.strip()]. *)
Definition strip (s : string) : string := rstrip (lstrip s).

(** [str(z)] for an [int]. *)
Definition str_of_int (z : Z) : string := NilZero.string_of_int (Z.to_int z).

(** [x in [a, b, ...]] for strings. *)
Definition str_in (x : string) (l : list string) : bool :=
  existsb (String.eqb x) l.

(* ------------------------------------------------------------------ *)
(** ** Library routines taken as given *)

(** What [json.loads] answers on a text: the decoded value, a
    [json.JSONDecodeError], or another exception.  The decoder raises a
    plain [ValueError] on an integer literal of more than 4300 digits and a
    [RecursionError] on a text nested too deep; neither is a
    [JSONDecodeError]. *)
Inductive decoding : Type :=
| Decoded (record : value)
| DecodeError
| OtherError (e : exn).

Class Builtins : Type := {
  (** [repr(f)] of a float. *)
  float_repr : spec_float -> string;
  (** [repr(s)] of a string (quotes and escapes). *)
  str_repr : string -> string;
  (** [json.dumps(d)] of a decoded object. *)
  json_dumps : dict -> string;
  (** [float(s)]; [None] is [ValueError]. *)
  float_of_str : string -> option spec_float;
  (** [int(s)]; [None] is [ValueError]. *)
  int_of_str : string -> option Z;
  (** [json.loads(s)]. *)
  json_loads : string -> decoding;
  (** The number [pd.to_numeric] reads in a string cell, if any. *)
  numeric_of_str : string -> option (Z + spec_float)
}.

Section Conversions.
Context {B : Builtins}.

(** [repr(v)]. *)
Fixpoint py_repr (v : value) : string :=
  match v with
  | VNone => "None"
  | VBool true => "True"
  | VBool false => "False"
  | VInt z => str_of_int z
  | VFloat f => float_repr f
  | VStr s => str_repr s
  | VList l => "[" ++ join ", " (map py_repr l) ++ "]"
  | VDict d =>
      "{" ++ join ", "
               (map (fun kv => match kv with
                               | (k, x) => str_repr k ++ ": " ++ py_repr x
                               end) d)
          ++ "}"
  end.

(** [str(v)]. *)
Definition py_str (v : value) : string :=
  match v with
  | VStr s => s
  | _ => py_repr v
  end.

(** [bool(v)]. *)
Definition truthy (v : value) : bool :=
  match v with
  | VNone => false
  | VBool b => b
  | VInt z => negb (z =? 0)%Z
  | VFloat f => negb (float_is_zero f)
  | VStr s => negb (String.eqb s "")
  | VList l => match l with [] => false | _ => true end
  | VDict d => match d with [] => false | _ => true end
  end.

(** [float(v)]. *)
Definition py_float (v : value) : result spec_float :=
  match v with
  | VBool b => Ok (if b then float_one else float_zero)
  | VInt z => float_of_int z
  | VFloat f => Ok f
  | VStr s =>
      match float_of_str s with
      | Some f => Ok f
      | None => Raise ValueError
      end
  | VNone | VList _ | VDict _ => Raise TypeError
  end.

(** [int(v)]. *)
Definition py_int (v : value) : result Z :=
  match v with
  | VBool b => Ok (if b then 1 else 0)%Z
  | VInt z => Ok z
  | VFloat f => int_of_float f
  | VStr s =>
      match int_of_str s with
      | Some z => Ok z
      | None => Raise ValueError
      end
  | VNone | VList _ | VDict _ => Raise TypeError
  end.

(** [isinstance(v, dict)]. *)
Definition is_dict (v : value) : bool :=
  match v with
  | VDict _ => true
  | _ => false
  end.
End Conversions.

(* ================================================================== *)
(** * convert_jsonl_to_csv.py *)
(* ================================================================== *)

(** What the generator [read_jsonl_file] does, in order: a record handed to
    the consumer, a line written to the log, or, as the last thing it does,
    an exception logged and raised again to the consumer (the outer
    [except Exception] of the reader). *)
Inductive event : Type :=
| Yield (record : value)
| LogWarning (line_num : Z)
| LogInfo (line_num : Z)
| Abort (e : exn).

(** The records among the events, in order. *)
Fixpoint yielded (evs : list event) : list value :=
  match evs with
  | [] => []
  | Yield record :: rest => record :: yielded rest
  | _ :: rest => yielded rest
  end.

(** The line numbers of the warnings among the events, in order. *)
Fixpoint warnings (evs : list event) : list Z :=
  match evs with
  | [] => []
  | LogWarning n :: rest => n :: warnings rest
  | _ :: rest => warnings rest
  end.

(** The exception that the generator raises to its consumer, if any. *)
Fixpoint aborted (evs : list event) : option exn :=
  match evs with
  | [] => None
  | Abort e :: _ => Some e
  | _ :: rest => aborted rest
  end.

(** A line of the CSV file: the header or one data row. *)
Inductive csv_line : Type :=
| Header (columns : list string)
| Row (cells : dict).

Definition csv_file := list csv_line.

(** One call [DataFrame(chunk).to_csv(csv_file, mode=..., header=...)]. *)
Record to_csv_call : Type := {
  call_rows : list dict;
  call_append : bool;
  call_header : bool
}.

(** The column labels of [pd.DataFrame(chunk)]: the keys of the records,
    which are the same twelve for every normalized record. *)
Definition columns_of (chunk : list dict) : list string :=
  match chunk with
  | [] => []
  | r :: _ => map fst r
  end.

(** The effect of one call on the destination; [None] is a missing file. *)
Definition to_csv (call : to_csv_call) (dest : option csv_file)
    : option csv_file :=
  let body :=
    ((if call_header call then [Header (columns_of (call_rows call))] else [])
       ++ map Row (call_rows call))%list in
  if call_append call
  then Some (match dest with Some old => old ++ body | None => body end)%list
  else Some body.

(** The locals of [convert_jsonl_to_csv], the destination file and the
    calls made on it so far. *)
Record conv_state : Type := {
  chunk_data : list dict;
  chunk_count : Z;
  total_records : Z;
  dest : option csv_file;
  calls : list to_csv_call
}.

(** The two readings of [time.time()] that the summary uses: the one taken
    on entry and the one taken after the loop.  Nothing is assumed of
    them; in particular they may be equal. *)
Record clock : Type := {
  t_start : spec_float;
  t_end : spec_float
}.

(** [total_time = time.time() - start_time]. *)
Definition elapsed (clk : clock) : spec_float :=
  SFsub prec64 emax64 (t_end clk) (t_start clk).

Definition basic_fields : list string :=
  ["overall"; "verified"; "reviewTime"; "reviewerID";
   "asin"; "style"; "reviewerName"; "reviewText";
   "summary"; "unixReviewTime"].

Definition text_fields : list string :=
  ["reviewText"; "summary"; "reviewerName"].

Definition len {A} (l : list A) : Z := Z.of_nat (List.length l).

Section Converter.
Context {B : Builtins}.

(** The body of the reader's [for] loop on one line.  The inner [except]
    catches [json.JSONDecodeError] only; any other exception of
    [json.loads] reaches the outer [except Exception], which logs it and
    raises it again. *)
Definition read_line (line_num : Z) (line : string) : list event :=
  let line := strip line in
  if String.eqb line "" then []
  else
    match json_loads line with
    | Decoded record =>
        Yield record
          :: (if (line_num mod 100000 =? 0)%Z then [LogInfo line_num] else [])
    | DecodeError => [LogWarning line_num]
    | OtherError e => [Abort e]
    end.

(** The [for line_num, line in enumerate(file, 1)] loop: it goes on to the
    next line unless the body raised. *)
Fixpoint read_lines (line_num : Z) (lines : list string) : list event :=
  match lines with
  | [] => []
  | line :: rest =>
      let evs := read_line line_num line in
      match aborted evs with
      | Some _ => evs
      | None => (evs ++ read_lines (line_num + 1) rest)%list
      end
  end.

(** [read_jsonl_file]: [None] is a path that cannot be opened; [open] is
    inside the [try], so its exception is logged and raised like any
    other. *)
Definition read_jsonl_file (file : option (list string)) : list event :=
  match file with
  | None => [Abort FileNotFoundError]
  | Some lines => read_lines 1 lines
  end.

(** The body of the loop over [text_fields]. *)
Definition clean_text_field (cleaned : dict) (field : string) : dict :=
  match assoc_get cleaned field with
  | Some v =>
      if truthy v then
        let s := replace CR SP (replace LF SP (py_str v)) in
        let cleaned := assoc_set cleaned field (VStr s) in
        assoc_set cleaned field (VStr (join " " (split s)))
      else cleaned
  | None => cleaned
  end.

Definition clean_and_flatten_record (record : dict) : result dict :=
  let cleaned :=
    fold_left
      (fun cleaned field =>
         assoc_set cleaned field (dict_get_default record field (VStr "")))
      basic_fields [] in
  let images := dict_get_default record "images" (VDict []) in
  let cleaned :=
    if is_dict images then
      assoc_set cleaned "images"
        (if truthy images
         then VStr (json_dumps match images with VDict d => d | _ => [] end)
         else VStr "")
    else
      assoc_set cleaned "images"
        (if truthy images then VStr (py_str images) else VStr "") in
  let vote := dict_get_default record "vote" (VStr "") in
  let cleaned :=
    assoc_set cleaned "vote"
      (if truthy vote then VStr (py_str vote) else VStr "") in
  let cleaned := fold_left clean_text_field text_fields cleaned in
  overall <-
    try_except
      (v <- dict_item cleaned "overall" ;;
       if truthy v then py_float v else Ok float_zero)
      value_or_type_error (Ok float_zero) ;;
  let cleaned := assoc_set cleaned "overall" (VFloat overall) in
  unix_time <-
    try_except
      (v <- dict_item cleaned "unixReviewTime" ;;
       if truthy v then py_int v else Ok 0%Z)
      value_or_type_error (Ok 0%Z) ;;
  let cleaned := assoc_set cleaned "unixReviewTime" (VInt unix_time) in
  v <- dict_item cleaned "verified" ;;
  let cleaned :=
    assoc_set cleaned "verified"
      (VBool (str_in (lower (py_str v)) ["true"; "1"; "yes"])) in
  Ok cleaned.

(** The call [clean_and_flatten_record(record)] on whatever the reader
    yielded: [record.get] exists on a [dict] only. *)
Definition normalize (record : value) : result dict :=
  match record with
  | VDict d => clean_and_flatten_record d
  | _ => Raise AttributeError
  end.

(** [df_chunk.to_csv(...)], [total_records += len(chunk_data)]. *)
Definition write_chunk (st : conv_state) : conv_state :=
  let chunk_count := (chunk_count st + 1)%Z in
  let write_header := (chunk_count =? 1)%Z in
  let call := {| call_rows := chunk_data st;
                 call_append := (1 <? chunk_count)%Z;
                 call_header := write_header |} in
  {| chunk_data := chunk_data st;
     chunk_count := chunk_count;
     total_records := (total_records st + len (chunk_data st))%Z;
     dest := to_csv call (dest st);
     calls := (calls st ++ [call])%list |}.

(** [chunk_data = []]. *)
Definition clear_chunk (st : conv_state) : conv_state :=
  {| chunk_data := [];
     chunk_count := chunk_count st;
     total_records := total_records st;
     dest := dest st;
     calls := calls st |}.

(** [chunk_data.append(cleaned_record)]. *)
Definition append_record (st : conv_state) (cleaned : dict) : conv_state :=
  {| chunk_data := (chunk_data st ++ [cleaned])%list;
     chunk_count := chunk_count st;
     total_records := total_records st;
     dest := dest st;
     calls := calls st |}.

(** The [for record in read_jsonl_file(...)] loop.  It ends with the state
    reached and the exception, if any, that interrupted it. *)
Fixpoint convert_loop (chunk_size : Z) (records : list value)
    (st : conv_state) : conv_state * option exn :=
  match records with
  | [] => (st, None)
  | record :: rest =>
      match normalize record with
      | Raise e => (st, Some e)
      | Ok cleaned_record =>
          let st := append_record st cleaned_record in
          let st :=
            if (chunk_size <=? len (chunk_data st))%Z
            then clear_chunk (write_chunk st)
            else st in
          convert_loop chunk_size rest st
      end
  end.

(** [total_records / total_time] of the last log line. *)
Definition int_div_float (n : Z) (d : spec_float) : result spec_float :=
  a <- float_of_int n ;;
  if float_is_zero d then Raise ZeroDivisionError
  else Ok (SFdiv prec64 emax64 a d).

Definition init_state (csv : option csv_file) : conv_state :=
  {| chunk_data := []; chunk_count := 0; total_records := 0;
     dest := csv; calls := [] |}.

(** [convert_jsonl_to_csv]: the value returned or the exception raised,
    together with the final state (destination file and calls made). *)
Definition convert_jsonl_to_csv (jsonl_file : option (list string))
    (csv : option csv_file) (chunk_size : Z) (clk : clock)
    : result Z * conv_state :=
  let st := init_state csv in
  let events := read_jsonl_file jsonl_file in
  match convert_loop chunk_size (yielded events) st with
  | (st, Some e) => (Raise e, st)
  | (st, None) =>
      match aborted events with
      | Some e => (Raise e, st)
      | None =>
          let st :=
            match chunk_data st with
            | [] => st
            | _ => write_chunk st
            end in
          let total_time := elapsed clk in
          match int_div_float (total_records st) total_time with
          | Raise e => (Raise e, st)
          | Ok _ => (Ok (total_records st), st)
          end
      end
  end.

(** [main]: the exit status and the destination file afterwards. *)
Definition main (input_file : option (list string))
    (output_file : option csv_file) (chunk_size : Z) (clk : clock)
    : Z * option csv_file :=
  match input_file with
  | None => (1%Z, output_file)
  | Some _ =>
      match convert_jsonl_to_csv input_file output_file chunk_size clk with
      | (Ok _, st) => (0%Z, dest st)
      | (Raise _, st) => (1%Z, dest st)
      end
  end.
End Converter.

(* ================================================================== *)
(** * data_ingestion.py *)
(* ================================================================== *)

(** One cell of a frame read by [pd.read_csv].  A missing value is the
    float NaN. *)
Inductive cell : Type :=
| CBool (b : bool)
| CInt (z : Z)
| CFloat (f : spec_float)
| CStr (s : string).

Definition series := list cell.

(** A frame: its columns by label, in order.  A column is modelled as the
    list of its cells; the common dtype of a column is not represented. *)
Definition DataFrame := list (string * series).

(** [len(df)]. *)
Definition df_len (df : DataFrame) : Z :=
  match df with
  | [] => 0%Z
  | (_, col) :: _ => len col
  end.

(** [pd.isna] on one cell. *)
Definition isna (c : cell) : bool :=
  match c with
  | CFloat S754_nan => true
  | _ => false
  end.

(** [series.fillna(fill)]. *)
Definition fillna (fill : cell) (s : series) : series :=
  map (fun c => if isna c then fill else c) s.

Definition string_columns : list string :=
  ["title"; "text"; "images"; "asin"; "parent_asin"; "user_id"].

Definition numeric_columns : list string :=
  ["rating"; "timestamp"; "helpful_vote"].

(** The lines that [ingest_data_to_clickhouse] logs. *)
Inductive log_entry : Type :=
| InfoBatch (batch_count rows : Z)
| InfoProgress (total : Z)
| ErrorBatch (batch_count : Z) (e : exn)
| ErrorBatchSize (rows : Z)
| ErrorCritical (e : exn)
| ErrorRowsBefore (total : Z)
| InfoCompleted (total : Z).

(** The rows held by the sink table, as the blocks inserted so far. *)
Definition sink_table := list DataFrame.

(** What the sink answers to one bulk insert: it commits the block, or it
    raises after having stored [stored] (a mid-batch failure may leave rows
    behind). *)
Inductive insert_outcome : Type :=
| Committed
| Failed (stored : list DataFrame) (e : exn).

(** The locals of [ingest_data_to_clickhouse], the sink table, the log and
    the frames handed to [sql_write] so far. *)
Record ingest_state : Type := {
  total_rows_processed : Z;
  batch_count : Z;
  table : sink_table;
  log : list log_entry;
  submitted : list DataFrame
}.

(** The state on entry: nothing processed, nothing logged. *)
Definition ingest_init (tbl : sink_table) : ingest_state :=
  {| total_rows_processed := 0; batch_count := 0; table := tbl;
     log := []; submitted := [] |}.

Section Ingestion.
Context {B : Builtins}.

(** The answer of the sink to an insert of a frame into a table. *)
Variable sink_insert : sink_table -> DataFrame -> insert_outcome.

(** Modelled from the spec: the sink's bulk insert ([Query.sql_write] of
    the [dbutils] package, which is not among the sources).  The spec
    makes the sink append-only from the pipeline's side: a committed
    block is added after the rows already there, and a failed insert
    removes nothing. *)
Definition sql_write (df : DataFrame) (tbl : sink_table)
    : sink_table * option exn :=
  match sink_insert tbl df with
  | Committed => ((tbl ++ [df])%list, None)
  | Failed stored e => ((tbl ++ stored)%list, Some e)
  end.

(** [str(x)] of one cell, as [astype(str)] applies it. *)
Definition cell_str (c : cell) : string :=
  match c with
  | CBool true => "True"
  | CBool false => "False"
  | CInt z => str_of_int z
  | CFloat f => float_repr f
  | CStr s => s
  end.

(** [series.astype(str)]. *)
Definition astype_str (s : series) : series :=
  map (fun c => CStr (cell_str c)) s.

(** The integer [astype(int)] gives one cell.  A NaN or an infinity is
    refused (pandas' [IntCastingNaNError], a [ValueError]), and so is a
    string that is not an integer literal.  The function works cell by
    cell on unbounded integers: it stands for the library on booleans, on
    missing values, on integers and finite floats within the [int64]
    range and on strings that are not integer literals beyond it
    ([int64_cell] below).  Beyond that range the library's answer depends
    on the dtype of the column ([OverflowError] on a string or an integer
    of an object column, a value wrapped around in a [float64] column) and
    is not the one given here. *)
Definition cell_int (c : cell) : result Z :=
  match c with
  | CBool b => Ok (if b then 1 else 0)%Z
  | CInt z => Ok z
  | CFloat f =>
      match int_of_float f with
      | Ok z => Ok z
      | Raise _ => Raise ValueError
      end
  | CStr s =>
      match int_of_str s with
      | Some z => Ok z
      | None => Raise ValueError
      end
  end.

(** [series.astype(int)]: every cell, or the first refusal. *)
Fixpoint astype_int (s : series) : result series :=
  match s with
  | [] => Ok []
  | c :: rest =>
      z <- cell_int c ;;
      rest' <- astype_int rest ;;
      Ok (CInt z :: rest')
  end.

(** [pd.to_numeric(series, errors='coerce')], cell by cell: a string that
    reads as a number becomes that number, any other string a missing
    value.  The library gives the resulting column one dtype (next to a
    float or a missing value an integer becomes a float, and the
    [fillna(0)] that follows stores 0.0); the model keeps the kind of each
    cell, so it gives the library's numbers up to that kind, and no
    statement below reads the cells of a numeric column. *)
Definition to_numeric_coerce (s : series) : series :=
  map (fun c =>
         match c with
         | CStr x =>
             match numeric_of_str x with
             | Some (inl z) => CInt z
             | Some (inr f) => CFloat f
             | None => CFloat S754_nan
             end
         | _ => c
         end) s.

(** [if col in df.columns: df[col] = f(df[col])]. *)
Definition update_column (f : series -> series) (df : DataFrame)
    (col : string) : DataFrame :=
  match assoc_get df col with
  | Some s => assoc_set df col (f s)
  | None => df
  end.

Definition preprocess_dataframe (df : DataFrame) : result DataFrame :=
  let df :=
    fold_left
      (update_column (fun s => astype_str (fillna (CStr "") s)))
      string_columns df in
  df <-
    match assoc_get df "verified_purchase" with
    | Some s =>
        s' <- astype_int s ;;
        Ok (assoc_set df "verified_purchase" s')
    | None => Ok df
    end ;;
  let df :=
    fold_left
      (update_column (fun s => fillna (CInt 0) (to_numeric_coerce s)))
      numeric_columns df in
  Ok df.

Definition add_log (st : ingest_state) (entries : list log_entry)
    : ingest_state :=
  {| total_rows_processed := total_rows_processed st;
     batch_count := batch_count st;
     table := table st;
     log := (log st ++ entries)%list;
     submitted := submitted st |}.

(** The inner [except]: two error lines, then [raise]. *)
Definition batch_failed (st : ingest_state) (e : exn) (chunk : DataFrame)
    : ingest_state * option exn :=
  (add_log st [ErrorBatch (batch_count st) e; ErrorBatchSize (df_len chunk)],
   Some e).

(** The [for chunk in chunk_iter] loop.  It ends with the state reached
    and the exception, if any, that interrupted it. *)
Fixpoint ingest_loop (chunks : list DataFrame) (st : ingest_state)
    : ingest_state * option exn :=
  match chunks with
  | [] => (st, None)
  | chunk :: rest =>
      let st :=
        {| total_rows_processed := total_rows_processed st;
           batch_count := (batch_count st + 1)%Z;
           table := table st;
           log := log st;
           submitted := submitted st |} in
      match preprocess_dataframe chunk with
      | Raise e => batch_failed st e chunk
      | Ok chunk =>
          let (tbl, failure) := sql_write chunk (table st) in
          let st :=
            {| total_rows_processed := total_rows_processed st;
               batch_count := batch_count st;
               table := tbl;
               log := log st;
               submitted := (submitted st ++ [chunk])%list |} in
          match failure with
          | Some e => batch_failed st e chunk
          | None =>
              let total := (total_rows_processed st + df_len chunk)%Z in
              let st :=
                {| total_rows_processed := total;
                   batch_count := batch_count st;
                   table := table st;
                   log := (log st ++ [InfoBatch (batch_count st) (df_len chunk);
                                      InfoProgress total])%list;
                   submitted := submitted st |} in
              ingest_loop rest st
          end
      end
  end.

(** The outer [except]: two more error lines, then [raise]. *)
Definition run_failed (st : ingest_state) (e : exn)
    : result Z * ingest_state :=
  (Raise e,
   add_log st [ErrorCritical e; ErrorRowsBefore (total_rows_processed st)]).

(** [ingest_data_to_clickhouse] on the chunks that [pd.read_csv] delivers:
    the value returned or the exception raised, and the final state. *)
Definition ingest_data_to_clickhouse (tbl : sink_table)
    (chunks : list DataFrame) (clk : clock) : result Z * ingest_state :=
  let st := ingest_init tbl in
  match ingest_loop chunks st with
  | (st, Some e) => run_failed st e
  | (st, None) =>
      let total_time := elapsed clk in
      let st := add_log st [InfoCompleted (total_rows_processed st)] in
      match int_div_float (total_rows_processed st) total_time with
      | Raise e => run_failed st e
      | Ok _ => (Ok (total_rows_processed st), st)
      end
  end.
End Ingestion.

(* ================================================================== *)
(** * Vocabulary of the specification *)
(* ================================================================== *)

(** [pat] occurs in [s]. *)
Definition contains (pat s : string) : Prop :=
  exists a b, s = a ++ pat ++ b.

Fixpoint string_forall (p : ascii -> bool) (s : string) : bool :=
  match s with
  | EmptyString => true
  | String c s' => p c && string_forall p s'
  end.

Definition nonspace (c : ascii) : bool := negb (isspace c).

(** A word: at least one character, none of them whitespace. *)
Definition word (w : string) : Prop :=
  w <> EmptyString /\ string_forall nonspace w = true.

(** Two whitespace characters in a row. *)
Fixpoint adjacent_spaces (s : string) : bool :=
  match s with
  | String a ((String b _) as t) => isspace a && isspace b || adjacent_spaces t
  | _ => false
  end.

Definition first_char (s : string) : option ascii :=
  match s with
  | EmptyString => None
  | String c _ => Some c
  end.

Fixpoint last_char (s : string) : option ascii :=
  match s with
  | EmptyString => None
  | String c EmptyString => Some c
  | String _ t => last_char t
  end.

(** [runs s ws]: [s] is the words [ws], in order, separated by non-empty
    runs of whitespace, with possibly whitespace before and after. *)
Inductive runs : string -> list string -> Prop :=
| runs_blank : forall g,
    string_forall isspace g = true -> runs g []
| runs_word : forall g w rest ws,
    string_forall isspace g = true ->
    word w ->
    match first_char rest with Some c => isspace c = true | None => True end ->
    runs rest ws ->
    runs (g ++ w ++ rest) (w :: ws).

Definition plain (c : ascii) : bool := nonspace c || Ascii.eqb c SP.

Definition not_space_opt (o : option ascii) : Prop :=
  match o with
  | Some c => isspace c = false
  | None => True
  end.

(** The text of a free-text field after the two replacements and the
    join of the split. *)
Definition collapse (s : string) : string :=
  join " " (split (replace CR SP (replace LF SP s))).

(** What a collapsed text looks like. *)
Record collapsed (s out : string) : Prop := {
  col_words : exists ws, runs s ws /\ out = join " " ws;
  col_plain : string_forall plain out = true;
  col_adjacent : adjacent_spaces out = false;
  col_first : not_space_opt (first_char out);
  col_last : not_space_opt (last_char out);
  col_blank : string_forall isspace s = true -> out = ""
}.

Section SpecNormalizer.
Context {B : Builtins}.

(** [record.get(field, '')]. *)
Definition raw (record : dict) (field : string) : value :=
  dict_get_default record field (VStr "").

(** A free-text field after the loop over [text_fields]. *)
Definition clean_text (v : value) : value :=
  if truthy v then VStr (collapse (py_str v)) else v.

Definition images_text (record : dict) : value :=
  let images := dict_get_default record "images" (VDict []) in
  if truthy images
  then VStr (if is_dict images
             then json_dumps match images with VDict d => d | _ => [] end
             else py_str images)
  else VStr "".

Definition vote_text (record : dict) : value :=
  if truthy (raw record "vote") then VStr (py_str (raw record "vote"))
  else VStr "".

Definition overall_of (record : dict) : result spec_float :=
  try_except
    (if truthy (raw record "overall") then py_float (raw record "overall")
     else Ok float_zero)
    value_or_type_error (Ok float_zero).

Definition unix_time_of (record : dict) : result Z :=
  try_except
    (if truthy (raw record "unixReviewTime")
     then py_int (raw record "unixReviewTime")
     else Ok 0%Z)
    value_or_type_error (Ok 0%Z).

Definition verified_of (record : dict) : bool :=
  str_in (lower (py_str (raw record "verified"))) ["true"; "1"; "yes"].

(** The flat row, once the two numeric conversions have returned. *)
Definition flat_row (record : dict) (overall : spec_float) (unix_time : Z)
    : dict :=
  [("overall", VFloat overall);
   ("verified", VBool (verified_of record));
   ("reviewTime", raw record "reviewTime");
   ("reviewerID", raw record "reviewerID");
   ("asin", raw record "asin");
   ("style", raw record "style");
   ("reviewerName", clean_text (raw record "reviewerName"));
   ("reviewText", clean_text (raw record "reviewText"));
   ("summary", clean_text (raw record "summary"));
   ("unixReviewTime", VInt unix_time);
   ("images", images_text record);
   ("vote", vote_text record)].
End SpecNormalizer.

(** The default that the specification gives each field of the flat row. *)
Definition field_default (field : string) : value :=
  if String.eqb field "overall" then VFloat float_zero
  else if String.eqb field "unixReviewTime" then VInt 0
  else if String.eqb field "verified" then VBool false
  else VStr "".

(** The fields of the flat row, in the order of the CSV header. *)
Definition flat_fields : list string :=
  (basic_fields ++ ["images"; "vote"])%list.

(** [ceil(n / c)] for [c >= 1]. *)
Definition ceil_div (n c : Z) : Z := ((n + c - 1) / c)%Z.

(** The destination after a sequence of [to_csv] calls. *)
Definition replay (cs : list to_csv_call) (dest0 : option csv_file)
    : option csv_file :=
  fold_left (fun d c => to_csv c d) cs dest0.

Definition is_header (l : csv_line) : bool :=
  match l with
  | Header _ => true
  | Row _ => false
  end.

Section SpecReader.
Context {B : Builtins}.

(** The record on a line, when the line is non-blank and decodes. *)
Definition decoded_line (line : string) : option value :=
  if String.eqb (strip line) "" then None
  else match json_loads (strip line) with
       | Decoded record => Some record
       | _ => None
       end.

(** A non-blank line that the decoder rejects with [JSONDecodeError]. *)
Definition malformed (line : string) : bool :=
  negb (String.eqb (strip line) "")
  && match json_loads (strip line) with DecodeError => true | _ => false end.

(** A non-blank line on which the decoder raises another exception. *)
Definition fatal (line : string) : option exn :=
  if String.eqb (strip line) "" then None
  else match json_loads (strip line) with
       | OtherError e => Some e
       | _ => None
       end.

(** The records of the well-formed non-blank lines, in input order. *)
Fixpoint decoded (lines : list string) : list value :=
  match lines with
  | [] => []
  | line :: rest =>
      match decoded_line line with
      | Some v => v :: decoded rest
      | None => decoded rest
      end
  end.

(** The numbers of the malformed lines, counting from [n]. *)
Fixpoint malformed_numbers (n : Z) (lines : list string) : list Z :=
  match lines with
  | [] => []
  | line :: rest =>
      if malformed line then n :: malformed_numbers (n + 1) rest
      else malformed_numbers (n + 1) rest
  end.

(** Every record of a list goes through the normalizer. *)
Fixpoint normalize_all (records : list value) : result (list dict) :=
  match records with
  | [] => Ok []
  | r :: rest =>
      c <- normalize r ;;
      cs <- normalize_all rest ;;
      Ok (c :: cs)
  end.
End SpecReader.

(** An instance on which the model runs.  It decodes the line [{}] only,
    reads integer literals as numbers, and prints the special floats and
    the floats that are whole numbers (any other float as [?]). *)
Definition int_literal (s : string) : option Z :=
  option_map Z.of_int (NilZero.int_of_string (strip s)).

Definition whole_float_repr (f : spec_float) : string :=
  match int_of_float f with
  | Ok z =>
      match float_of_int z with
      | Ok g =>
          if (SFeqb f g && (Z.abs z <? 10 ^ 16))%Z
          then str_of_int z ++ ".0" else "?"
      | Raise _ => "?"
      end
  | Raise _ => "?"
  end.

Definition sample_builtins : Builtins := {|
  float_repr := fun f =>
    match f with
    | S754_nan => "nan"
    | S754_infinity false => "inf"
    | S754_infinity true => "-inf"
    | S754_zero false => "0.0"
    | S754_zero true => "-0.0"
    | S754_finite _ _ _ => whole_float_repr f
    end;
  str_repr := fun s => "'" ++ s ++ "'";
  json_dumps := fun d => match d with [] => "{}" | _ => "{...}" end;
  float_of_str := fun s =>
    match int_literal s with
    | Some z => match float_of_int z with Ok f => Some f | Raise _ => None end
    | None => None
    end;
  int_of_str := int_literal;
  json_loads := fun s =>
    if String.eqb s "{}" then Decoded (VDict []) else DecodeError;
  numeric_of_str := fun s => option_map inl (int_literal s)
|}.

(** The flags of [n] successive groups when only the first one is marked. *)
Definition first_only (n : nat) : list bool :=
  match n with
  | O => []
  | S k => true :: repeat false k
  end.

Section SpecWriter.
Context {B : Builtins}.

(** One turn of the converter's loop on a record already normalized. *)
Definition feed (chunk_size : Z) (st : conv_state) (cleaned : dict)
    : conv_state :=
  let st := append_record st cleaned in
  if (chunk_size <=? len (chunk_data st))%Z
  then clear_chunk (write_chunk st)
  else st.

(** The [if chunk_data:] block after the loop. *)
Definition finish (st : conv_state) : conv_state :=
  match chunk_data st with
  | [] => st
  | _ => write_chunk st
  end.

(** What holds of the converter's state while it loops, for a chunk size
    [c >= 1], a destination [dest0] at the start and the normalized records
    [processed] so far. *)
Record conv_inv (c : Z) (dest0 : option csv_file) (processed : list dict)
    (st : conv_state) : Prop := {
  inv_room : (len (chunk_data st) < c)%Z;
  inv_count : chunk_count st = len (calls st);
  inv_rows :
    (List.concat (map call_rows (calls st)) ++ chunk_data st)%list = processed;
  inv_full : Forall (fun k => len (call_rows k) = c) (calls st);
  inv_total : total_records st = len (List.concat (map call_rows (calls st)));
  inv_header : map call_header (calls st) = first_only (List.length (calls st));
  inv_append :
    map call_append (calls st) = map negb (first_only (List.length (calls st)));
  inv_dest :
    dest st =
    match calls st with
    | [] => dest0
    | k :: _ =>
        Some (Header (columns_of (call_rows k))
                :: map Row (List.concat (map call_rows (calls st))))
    end
}.

(** What holds of the converter's state once the last chunk is written. *)
Record conv_done (c : Z) (dest0 : option csv_file) (processed : list dict)
    (st : conv_state) : Prop := {
  done_rows : List.concat (map call_rows (calls st)) = processed;
  done_count : len (calls st) = ceil_div (len processed) c;
  done_full :
    Forall (fun g => len g = c) (removelast (map call_rows (calls st)));
  done_sizes :
    Forall (fun g => (1 <= len g <= c)%Z) (map call_rows (calls st));
  done_total : total_records st = len processed;
  done_header : map call_header (calls st) = first_only (List.length (calls st));
  done_append :
    map call_append (calls st) = map negb (first_only (List.length (calls st)));
  done_dest :
    dest st =
    match calls st with
    | [] => dest0
    | k :: _ => Some (Header (columns_of (call_rows k)) :: map Row processed)
    end
}.
End SpecWriter.

(** The row that the empty object [{}] normalizes to. *)
Definition blank_row : dict :=
  [("overall", VFloat float_zero); ("verified", VBool false);
   ("reviewTime", VStr ""); ("reviewerID", VStr ""); ("asin", VStr "");
   ("style", VStr ""); ("reviewerName", VStr ""); ("reviewText", VStr "");
   ("summary", VStr ""); ("unixReviewTime", VInt 0);
   ("images", VStr ""); ("vote", VStr "")].

Section SpecLoader.
Context {B : Builtins}.

(** What the re-cast step does to the column [col], as the specification
    words it: null to empty string and string form for the string columns,
    an integer for [verified_purchase], a number or 0 for the numeric
    columns, nothing for any other column. *)
Definition recast (col : string) (s : series) : result series :=
  if str_in col string_columns then Ok (astype_str (fillna (CStr "") s))
  else if String.eqb col "verified_purchase" then astype_int s
  else if str_in col numeric_columns
       then Ok (fillna (CInt 0) (to_numeric_coerce s))
  else Ok s.

(** A cell that [astype(int)] turns into 0 or 1. *)
Definition is_flag (c : cell) : bool :=
  match c with
  | CBool _ => true
  | CInt z => (z =? 0)%Z || (z =? 1)%Z
  | _ => false
  end.
End SpecLoader.

(** A sink that refuses every frame with more than one column and stores
    nothing of it. *)
Definition narrow_sink (tbl : sink_table) (df : DataFrame) : insert_outcome :=
  match df with
  | _ :: _ :: _ => Failed [] (SinkError "too many columns")
  | _ => Committed
  end.

(** Three small frames: the second has two columns, so [narrow_sink]
    refuses it. *)
Definition batch_ok : DataFrame := [("asin", [CStr "B01"])].

Definition batch_wide : DataFrame :=
  [("asin", [CStr "B02"]); ("user_id", [CStr "u2"])].

Definition batch_later : DataFrame := [("asin", [CStr "B03"])].

(** A clock: the run starts at 0.0 and ends at 1.0. *)
Definition ticking_clock : clock :=
  {| t_start := float_zero; t_end := float_one |}.

(** A clock that gives the same reading twice: the run is over within one
    tick of [time.time()]. *)
Definition stopped_clock : clock :=
  {| t_start := float_one; t_end := float_one |}.

(** End-to-end scenario 1 of the specification: the decoded input line and
    the row expected from it. *)
Definition scenario_record : dict :=
  [("overall", VStr "4"); ("verified", VStr "true");
   ("reviewText", VStr ("Great" ++ String LF "product"));
   ("unixReviewTime", VStr "1600000000")].

Definition scenario_row : dict :=
  [("overall", VFloat (binary_normalize prec64 emax64 4 0 false));
   ("verified", VBool true);
   ("reviewTime", VStr ""); ("reviewerID", VStr ""); ("asin", VStr "");
   ("style", VStr ""); ("reviewerName", VStr "");
   ("reviewText", VStr "Great product"); ("summary", VStr "");
   ("unixReviewTime", VInt 1600000000);
   ("images", VStr ""); ("vote", VStr "")].

(* ------------------------------------------------------------------ *)
(** ** Vocabulary for the behaviour outside the claims *)

(** The line numbers of the progress lines among the events, in order. *)
Fixpoint infos (evs : list event) : list Z :=
  match evs with
  | [] => []
  | LogInfo n :: rest => n :: infos rest
  | _ :: rest => infos rest
  end.

(** A line with nothing but whitespace on it. *)
Definition blank (line : string) : bool := String.eqb (strip line) "".

(** The four fields that the normalizer copies without looking at them. *)
Definition copied_fields : list string :=
  ["reviewTime"; "reviewerID"; "asin"; "style"].

(** A character of the decimal form of an integer. *)
Definition digit_or_minus (c : ascii) : bool :=
  let n := N_of_ascii c in ((48 <=? n) && (n <=? 57) || (n =? 45))%N.

Section SpecNumbers.
Context {B : Builtins}.

(** The rating that comes out of a raw value, kind by kind, when the
    normalizer returns.  (On an integer too large for a float the
    normalizer raises; the last branch of that case is never used.) *)
Definition rating_of (v : value) : spec_float :=
  match v with
  | VBool true => float_one
  | VInt z => match float_of_int z with Ok f => f | Raise _ => float_zero end
  | VFloat (S754_zero _) => float_zero
  | VFloat f => f
  | VStr s =>
      if String.eqb s "" then float_zero
      else match float_of_str s with Some f => f | None => float_zero end
  | VNone | VBool false | VList _ | VDict _ => float_zero
  end.

(** The epoch time that comes out of a raw value, kind by kind, when the
    normalizer returns.  (On an infinite float the normalizer raises.) *)
Definition epoch_of (v : value) : Z :=
  match v with
  | VBool true => 1%Z
  | VInt z => z
  | VFloat f => match int_of_float f with Ok z => z | Raise _ => 0%Z end
  | VStr s =>
      if String.eqb s "" then 0%Z
      else match int_of_str s with Some z => z | None => 0%Z end
  | VNone | VBool false | VList _ | VDict _ => 0%Z
  end.
End SpecNumbers.

(** The records of the chunks that are complete when [cleaned] have been
    read: the first [c * floor(N / c)] of them. *)
Definition complete_rows (c : Z) (cleaned : list dict) : list dict :=
  firstn (Z.to_nat (c * (len cleaned / c))) cleaned.

(** The destination once [rows] have been written over [dest0]. *)
Definition written (dest0 : option csv_file) (rows : list dict)
    : option csv_file :=
  match rows with
  | [] => dest0
  | _ => Some (Header flat_fields :: map Row rows)
  end.

(** The number of rows of a list of frames. *)
Definition total_rows (dfs : list DataFrame) : Z :=
  fold_right (fun d acc => (df_len d + acc)%Z) 0%Z dfs.

(** A sink that commits every insert. *)
Definition always_commits (tbl : sink_table) (df : DataFrame)
    : insert_outcome := Committed.

Section SpecCast.
Context {B : Builtins}.

(** A cell that [astype(int)] refuses: a missing value, an infinity, or a
    string that is not an integer literal. *)
Definition refused_by_cast (c : cell) : bool :=
  match c with
  | CFloat S754_nan | CFloat (S754_infinity _) => true
  | CStr s => match int_of_str s with Some _ => false | None => true end
  | _ => false
  end.

(** The integers of an [int64] column. *)
Definition int64 (z : Z) : bool := ((- 2 ^ 63 <=? z) && (z <? 2 ^ 63))%Z.

(** The cells on which the cell-by-cell [cell_int] stands for
    [astype(int)]: a boolean, an integer or a finite float within the
    [int64] range, a missing value, and a string that is no integer
    literal or one within the range.  Beyond the range, and on the
    infinities, what the library does depends on the dtype of the column
    (it raises [OverflowError] on a string of an object column and wraps
    a cell of a [float64] column around). *)
Definition int64_cell (c : cell) : bool :=
  match c with
  | CBool _ => true
  | CInt z => int64 z
  | CFloat S754_nan => true
  | CFloat f =>
      match int_of_float f with Ok z => int64 z | Raise _ => false end
  | CStr s => match int_of_str s with Some z => int64 z | None => true end
  end.

(** A missing value, or a string that is not an integer literal. *)
Definition no_integer (c : cell) : bool :=
  match c with
  | CFloat S754_nan => true
  | CStr s => match int_of_str s with Some _ => false | None => true end
  | _ => false
  end.

(** One cell of a string column after the re-cast. *)
Definition string_cell (c : cell) : cell :=
  CStr (if isna c then "" else cell_str c).

(** One cell of a numeric column after the re-cast. *)
Definition numeric_cell (c : cell) : cell :=
  match c with
  | CStr x =>
      match numeric_of_str x with
      | Some (inl z) => CInt z
      | Some (inr f) => if isna (CFloat f) then CInt 0 else CFloat f
      | None => CInt 0
      end
  | _ => if isna c then CInt 0 else c
  end.
End SpecCast.

(** A frame with a flag column, a numeric column with a hole and a string
    in it, a string column with a hole, and a column the re-cast ignores. *)
Definition mixed_frame : DataFrame :=
  [("asin", [CStr "B01"; CFloat S754_nan]);
   ("verified_purchase", [CBool true; CBool false]);
   ("rating", [CStr "5"; CStr "n/a"]);
   ("note", [CInt 7; CFloat S754_nan])].

Definition mixed_frame_recast : DataFrame :=
  [("asin", [CStr "B01"; CStr ""]);
   ("verified_purchase", [CInt 1; CInt 0]);
   ("rating", [CInt 5; CInt 0]);
   ("note", [CInt 7; CFloat S754_nan])].

(** A record with a key outside the allow-list, a null and a list. *)
Definition odd_record : dict :=
  [("overall", VList [VInt 5]); ("verified", VBool true);
   ("reviewerID", VNone); ("summary", VInt 0);
   ("reviewText", VStr (String SP "a" ++ String LF " b "));
   ("unixReviewTime", VFloat S754_nan); ("style", VDict [("k", VInt 1)]);
   ("helpful", VInt 3)].

Definition odd_row : dict :=
  [("overall", VFloat float_zero); ("verified", VBool true);
   ("reviewTime", VStr ""); ("reviewerID", VNone); ("asin", VStr "");
   ("style", VDict [("k", VInt 1)]); ("reviewerName", VStr "");
   ("reviewText", VStr "a b"); ("summary", VInt 0);
   ("unixReviewTime", VInt 0); ("images", VStr ""); ("vote", VStr "")].

(** A record whose rating is an integer and whose epoch time is a float. *)
Definition numeric_record : dict :=
  [("overall", VInt 5); ("unixReviewTime", VFloat float_one)].

(** The line [{"unixReviewTime":1e999}]: the number is beyond the floats
    and [json.loads] reads it as infinity. *)
Definition DQ : ascii := ascii_of_nat 34.

Definition infinite_time_line : string :=
  "{" ++ String DQ "unixReviewTime" ++ String DQ ":1e999}".

Definition infinite_time_record : value :=
  VDict [("unixReviewTime", VFloat float_inf)].

(** A line that holds an integer literal of 4301 digits: one more than
    the interpreter converts. *)
Definition long_integer_line : string :=
  string_of_list_ascii (repeat "1"%char 4301).

(** [sample_builtins] with a decoder that also reads the line [[]] and
    the line above, and that raises [ValueError] on the long integer. *)
Definition wider_builtins : Builtins := {|
  float_repr := float_repr (Builtins := sample_builtins);
  str_repr := str_repr (Builtins := sample_builtins);
  json_dumps := json_dumps (Builtins := sample_builtins);
  float_of_str := float_of_str (Builtins := sample_builtins);
  int_of_str := int_of_str (Builtins := sample_builtins);
  json_loads := fun s =>
    if String.eqb s "[]" then Decoded (VList [])
    else if String.eqb s infinite_time_line then Decoded infinite_time_record
    else if String.eqb s long_integer_line then OtherError ValueError
    else json_loads (Builtins := sample_builtins) s;
  numeric_of_str := numeric_of_str (Builtins := sample_builtins)
|}.

(** A frame as [pd.read_csv] delivers it, with a hole in a string column,
    a column of flags and a column that the re-cast does not name; and the
    same frame after the re-cast. *)
Definition flagged_frame : DataFrame :=
  [("asin", [CStr "B01"; CFloat S754_nan]);
   ("verified_purchase", [CBool true; CBool false]);
   ("note", [CInt 7; CInt 8])].

Definition flagged_frame_recast : DataFrame :=
  [("asin", [CStr "B01"; CStr ""]);
   ("verified_purchase", [CInt 1; CInt 0]);
   ("note", [CInt 7; CInt 8])].

(** A frame whose flag column has a hole. *)
Definition holed_frame : DataFrame :=
  [("asin", [CStr "B01"; CStr "B02"]);
   ("verified_purchase", [CBool true; CFloat S754_nan])].

(* ================================================================== *)
(** * Strings: facts about [split] and [join] *)
(* ================================================================== *)

Lemma append_nil_r (s : string) : s ++ "" = s.
Proof. induction s; simpl; congruence. Qed.

Lemma append_assoc (a b c : string) : (a ++ b) ++ c = a ++ b ++ c.
Proof. induction a; simpl; congruence. Qed.

Lemma string_forall_app p (a b : string) :
  string_forall p (a ++ b) = string_forall p a && string_forall p b.
Proof.
  induction a as [|c a IH]; simpl; [reflexivity|].
  rewrite IH. apply andb_assoc.
Qed.

Lemma isspace_SP : isspace SP = true.
Proof. reflexivity. Qed.

Lemma isspace_LF : isspace LF = true.
Proof. reflexivity. Qed.

Lemma isspace_CR : isspace CR = true.
Proof. reflexivity. Qed.

Lemma flush_word_word w :
  string_forall nonspace w = true -> Forall word (flush_word w).
Proof.
  intros Hw. destruct w; simpl; constructor; [|constructor].
  split; [discriminate|exact Hw].
Qed.

Lemma split_scan_words s : forall w,
  string_forall nonspace w = true -> Forall word (split_scan w s).
Proof.
  induction s as [|c s IH]; intros w Hw; simpl.
  - now apply flush_word_word.
  - destruct (isspace c) eqn:Hc.
    + apply Forall_app. split; [now apply flush_word_word|now apply IH].
    + apply IH. rewrite string_forall_app, Hw. simpl.
      unfold nonspace. now rewrite Hc.
Qed.

Lemma split_words s : Forall word (split s).
Proof. now apply split_scan_words. Qed.

Lemma runs_space c s ws :
  isspace c = true -> runs s ws -> runs (String c s) ws.
Proof.
  intros Hc H. inversion H; subst.
  - constructor. simpl. now rewrite Hc.
  - change (String c (g ++ w ++ rest)) with (String c g ++ w ++ rest).
    constructor; auto. simpl. now rewrite Hc.
Qed.

Lemma split_scan_runs s : forall w,
  string_forall nonspace w = true -> runs (w ++ s) (split_scan w s).
Proof.
  induction s as [|c s IH]; intros w Hw; simpl.
  - rewrite append_nil_r. destruct w as [|a w]; simpl.
    + now constructor.
    + assert (H : runs ("" ++ String a w ++ "") [String a w]).
      { constructor; simpl; auto.
        - split; [discriminate|exact Hw].
        - now constructor. }
      simpl in H. now rewrite append_nil_r in H.
  - destruct (isspace c) eqn:Hc.
    + assert (Hs : runs (String c s) (split_scan "" s)).
      { apply runs_space; [exact Hc|]. now apply (IH ""). }
      destruct w as [|a w]; simpl; [exact Hs|].
      change (String a (w ++ String c s)) with ("" ++ String a w ++ String c s).
      constructor; simpl; auto.
      split; [discriminate|exact Hw].
    + replace (w ++ String c s) with ((w ++ String c "") ++ s)
        by (rewrite append_assoc; reflexivity).
      apply IH. rewrite string_forall_app, Hw. simpl.
      unfold nonspace. now rewrite Hc.
Qed.

(** [split] returns the maximal runs of non-whitespace characters. *)
Lemma split_runs s : runs s (split s).
Proof. exact (split_scan_runs s "" eq_refl). Qed.

Lemma join_cons w ws :
  join " " (w :: ws) =
  match ws with
  | [] => w
  | _ => w ++ String SP (join " " ws)
  end.
Proof. destruct ws; reflexivity. Qed.

Lemma nonspace_plain w :
  string_forall nonspace w = true -> string_forall plain w = true.
Proof.
  induction w as [|c w IH]; simpl; [reflexivity|].
  intros H. apply andb_true_iff in H as [Hc Hw].
  rewrite (IH Hw), andb_true_r. unfold plain. now rewrite Hc.
Qed.

Lemma join_plain ws :
  Forall word ws -> string_forall plain (join " " ws) = true.
Proof.
  induction 1 as [|w ws [_ Hw] _ IH]; [reflexivity|].
  rewrite join_cons. destruct ws as [|w' ws'].
  - now apply nonspace_plain.
  - rewrite string_forall_app, (nonspace_plain _ Hw).
    cbn [string_forall andb]. now rewrite IH.
Qed.

Lemma first_char_app_word w t :
  w <> "" -> first_char (w ++ t) = first_char w.
Proof. destruct w; [congruence|reflexivity]. Qed.

Lemma word_first w : word w -> not_space_opt (first_char w).
Proof.
  intros [_ Hw]. destruct w as [|c w]; simpl in *; [exact I|].
  apply andb_true_iff in Hw as [Hc _].
  unfold nonspace in Hc. now apply negb_true_iff in Hc.
Qed.

Lemma join_first ws :
  Forall word ws -> not_space_opt (first_char (join " " ws)).
Proof.
  destruct 1 as [|w ws Hw _]; [exact I|].
  rewrite join_cons. destruct ws.
  - now apply word_first.
  - rewrite first_char_app_word by apply Hw. now apply word_first.
Qed.

Lemma join_nonempty w ws : word w -> join " " (w :: ws) <> "".
Proof.
  intros [Hne _]. rewrite join_cons.
  destruct ws; [exact Hne|]. destruct w; [congruence|discriminate].
Qed.

Lemma last_char_app s t : t <> "" -> last_char (s ++ t) = last_char t.
Proof.
  intros Ht. induction s as [|c s IH]; [reflexivity|].
  simpl. destruct (s ++ t) eqn:E; [|exact IH].
  destruct s; simpl in E; [congruence|discriminate].
Qed.

Lemma word_last w : word w -> not_space_opt (last_char w).
Proof.
  intros [_ Hw]. induction w as [|c w IH]; [exact I|].
  simpl in Hw. apply andb_true_iff in Hw as [Hc Hw].
  destruct w as [|c' w']; [|exact (IH Hw)].
  simpl. unfold nonspace in Hc. now apply negb_true_iff in Hc.
Qed.

Lemma join_last ws :
  Forall word ws -> not_space_opt (last_char (join " " ws)).
Proof.
  induction 1 as [|w ws Hw Hws IH]; [exact I|].
  rewrite join_cons. destruct ws as [|w' ws'].
  - now apply word_last.
  - rewrite last_char_app; [|discriminate].
    change (String SP (join " " (w' :: ws')))
      with (String SP "" ++ join " " (w' :: ws')).
    rewrite last_char_app; [exact IH|].
    inversion Hws; subst. now apply join_nonempty.
Qed.

Lemma adjacent_spaces_word w t :
  string_forall nonspace w = true ->
  adjacent_spaces (w ++ t) = adjacent_spaces t.
Proof.
  induction w as [|a w IH]; [reflexivity|].
  simpl. intros H. apply andb_true_iff in H as [Ha Hw].
  unfold nonspace in Ha. apply negb_true_iff in Ha.
  rewrite <- (IH Hw). destruct (w ++ t); [reflexivity|].
  now rewrite Ha.
Qed.

Lemma join_no_adjacent_spaces ws :
  Forall word ws -> adjacent_spaces (join " " ws) = false.
Proof.
  induction 1 as [|w ws [Hne Hw] Hws IH]; [reflexivity|].
  rewrite join_cons. destruct ws as [|w' ws'].
  - rewrite <- (append_nil_r w). now rewrite adjacent_spaces_word.
  - rewrite adjacent_spaces_word by exact Hw.
    pose proof (join_first Hws) as Hf.
    destruct (join " " (w' :: ws')) as [|c t] eqn:E; [reflexivity|].
    simpl in Hf.
    change (adjacent_spaces (String SP (String c t)))
      with (isspace SP && isspace c || adjacent_spaces (String c t)).
    now rewrite Hf, andb_false_r, IH.
Qed.

Lemma contains_char p c s :
  contains (String c "") s -> string_forall p s = true -> p c = true.
Proof.
  intros (a & b & ->). rewrite string_forall_app. simpl.
  intros H. apply andb_true_iff in H as [_ H].
  now apply andb_true_iff in H as [H _].
Qed.

Lemma contains_adjacent a b s :
  isspace a = true -> isspace b = true ->
  contains (String a (String b "")) s -> adjacent_spaces s = true.
Proof.
  intros Ha Hb (pre & post & ->). simpl.
  induction pre as [|c pre IH]; simpl.
  - now rewrite Ha, Hb.
  - destruct (pre ++ String a (String b post)) eqn:E.
    + destruct pre; discriminate.
    + rewrite IH. apply orb_true_r.
Qed.

Lemma first_of_cons c t s : s = String c t -> first_char s = Some c.
Proof. now intros ->. Qed.

Lemma last_of_snoc c t s : s = t ++ String c "" -> last_char s = Some c.
Proof. intros ->. now rewrite last_char_app. Qed.

(** Replacing a whitespace character by another one does not change the
    words that [split] finds. *)
Lemma split_scan_replace old new s : forall w,
  isspace old = true -> isspace new = true ->
  split_scan w (replace old new s) = split_scan w s.
Proof.
  induction s as [|c s IH]; intros w Ho Hn; [reflexivity|].
  simpl. destruct (Ascii.eqb c old) eqn:E.
  - apply Ascii.eqb_eq in E. subst c. rewrite Hn, Ho. now rewrite IH.
  - destruct (isspace c); now rewrite IH.
Qed.

Lemma all_space_no_words s : forall w,
  string_forall isspace s = true -> split_scan w s = flush_word w.
Proof.
  induction s as [|c s IH]; intros w; simpl; [reflexivity|].
  intros H. apply andb_true_iff in H as [Hc Hs].
  rewrite Hc, (IH "" Hs). simpl. apply app_nil_r.
Qed.

Lemma collapse_split s : collapse s = join " " (split s).
Proof.
  unfold collapse, split.
  now rewrite !split_scan_replace.
Qed.

Lemma collapse_collapsed s : collapsed s (collapse s).
Proof.
  rewrite collapse_split. pose proof (split_words s) as Hw.
  constructor.
  - exists (split s). split; [apply split_runs|reflexivity].
  - now apply join_plain.
  - now apply join_no_adjacent_spaces.
  - now apply join_first.
  - now apply join_last.
  - intros Hs. unfold split. now rewrite all_space_no_words.
Qed.

(* ================================================================== *)
(** * The record normalizer *)
(* ================================================================== *)

Lemma assoc_set_set V (d : list (string * V)) k a b :
  assoc_set (assoc_set d k a) k b = assoc_set d k b.
Proof.
  induction d as [|[k' v'] d IH]; simpl.
  - now rewrite String.eqb_refl.
  - destruct (String.eqb k' k) eqn:E; simpl.
    + now rewrite String.eqb_refl.
    + now rewrite E, IH.
Qed.

Lemma assoc_set_same V (d : list (string * V)) k v :
  assoc_get d k = Some v -> assoc_set d k v = d.
Proof.
  induction d as [|[k' v'] d IH]; simpl; [discriminate|].
  destruct (String.eqb k' k) eqn:E.
  - apply String.eqb_eq in E. now intros [= ->]; subst.
  - intros H. now rewrite IH.
Qed.

Lemma str_in_In x l : str_in x l = true <-> In x l.
Proof.
  unfold str_in. rewrite existsb_exists. split.
  - intros (y & Hy & E). apply String.eqb_eq in E. now subst.
  - intros H. exists x. split; [exact H|apply String.eqb_refl].
Qed.

Section NormalizerFacts.
Context {B : Builtins}.

Lemma clean_text_field_set d field v :
  assoc_get d field = Some v ->
  clean_text_field d field = assoc_set d field (clean_text v).
Proof.
  intros H. unfold clean_text_field, clean_text. rewrite H.
  destruct (truthy v).
  - now rewrite assoc_set_set.
  - now rewrite assoc_set_same.
Qed.

Lemma basic_fields_loop record :
  fold_left
    (fun cleaned field =>
       assoc_set cleaned field (dict_get_default record field (VStr "")))
    basic_fields [] =
  [("overall", raw record "overall"); ("verified", raw record "verified");
   ("reviewTime", raw record "reviewTime");
   ("reviewerID", raw record "reviewerID"); ("asin", raw record "asin");
   ("style", raw record "style");
   ("reviewerName", raw record "reviewerName");
   ("reviewText", raw record "reviewText");
   ("summary", raw record "summary");
   ("unixReviewTime", raw record "unixReviewTime")].
Proof. reflexivity. Qed.

(** The normalizer, step by step, builds [flat_row] around the two
    numeric conversions. *)
Lemma clean_and_flatten_record_eq record :
  clean_and_flatten_record record =
  (o <- overall_of record ;;
   t <- unix_time_of record ;;
   Ok (flat_row record o t)).
Proof.
  unfold clean_and_flatten_record.
  rewrite basic_fields_loop. cbv zeta.
  replace (if is_dict (dict_get_default record "images" (VDict []))
           then _ else _)
    with (assoc_set
            [("overall", raw record "overall");
             ("verified", raw record "verified");
             ("reviewTime", raw record "reviewTime");
             ("reviewerID", raw record "reviewerID");
             ("asin", raw record "asin");
             ("style", raw record "style");
             ("reviewerName", raw record "reviewerName");
             ("reviewText", raw record "reviewText");
             ("summary", raw record "summary");
             ("unixReviewTime", raw record "unixReviewTime")]
            "images" (images_text record)).
  2:{ unfold images_text. cbv zeta. destruct (is_dict _); reflexivity. }
  fold (raw record "vote"). fold (vote_text record).
  unfold text_fields. cbn [fold_left].
  rewrite (@clean_text_field_set _ "reviewText" (raw record "reviewText"))
    by reflexivity.
  rewrite (@clean_text_field_set _ "summary" (raw record "summary"))
    by reflexivity.
  rewrite (@clean_text_field_set _ "reviewerName"
             (raw record "reviewerName")) by reflexivity.
  cbn [assoc_set assoc_get dict_item String.eqb Ascii.eqb Bool.eqb bind].
  fold (overall_of record).
  destruct (overall_of record) as [o|e]; [|reflexivity].
  cbn [assoc_set assoc_get dict_item String.eqb Ascii.eqb Bool.eqb bind].
  fold (unix_time_of record).
  destruct (unix_time_of record) as [t|e]; reflexivity.
Qed.

Lemma clean_ok_inv record cleaned :
  clean_and_flatten_record record = Ok cleaned ->
  exists o t, overall_of record = Ok o /\ unix_time_of record = Ok t
              /\ cleaned = flat_row record o t.
Proof.
  rewrite clean_and_flatten_record_eq. unfold bind.
  destruct (overall_of record) as [o|]; [|discriminate].
  destruct (unix_time_of record) as [t|]; [|discriminate].
  intros [= <-]. now exists o, t.
Qed.

(** Every normalized record has the twelve columns, in header order. *)
Lemma clean_columns record cleaned :
  clean_and_flatten_record record = Ok cleaned ->
  map fst cleaned = flat_fields.
Proof.
  intros H. apply clean_ok_inv in H as (o & t & _ & _ & ->). reflexivity.
Qed.

Lemma raw_absent record field :
  assoc_get record field = None -> raw record field = VStr "".
Proof. unfold raw, dict_get_default. now intros ->. Qed.

Lemma raw_present record field v :
  assoc_get record field = Some v -> raw record field = v.
Proof. unfold raw, dict_get_default. now intros ->. Qed.

Lemma py_float_raises v e :
  py_float v = Raise e ->
  e = ValueError \/ e = TypeError \/ e = OverflowError.
Proof.
  destruct v as [|b|z|f|s|l|d]; simpl; try (intros [= <-]; auto; fail).
  - unfold float_of_int.
    destruct (binary_normalize _ _ _ _ _); try discriminate.
    intros [= <-]; auto.
  - destruct (float_of_str s); [discriminate|]. intros [= <-]; auto.
Qed.

Lemma py_int_raises v e :
  py_int v = Raise e ->
  e = ValueError \/ e = TypeError \/ e = OverflowError.
Proof.
  destruct v as [|b|z|f|s|l|d]; simpl; try (intros [= <-]; auto; fail).
  - destruct f; simpl; try discriminate; intros [= <-]; auto.
  - destruct (int_of_str s); [discriminate|]. intros [= <-]; auto.
Qed.

Lemma try_except_overflow A (body : result A) dflt e :
  (forall e', body = Raise e' ->
              e' = ValueError \/ e' = TypeError \/ e' = OverflowError) ->
  try_except body value_or_type_error (Ok dflt) = Raise e ->
  body = Raise OverflowError /\ e = OverflowError.
Proof.
  intros Hb. unfold try_except. destruct body as [a|e']; [discriminate|].
  destruct (Hb e' eq_refl) as [-> | [-> | ->]]; simpl; try discriminate.
  now intros [= <-].
Qed.

(** X1.  The only exception that leaves the normalizer is
    [OverflowError]. *)
Lemma normalizer_raises_only_overflow record e :
  clean_and_flatten_record record = Raise e -> e = OverflowError.
Proof.
  rewrite clean_and_flatten_record_eq. unfold bind.
  destruct (overall_of record) as [o|e1] eqn:Ho.
  - destruct (unix_time_of record) as [t|e2] eqn:Ht; [discriminate|].
    intros [= <-]. unfold unix_time_of in Ht.
    apply try_except_overflow in Ht; [apply Ht|].
    intros e'. destruct (truthy _); [apply py_int_raises|discriminate].
  - intros [= <-]. unfold overall_of in Ho.
    apply try_except_overflow in Ho; [apply Ho|].
    intros e'. destruct (truthy _); [apply py_float_raises|discriminate].
Qed.

(** X2.  The normalizer returns unless the rating is an integer too large
    for a float or the epoch time is an infinite float. *)
Lemma normalizer_returns record :
  (forall z, raw record "overall" = VInt z ->
             float_of_int z <> Raise OverflowError) ->
  (forall s, raw record "unixReviewTime" <> VFloat (S754_infinity s)) ->
  exists cleaned, clean_and_flatten_record record = Ok cleaned.
Proof.
  intros Ho Ht. rewrite clean_and_flatten_record_eq.
  assert (H1 : exists o, overall_of record = Ok o).
  { unfold overall_of. destruct (truthy _); [|simpl; eauto].
    destruct (py_float _) as [f|e] eqn:E; simpl; eauto.
    destruct (py_float_raises _ E) as [-> | [-> | ->]]; simpl; eauto.
    exfalso. destruct (raw record "overall") as [|b|z|f|s|l|d] eqn:Er;
      simpl in E; try discriminate.
    - exact (Ho z eq_refl E).
    - destruct (float_of_str s); discriminate. }
  assert (H2 : exists t, unix_time_of record = Ok t).
  { unfold unix_time_of. destruct (truthy _); [|simpl; eauto].
    destruct (py_int _) as [z|e] eqn:E; simpl; eauto.
    destruct (py_int_raises _ E) as [-> | [-> | ->]]; simpl; eauto.
    exfalso. destruct (raw record "unixReviewTime") as [|b|z|f|s|l|d] eqn:Er;
      simpl in E; try discriminate.
    - destruct f as [sg|sg| |sg m ex]; simpl in E; try discriminate.
      exact (Ht sg eq_refl).
    - destruct (int_of_str s); discriminate. }
  destruct H1 as [o ->], H2 as [t ->]. simpl. eauto.
Qed.
End NormalizerFacts.


Section NormalizerClaims.
Context {B : Builtins}.

(** C1 (defect in the code).  The normalizer is not total: the two numeric
    conversions catch [ValueError] and [TypeError] only, so the
    [OverflowError] that [int] raises on an infinite float, and the one
    that [float] raises on an integer beyond the float range, leave
    [clean_and_flatten_record].  Both inputs are decoded JSON objects:
    [{"unixReviewTime": 1e999}] and [{"overall": 1000...0}] (400 zeros). *)
Theorem normalizer_overflow_escapes :
  clean_and_flatten_record [("unixReviewTime", VFloat float_inf)]
    = Raise OverflowError
  /\ clean_and_flatten_record [("overall", VInt (10 ^ 400))]
     = Raise OverflowError.
Proof.
  split; rewrite clean_and_flatten_record_eq; vm_compute; reflexivity.
Qed.

(** C3.  The normalized [verified] field is a boolean; it is true exactly
    when the lowercased string form of the raw value is "true", "1" or
    "yes"; it is false for the raw strings "false", "0", "no" and "", and
    when the field is absent. *)
Theorem verified_true_iff record cleaned :
  clean_and_flatten_record record = Ok cleaned ->
  exists b,
    assoc_get cleaned "verified" = Some (VBool b)
    /\ (forall v, assoc_get record "verified" = Some v ->
                  (b = true <-> In (lower (py_str v)) ["true"; "1"; "yes"]))
    /\ (forall s, assoc_get record "verified" = Some (VStr s) ->
                  In s ["false"; "0"; "no"; ""] -> b = false)
    /\ (assoc_get record "verified" = None -> b = false).
Proof.
  intros H. apply clean_ok_inv in H as (o & t & _ & _ & ->).
  exists (verified_of record). split; [reflexivity|].
  unfold verified_of. split; [|split].
  - intros v Hv. rewrite (raw_present _ _ Hv). apply str_in_In.
  - intros s Hs Hin. rewrite (raw_present _ _ Hs).
    simpl in Hin. destruct Hin as [<- | [<- | [<- | [<- | []]]]]; reflexivity.
  - intros Hn. rewrite (raw_absent _ _ Hn). reflexivity.
Qed.

(** C4.  A free-text field whose raw value is a string comes out as a
    string with no newline, no carriage return and no two spaces in a row:
    it is the raw text with newlines and carriage returns replaced by
    spaces, split at whitespace and joined by single spaces. *)
Theorem text_field_no_newline_no_double_space record cleaned field s :
  In field text_fields ->
  assoc_get record field = Some (VStr s) ->
  clean_and_flatten_record record = Ok cleaned ->
  exists out,
    assoc_get cleaned field = Some (VStr out)
    /\ out = join " " (split (replace CR SP (replace LF SP s)))
    /\ ~ contains (String LF "") out
    /\ ~ contains (String CR "") out
    /\ ~ contains "  " out.
Proof.
  intros Hf Hs H. apply clean_ok_inv in H as (o & t & _ & _ & ->).
  exists (collapse s).
  assert (Hget : assoc_get (flat_row record o t) field
                 = Some (clean_text (raw record field))).
  { simpl in Hf. destruct Hf as [<- | [<- | [<- | []]]]; reflexivity. }
  rewrite Hget, (raw_present _ _ Hs).
  destruct (collapse_collapsed s) as [_ Hplain Hadj _ _ _].
  repeat split.
  - unfold clean_text. simpl. destruct s; reflexivity.
  - intros Hc. now pose proof (contains_char _ Hc Hplain).
  - intros Hc. now pose proof (contains_char _ Hc Hplain).
  - intros Hc. apply contains_adjacent in Hc; [congruence| |]; reflexivity.
Qed.

(** C5.  A field of the allow-list that the raw record lacks comes out with
    its default: 0.0 for the rating, 0 for the epoch time, false for
    [verified], the empty string for each of the nine others. *)
Theorem missing_field_default record cleaned field :
  In field flat_fields ->
  assoc_get record field = None ->
  clean_and_flatten_record record = Ok cleaned ->
  assoc_get cleaned field = Some (field_default field).
Proof.
  intros Hf Hn H. apply clean_ok_inv in H as (o & t & Ho & Ht & ->).
  unfold overall_of in Ho. unfold unix_time_of in Ht.
  simpl in Hf.
  repeat (destruct Hf as [<- | Hf]); try contradiction;
    cbn [flat_row assoc_get String.eqb Ascii.eqb Bool.eqb field_default];
    unfold verified_of, clean_text, images_text, vote_text;
    try rewrite (raw_absent _ _ Hn) in *;
    try reflexivity.
  - simpl in Ho. congruence.
  - simpl in Ht. congruence.
  - unfold dict_get_default. now rewrite Hn.
Qed.

(** C9.  Whenever a free-text field comes out as a string, that string has
    no whitespace at either end, its only whitespace characters are single
    spaces, and it is the words of the raw value's string form (its maximal
    runs of non-whitespace characters) joined by one space each; a raw
    value made of whitespace only gives the empty string.  The field comes
    out as a string for every raw string and every truthy raw value. *)
Theorem text_field_whitespace_collapsed record cleaned field :
  In field text_fields ->
  clean_and_flatten_record record = Ok cleaned ->
  (forall out, assoc_get cleaned field = Some (VStr out) ->
     not_space_opt (first_char out)
     /\ not_space_opt (last_char out)
     /\ (forall c, contains (String c "") out -> isspace c = true -> c = SP)
     /\ adjacent_spaces out = false
     /\ (exists ws, runs (py_str (raw record field)) ws /\ out = join " " ws)
     /\ (string_forall isspace (py_str (raw record field)) = true ->
         out = ""))
  /\ (truthy (raw record field) = true \/ (exists s, raw record field = VStr s)
      -> exists out, assoc_get cleaned field = Some (VStr out)).
Proof.
  intros Hf H. apply clean_ok_inv in H as (o & t & _ & _ & ->).
  assert (Hget : assoc_get (flat_row record o t) field
                 = Some (clean_text (raw record field))).
  { simpl in Hf. destruct Hf as [<- | [<- | [<- | []]]]; reflexivity. }
  rewrite Hget. clear Hget. unfold clean_text. split.
  - intros out Hout.
    assert (E : out = collapse (py_str (raw record field))).
    { destruct (truthy (raw record field)) eqn:T; [congruence|].
      injection Hout as Hout. rewrite Hout in *. simpl in *.
      destruct out; [reflexivity|discriminate]. }
    rewrite E.
    destruct (collapse_collapsed (py_str (raw record field)))
      as [Hw Hplain Hadj Hfirst Hlast Hblank].
    repeat split; auto.
    intros c Hc Hsp. pose proof (contains_char _ Hc Hplain) as Hp.
    unfold plain, nonspace in Hp. rewrite Hsp in Hp. simpl in Hp.
    now apply Ascii.eqb_eq.
  - intros [T | [s E]].
    + rewrite T. eauto.
    + rewrite E. destruct (truthy (VStr s)); eauto.
Qed.
End NormalizerClaims.

Lemma scenario_1 :
  clean_and_flatten_record (B := sample_builtins) scenario_record
  = Ok scenario_row.
Proof. vm_compute. reflexivity. Qed.

Lemma verified_true_iff_witness :
  clean_and_flatten_record (B := sample_builtins) scenario_record
    = Ok scenario_row
  /\ exists b,
       assoc_get scenario_row "verified" = Some (VBool b)
       /\ (forall v, assoc_get scenario_record "verified" = Some v ->
             (b = true <->
              In (lower (py_str (B := sample_builtins) v))
                 ["true"; "1"; "yes"]))
       /\ (forall s, assoc_get scenario_record "verified" = Some (VStr s) ->
                     In s ["false"; "0"; "no"; ""] -> b = false)
       /\ (assoc_get scenario_record "verified" = None -> b = false).
Proof.
  split; [vm_compute; reflexivity|].
  apply (@verified_true_iff sample_builtins scenario_record scenario_row).
  vm_compute; reflexivity.
Defined.

Lemma text_field_no_newline_no_double_space_witness :
  In "reviewText" text_fields
  /\ assoc_get scenario_record "reviewText"
     = Some (VStr ("Great" ++ String LF "product"))
  /\ clean_and_flatten_record (B := sample_builtins) scenario_record
     = Ok scenario_row
  /\ exists out,
       assoc_get scenario_row "reviewText" = Some (VStr out)
       /\ out = join " " (split (replace CR SP (replace LF SP
                                   ("Great" ++ String LF "product"))))
       /\ ~ contains (String LF "") out
       /\ ~ contains (String CR "") out
       /\ ~ contains "  " out.
Proof.
  split; [simpl; auto|]. split; [reflexivity|].
  split; [vm_compute; reflexivity|].
  apply (@text_field_no_newline_no_double_space sample_builtins
           scenario_record scenario_row "reviewText");
    [simpl; auto | reflexivity | vm_compute; reflexivity].
Defined.

Lemma missing_field_default_witness :
  In "summary" flat_fields
  /\ assoc_get scenario_record "summary" = None
  /\ clean_and_flatten_record (B := sample_builtins) scenario_record
     = Ok scenario_row
  /\ assoc_get scenario_row "summary" = Some (field_default "summary").
Proof.
  split; [simpl; auto 12|]. split; [reflexivity|].
  split; [vm_compute; reflexivity|].
  apply (@missing_field_default sample_builtins scenario_record scenario_row);
    [simpl; auto 12 | reflexivity | vm_compute; reflexivity].
Defined.

Lemma text_field_whitespace_collapsed_witness :
  In "reviewText" text_fields
  /\ clean_and_flatten_record (B := sample_builtins) scenario_record
     = Ok scenario_row
  /\ not_space_opt (first_char "Great product")
  /\ not_space_opt (last_char "Great product")
  /\ adjacent_spaces "Great product" = false.
Proof.
  split; [simpl; auto|]. split; [vm_compute; reflexivity|].
  destruct (@text_field_whitespace_collapsed sample_builtins
              scenario_record scenario_row "reviewText")
    as [H _]; [simpl; auto | vm_compute; reflexivity |].
  destruct (H "Great product" eq_refl) as (H1 & H2 & _ & H4 & _).
  auto.
Defined.

(* ================================================================== *)
(** * The record reader *)
(* ================================================================== *)

Lemma yielded_app a b : yielded (a ++ b) = (yielded a ++ yielded b)%list.
Proof.
  induction a as [|[r|n|n|e] a IH]; simpl;
    [reflexivity| |exact IH|exact IH|exact IH].
  now rewrite IH.
Qed.

Lemma warnings_app a b : warnings (a ++ b) = (warnings a ++ warnings b)%list.
Proof.
  induction a as [|[r|n|n|e] a IH]; simpl;
    [reflexivity|exact IH| |exact IH|exact IH].
  now rewrite IH.
Qed.

Lemma aborted_app a b :
  aborted (a ++ b)
  = match aborted a with Some e => Some e | None => aborted b end.
Proof.
  induction a as [|[r|n|n|e] a IH]; simpl; auto.
Qed.

Section ReaderFacts.
Context {B : Builtins}.

Lemma read_line_yielded n line :
  yielded (read_line n line) =
  match decoded_line line with Some v => [v] | None => [] end.
Proof.
  unfold read_line, decoded_line.
  destruct (String.eqb (strip line) ""); [reflexivity|].
  destruct (json_loads (strip line)); [|reflexivity|reflexivity].
  simpl. now destruct (_ =? 0)%Z.
Qed.

Lemma read_line_warnings n line :
  warnings (read_line n line) = if malformed line then [n] else [].
Proof.
  unfold read_line, malformed.
  destruct (String.eqb (strip line) ""); [reflexivity|].
  destruct (json_loads (strip line)); [|reflexivity|reflexivity].
  simpl. now destruct (_ =? 0)%Z.
Qed.

(** The body of the loop raises exactly on a line where the decoder raises
    something else than [JSONDecodeError]. *)
Lemma read_line_aborted n line : aborted (read_line n line) = fatal line.
Proof.
  unfold read_line, fatal.
  destruct (String.eqb (strip line) ""); [reflexivity|].
  destruct (json_loads (strip line)); [|reflexivity|reflexivity].
  simpl. now destruct (_ =? 0)%Z.
Qed.

Lemma read_lines_cons n line rest :
  fatal line = None ->
  read_lines n (line :: rest)
  = (read_line n line ++ read_lines (n + 1) rest)%list.
Proof. intros H. simpl. now rewrite read_line_aborted, H. Qed.

Lemma read_lines_stop n line rest e :
  fatal line = Some e ->
  read_lines n (line :: rest) = [Abort e].
Proof.
  intros H. simpl. rewrite read_line_aborted, H.
  unfold read_line. unfold fatal in H.
  destruct (String.eqb (strip line) ""); [discriminate|].
  destruct (json_loads (strip line)); try discriminate.
  now injection H as ->.
Qed.

(** A read that ends normally met no line on which the body raises. *)
Lemma read_lines_ends n line rest :
  aborted (read_lines n (line :: rest)) = None ->
  fatal line = None /\ aborted (read_lines (n + 1) rest) = None.
Proof.
  destruct (fatal line) as [e|] eqn:E.
  - rewrite (@read_lines_stop n line rest e E). discriminate.
  - rewrite (@read_lines_cons n line rest E), aborted_app, read_line_aborted, E.
    auto.
Qed.

Lemma read_lines_yielded lines : forall n,
  aborted (read_lines n lines) = None ->
  yielded (read_lines n lines) = decoded lines.
Proof.
  induction lines as [|line rest IH]; intros n H; [reflexivity|].
  apply read_lines_ends in H as [H1 H2].
  rewrite (@read_lines_cons n line rest H1), yielded_app, read_line_yielded, IH
    by exact H2.
  simpl. now destruct (decoded_line line).
Qed.

Lemma read_lines_warnings lines : forall n,
  aborted (read_lines n lines) = None ->
  warnings (read_lines n lines) = malformed_numbers n lines.
Proof.
  induction lines as [|line rest IH]; intros n H; [reflexivity|].
  apply read_lines_ends in H as [H1 H2].
  rewrite (@read_lines_cons n line rest H1), warnings_app, read_line_warnings, IH
    by exact H2.
  simpl. now destruct (malformed line).
Qed.

(** Lines that are blank or rejected with [JSONDecodeError] give no record
    and do not stop the read. *)
Lemma decoded_none lines :
  Forall (fun line => strip line = ""
                      \/ json_loads (strip line) = DecodeError) lines ->
  decoded lines = [] /\ forall n, aborted (read_lines n lines) = None.
Proof.
  induction 1 as [|line rest Hl _ [IH1 IH2]]; [split; reflexivity|].
  assert (E : decoded_line line = None /\ fatal line = None).
  { unfold decoded_line, fatal. destruct Hl as [-> | ->]; simpl; [auto|].
    now destruct (String.eqb _ _). }
  destruct E as [E1 E2]. split.
  - simpl. now rewrite E1.
  - intros n. now rewrite (@read_lines_cons n line rest E2), aborted_app,
      read_line_aborted, E2.
Qed.

(** The read stops at the first line on which the body raises: what the
    reader did before is what it does on the lines before, and nothing of
    the lines after is read. *)
Lemma read_lines_abort pre : forall n bad post e,
  aborted (read_lines n pre) = None ->
  fatal bad = Some e ->
  read_lines n (pre ++ bad :: post) = (read_lines n pre ++ [Abort e])%list.
Proof.
  induction pre as [|line pre IH]; intros n bad post e Hpre Hbad.
  - now apply read_lines_stop.
  - apply read_lines_ends in Hpre as [H1 H2].
    change ((line :: pre) ++ bad :: post)%list
      with (line :: (pre ++ bad :: post))%list.
    rewrite !(@read_lines_cons n line _ H1), (@IH (n + 1)%Z bad post e H2 Hbad).
    now rewrite app_assoc.
Qed.

(** What holds of the reader when the read ends normally: it yields
    exactly the decoded records of the non-blank lines that decode,
    in input order, and logs one warning, with its line number, for each
    non-blank line that the decoder rejects with [JSONDecodeError].  In
    particular a malformed line followed by a valid line gives the one
    valid record and one warning. *)
Theorem reader_skips_blank_and_malformed lines :
  aborted (read_jsonl_file (Some lines)) = None ->
  yielded (read_jsonl_file (Some lines)) = decoded lines
  /\ warnings (read_jsonl_file (Some lines)) = malformed_numbers 1 lines
  /\ (forall bad good v,
        lines = [bad; good] ->
        malformed bad = true ->
        decoded_line good = Some v ->
        yielded (read_jsonl_file (Some lines)) = [v]
        /\ warnings (read_jsonl_file (Some lines)) = [1%Z]).
Proof.
  unfold read_jsonl_file. intros Hend.
  rewrite (@read_lines_yielded lines 1%Z Hend), (@read_lines_warnings lines 1%Z Hend).
  split; [reflexivity|]. split; [reflexivity|].
  intros bad good v -> Hbad Hgood. simpl.
  assert (Hb : decoded_line bad = None).
  { unfold malformed in Hbad. unfold decoded_line.
    destruct (String.eqb (strip bad) ""); [reflexivity|].
    now destruct (json_loads (strip bad)). }
  assert (Hg : malformed good = false).
  { unfold decoded_line in Hgood. unfold malformed.
    destruct (String.eqb (strip good) ""); [discriminate|].
    now destruct (json_loads (strip good)). }
  now rewrite Hb, Hgood, Hbad, Hg.
Qed.
End ReaderFacts.

(* ================================================================== *)
(** * The chunked writer *)
(* ================================================================== *)

Lemma len_app A (a b : list A) : len (a ++ b) = (len a + len b)%Z.
Proof. unfold len. rewrite length_app. lia. Qed.

Lemma len_nonneg A (l : list A) : (0 <= len l)%Z.
Proof. unfold len. lia. Qed.

Lemma len_zero A (l : list A) : len l = 0%Z -> l = [].
Proof. destruct l; [reflexivity|]. unfold len. simpl. lia. Qed.

Lemma first_only_snoc n :
  first_only (S n) = (first_only n ++ [Nat.eqb n 0])%list.
Proof.
  destruct n as [|k]; [reflexivity|].
  simpl. f_equal. change (false :: repeat false k) with (repeat false (S k)).
  now rewrite <- repeat_cons.
Qed.

Lemma first_only_count n :
  List.length (filter (fun b : bool => b) (first_only (S n))) = 1%nat.
Proof.
  simpl. f_equal. induction n as [|k IH]; [reflexivity|exact IH].
Qed.

Lemma filter_header_flags (cs : list to_csv_call) :
  List.length (filter call_header cs)
  = List.length (filter (fun b : bool => b) (map call_header cs)).
Proof.
  induction cs as [|k cs IH]; [reflexivity|].
  simpl. destruct (call_header k); simpl; now rewrite IH.
Qed.

Lemma full_groups_len c (cs : list to_csv_call) :
  Forall (fun k => len (call_rows k) = c) cs ->
  len (List.concat (map call_rows cs)) = (c * len cs)%Z.
Proof.
  induction 1 as [|k cs Hk _ IH]; [unfold len; simpl; lia|].
  simpl. rewrite len_app, IH, Hk. unfold len. simpl List.length. lia.
Qed.

Lemma ceil_div_exact c k : (1 <= c)%Z -> ceil_div (c * k) c = k.
Proof.
  intros Hc. unfold ceil_div. symmetry.
  apply Z.div_unique with (r := (c - 1)%Z); lia.
Qed.

Lemma ceil_div_partial c k r :
  (1 <= r < c)%Z -> ceil_div (c * k + r) c = (k + 1)%Z.
Proof.
  intros Hr. unfold ceil_div. symmetry.
  apply Z.div_unique with (r := (r - 1)%Z); lia.
Qed.

Section WriterFacts.
Context {B : Builtins}.

Lemma convert_loop_feed c records : forall cleaned st,
  normalize_all records = Ok cleaned ->
  convert_loop c records st = (fold_left (feed c) cleaned st, None).
Proof.
  induction records as [|r rest IH]; intros cleaned st; simpl.
  - now intros [= <-].
  - destruct (normalize r) as [x|e]; [|discriminate]. simpl.
    destruct (normalize_all rest) as [xs|e]; [|discriminate]. simpl.
    intros [= <-]. simpl. now apply IH.
Qed.

Lemma normalize_all_columns records : forall cleaned,
  normalize_all records = Ok cleaned ->
  Forall (fun x => map fst x = flat_fields) cleaned.
Proof.
  induction records as [|r rest IH]; intros cleaned; simpl.
  - intros [= <-]. constructor.
  - destruct (normalize r) as [x|e] eqn:E; [|discriminate]. simpl.
    destruct (normalize_all rest) as [xs|e']; [|discriminate]. simpl.
    intros [= <-]. constructor; [|now apply IH].
    destruct r; try discriminate. simpl in E. now apply clean_columns in E.
Qed.

Lemma init_inv c csv : (1 <= c)%Z -> conv_inv c csv [] (init_state csv).
Proof.
  intros Hc. constructor; simpl; try reflexivity; [unfold len; simpl; lia|].
  constructor.
Qed.

(** Writing the pending chunk adds one call: it carries the header exactly
    when it is the first, and it appends exactly when it is not. *)
Lemma write_chunk_spec dest0 st :
  chunk_count st = len (calls st) ->
  dest st =
    match calls st with
    | [] => dest0
    | k0 :: _ =>
        Some (Header (columns_of (call_rows k0))
                :: map Row (List.concat (map call_rows (calls st))))
    end ->
  let k := {| call_rows := chunk_data st;
              call_append := negb (Nat.eqb (List.length (calls st)) 0);
              call_header := Nat.eqb (List.length (calls st)) 0 |} in
  calls (write_chunk st) = (calls st ++ [k])%list
  /\ chunk_count (write_chunk st) = len (calls st ++ [k])
  /\ dest (write_chunk st) =
     match (calls st ++ [k])%list with
     | [] => dest0
     | k0 :: _ =>
         Some (Header (columns_of (call_rows k0))
                 :: map Row (List.concat (map call_rows (calls st ++ [k]))))
     end.
Proof.
  intros Hcount Hdest. cbv zeta.
  unfold write_chunk. cbn [calls chunk_count dest]. rewrite Hcount, Hdest.
  destruct (calls st) as [|k0 cs] eqn:Ecs.
  - cbn. rewrite app_nil_r. repeat split.
  - assert (E1 : ((len (k0 :: cs) + 1 =? 1) = false)%Z).
    { apply Z.eqb_neq. unfold len. simpl List.length. lia. }
    assert (E2 : ((1 <? len (k0 :: cs) + 1) = true)%Z).
    { apply Z.ltb_lt. unfold len. simpl List.length. lia. }
    rewrite E1, E2. cbn [List.length Nat.eqb negb]. split; [reflexivity|].
    split; [rewrite len_app; reflexivity|].
    unfold to_csv. cbn [call_append call_header call_rows app].
    rewrite (app_comm_cons cs), map_app, concat_app, map_app.
    cbn [map List.concat]. now rewrite app_nil_r.
Qed.

Lemma feed_inv c dest0 processed st x :
  (1 <= c)%Z ->
  conv_inv c dest0 processed st ->
  conv_inv c dest0 (processed ++ [x]) (feed c st x).
Proof.
  intros Hc [Hroom Hcount Hrows Hfull Htotal Hhead Happ Hdest].
  unfold feed. cbv zeta.
  set (st1 := append_record st x).
  assert (Hlen : len (chunk_data st1) = (len (chunk_data st) + 1)%Z).
  { unfold st1. simpl. rewrite len_app. reflexivity. }
  destruct (c <=? len (chunk_data st1))%Z eqn:Efull.
  - apply Z.leb_le in Efull.
    destruct (@write_chunk_spec dest0 st1 Hcount Hdest) as (Hc1 & Hc2 & Hc3).
    cbv zeta in Hc1, Hc2, Hc3.
    change (calls st1) with (calls st) in *.
    change (chunk_data st1) with (chunk_data st ++ [x])%list in *.
    constructor; cbn [clear_chunk chunk_data chunk_count total_records dest calls].
    + unfold len. simpl. lia.
    + rewrite Hc1. exact Hc2.
    + rewrite Hc1, map_app, concat_app. cbn [map List.concat call_rows].
      rewrite !app_nil_r, <- Hrows. now rewrite app_assoc.
    + rewrite Hc1. apply Forall_app. split; [exact Hfull|].
      constructor; [|constructor]. cbn [call_rows]. lia.
    + rewrite Hc1, map_app, concat_app. cbn [map List.concat call_rows].
      rewrite app_nil_r, len_app. unfold write_chunk, st1.
      cbn [total_records append_record chunk_data]. now rewrite Htotal.
    + rewrite Hc1, map_app, length_app, Hhead. cbn [map List.length call_header].
      rewrite Nat.add_1_r. now rewrite first_only_snoc.
    + rewrite Hc1, map_app, length_app, Happ. cbn [map List.length call_append].
      rewrite Nat.add_1_r, first_only_snoc, map_app. reflexivity.
    + rewrite Hc3, Hc1. reflexivity.
  - apply Z.leb_gt in Efull.
    constructor; try assumption.
    unfold st1. cbn [append_record chunk_data calls].
    rewrite <- Hrows. now rewrite app_assoc.
Qed.

Lemma fold_feed_inv c dest0 cleaned : forall processed st,
  (1 <= c)%Z ->
  conv_inv c dest0 processed st ->
  conv_inv c dest0 (processed ++ cleaned) (fold_left (feed c) cleaned st).
Proof.
  induction cleaned as [|x xs IH]; intros processed st Hc Hinv; simpl.
  - now rewrite app_nil_r.
  - replace (processed ++ x :: xs)%list with ((processed ++ [x]) ++ xs)%list
      by (rewrite <- app_assoc; reflexivity).
    apply IH; [exact Hc|]. now apply feed_inv.
Qed.

Lemma Forall_removelast A (P : A -> Prop) l :
  Forall P l -> Forall P (removelast l).
Proof.
  induction 1 as [|a l Ha Hl IH]; [constructor|].
  simpl. destruct l; [constructor|]. constructor; assumption.
Qed.

Lemma finish_done c dest0 processed st :
  (1 <= c)%Z ->
  conv_inv c dest0 processed st ->
  conv_done c dest0 processed (finish st).
Proof.
  intros Hc [Hroom Hcount Hrows Hfull Htotal Hhead Happ Hdest].
  pose proof (full_groups_len Hfull) as Hlen.
  unfold finish. destruct (chunk_data st) as [|x xs] eqn:Ed.
  - rewrite app_nil_r in Hrows.
    constructor; try assumption.
    + rewrite <- Hrows, Hlen. now rewrite ceil_div_exact.
    + apply Forall_removelast. now rewrite Forall_map.
    + rewrite Forall_map. eapply Forall_impl; [|exact Hfull].
      simpl. intros k Hk. lia.
    + now rewrite <- Hrows.
    + now rewrite <- Hrows.
  - destruct (@write_chunk_spec dest0 st Hcount Hdest) as (Hc1 & Hc2 & Hc3).
    cbv zeta in Hc1, Hc2, Hc3. rewrite Ed in Hc1, Hc2, Hc3.
    assert (Hr : (1 <= len (x :: xs) < c)%Z).
    { split; [unfold len; simpl List.length; lia|exact Hroom]. }
    assert (Hg : List.concat (map call_rows (calls (write_chunk st)))
                 = processed).
    { rewrite Hc1, map_app, concat_app. cbn [map List.concat call_rows].
      now rewrite app_nil_r. }
    constructor.
    + exact Hg.
    + rewrite Hc1, len_app, <- Hrows, len_app, Hlen.
      rewrite ceil_div_partial by exact Hr. reflexivity.
    + rewrite Hc1, map_app. cbn [map]. rewrite removelast_last.
      now rewrite Forall_map.
    + rewrite Hc1, map_app. apply Forall_app. split.
      * rewrite Forall_map. eapply Forall_impl; [|exact Hfull].
        simpl. intros k Hk. lia.
      * constructor; [|constructor]. cbn [call_rows]. lia.
    + rewrite <- Hg, Hc1, map_app, concat_app.
      cbn [map List.concat call_rows]. rewrite app_nil_r, len_app.
      unfold write_chunk. cbn [total_records]. now rewrite Htotal, Ed.
    + rewrite Hc1, map_app, length_app, Hhead.
      cbn [map List.length call_header].
      rewrite Nat.add_1_r. now rewrite first_only_snoc.
    + rewrite Hc1, map_app, length_app, Happ.
      cbn [map List.length call_append].
      rewrite Nat.add_1_r, first_only_snoc, map_app. reflexivity.
    + rewrite Hc3, Hc1, <- Hg, Hc1. reflexivity.
Qed.
End WriterFacts.
Lemma len_map A C (f : A -> C) l : len (map f l) = len l.
Proof. unfold len. now rewrite length_map. Qed.

Section WriterClaims.
Context {B : Builtins}.

Lemma convert_state lines csv c clk cleaned :
  normalize_all (yielded (read_lines 1 lines)) = Ok cleaned ->
  aborted (read_lines 1 lines) = None ->
  snd (convert_jsonl_to_csv (Some lines) csv c clk)
  = finish (fold_left (feed c) cleaned (init_state csv)).
Proof.
  intros H Hend. unfold convert_jsonl_to_csv, read_jsonl_file. cbv zeta.
  rewrite (convert_loop_feed c _ (init_state csv) H), Hend.
  fold (finish (fold_left (feed c) cleaned (init_state csv))).
  now destruct (int_div_float _ _).
Qed.

(** C2 (amended).  For a chunk size [c >= 1] and an input that is read to
    the end and whose [N] records all normalize, the converter makes
    exactly [ceil(N/c)] calls to
    [to_csv]; the groups written are, in order, the normalized records;
    every group but the last has [c] records and the last has between 1
    and [c]; the count of records is [N]; only the first call writes the
    header and truncates, every later call appends without a header.
    When [N >= 1] the header is therefore written exactly once and the
    file is the header followed by the [N] rows; when [N = 0] no call is
    made, so no header is written and the destination is left as it was. *)
Theorem chunked_writer_groups lines csv c clk cleaned :
  (1 <= c)%Z ->
  normalize_all (yielded (read_lines 1 lines)) = Ok cleaned ->
  aborted (read_lines 1 lines) = None ->
  let st := snd (convert_jsonl_to_csv (Some lines) csv c clk) in
  let groups := map call_rows (calls st) in
  len groups = ceil_div (len cleaned) c
  /\ List.concat groups = cleaned
  /\ Forall (fun g => len g = c) (removelast groups)
  /\ Forall (fun g => (1 <= len g <= c)%Z) groups
  /\ total_records st = len cleaned
  /\ map call_header (calls st) = first_only (List.length (calls st))
  /\ map call_append (calls st)
     = map negb (first_only (List.length (calls st)))
  /\ (cleaned <> [] ->
      List.length (filter call_header (calls st)) = 1%nat
      /\ dest st = Some (Header flat_fields :: map Row cleaned))
  /\ (cleaned = [] -> calls st = [] /\ dest st = csv).
Proof.
  intros Hc Hn Hend. cbv zeta. rewrite (convert_state _ csv c clk Hn Hend).
  pose proof (finish_done Hc (fold_feed_inv cleaned Hc (init_inv csv Hc)))
    as [Hrows Hcount Hfull Hsizes Htotal Hhead Happ Hdest].
  simpl app in *.
  set (st := finish (fold_left (feed c) cleaned (init_state csv))) in *.
  rewrite len_map.
  repeat (split; [assumption|]).
  split.
  - intros Hne. destruct (calls st) as [|k cs] eqn:Ek.
    + simpl in Hrows. congruence.
    + split.
      * rewrite filter_header_flags, Hhead. apply first_only_count.
      * rewrite Hdest. do 2 f_equal.
        simpl in Hrows, Hsizes. inversion Hsizes as [|g gs Hg _]; subst g gs.
        destruct (call_rows k) as [|r rs]; [unfold len in Hg; simpl in Hg; lia|].
        rewrite <- Hrows in Hn. simpl in Hrows.
        pose proof (normalize_all_columns _ Hn) as Hcols.
        simpl in Hcols. inversion Hcols; subst. simpl. congruence.
  - intros ->. destruct (calls st) as [|k cs] eqn:Ek; [now split|].
    exfalso. simpl in Hrows, Hsizes. inversion Hsizes as [|g gs Hg _]; subst.
    destruct (call_rows k); [unfold len in Hg; simpl in Hg; lia|discriminate].
Qed.

(** C10 (defect in the code).  When the input yields no record, the
    converter makes no call on the destination, which stays as it was
    (absent if it was absent); but it returns the count 0, and [main]
    exits with status 0, only when the read ended normally and the two
    readings of the clock differ.  When a line made the decoder raise
    something else than [JSONDecodeError] the converter raises that
    exception; when the two readings are equal the summary line divides
    by zero and the converter raises [ZeroDivisionError]; in both cases
    [main] exits with status 1. *)
Theorem no_valid_record_no_write lines csv c clk :
  yielded (read_jsonl_file (Some lines)) = [] ->
  exists st,
    convert_jsonl_to_csv (Some lines) csv c clk
    = (match aborted (read_jsonl_file (Some lines)) with
       | Some e => Raise e
       | None => if float_is_zero (elapsed clk)
                 then Raise ZeroDivisionError else Ok 0%Z
       end, st)
    /\ calls st = []
    /\ dest st = csv
    /\ main (Some lines) csv c clk
       = (match aborted (read_jsonl_file (Some lines)) with
          | Some _ => 1%Z
          | None => if float_is_zero (elapsed clk) then 1%Z else 0%Z
          end, csv).
Proof.
  intros Hy. exists (init_state csv).
  assert (E : convert_jsonl_to_csv (Some lines) csv c clk
              = (match aborted (read_jsonl_file (Some lines)) with
                 | Some e => Raise e
                 | None => if float_is_zero (elapsed clk)
                           then Raise ZeroDivisionError else Ok 0%Z
                 end, init_state csv)).
  { unfold convert_jsonl_to_csv. cbv zeta. rewrite Hy.
    unfold read_jsonl_file. simpl.
    destruct (aborted (read_lines 1 lines)); [reflexivity|].
    unfold int_div_float. simpl.
    now destruct (float_is_zero (elapsed clk)). }
  split; [exact E|]. split; [reflexivity|]. split; [reflexivity|].
  unfold main. rewrite E. unfold read_jsonl_file.
  destruct (aborted (read_lines 1 lines)); [reflexivity|].
  now destruct (float_is_zero (elapsed clk)).
Qed.

(** The division of the summary line raises on a zero divisor. *)
Lemma int_div_float_zero n a d :
  float_of_int n = Ok a ->
  float_is_zero d = true ->
  int_div_float n d = Raise ZeroDivisionError.
Proof.
  intros Hn Hd. unfold int_div_float. now rewrite Hn, Hd.
Qed.

(** C6 (defect in the code).  The reader does abort the whole read on a
    decode failure: its inner [except] names [json.JSONDecodeError] only,
    so any other exception of [json.loads] (the [ValueError] of an integer
    literal of more than 4300 digits, the [RecursionError] of a text
    nested too deep) reaches the outer [except Exception] and is raised
    again.  On a file whose line [bad] is such a line, after lines [pre]
    that were read normally, the reader does what it does on [pre] and
    then raises: no line of [post], however valid, is read, none of their
    records is yielded, the conversion fails and [main] exits with
    status 1. *)
Theorem reader_aborts_on_other_exception pre bad post e csv c clk :
  aborted (read_lines 1 pre) = None ->
  fatal bad = Some e ->
  read_jsonl_file (Some (pre ++ bad :: post)%list)
  = (read_lines 1 pre ++ [Abort e])%list
  /\ yielded (read_jsonl_file (Some (pre ++ bad :: post)%list)) = decoded pre
  /\ warnings (read_jsonl_file (Some (pre ++ bad :: post)%list))
     = malformed_numbers 1 pre
  /\ (exists e', fst (convert_jsonl_to_csv (Some (pre ++ bad :: post)%list)
                        csv c clk) = Raise e')
  /\ fst (main (Some (pre ++ bad :: post)%list) csv c clk) = 1%Z.
Proof.
  intros Hpre Hbad.
  assert (E : read_jsonl_file (Some (pre ++ bad :: post)%list)
              = (read_lines 1 pre ++ [Abort e])%list).
  { unfold read_jsonl_file.
    exact (@read_lines_abort B pre 1%Z bad post e Hpre Hbad). }
  assert (Hfail : exists e', fst (convert_jsonl_to_csv
                    (Some (pre ++ bad :: post)%list) csv c clk) = Raise e').
  { unfold convert_jsonl_to_csv. cbv zeta. rewrite E.
    destruct (convert_loop c _ _) as [st [e'|]]; [simpl; eauto|].
    rewrite aborted_app, Hpre. simpl. eauto. }
  split; [exact E|]. rewrite E, yielded_app, warnings_app. simpl.
  rewrite !app_nil_r.
  split; [exact (@read_lines_yielded B pre 1%Z Hpre)|].
  split; [exact (@read_lines_warnings B pre 1%Z Hpre)|].
  split; [exact Hfail|].
  destruct Hfail as [e' He']. unfold main.
  destruct (convert_jsonl_to_csv _ _ _ _) as [[n|e2] st]; simpl in *;
    [discriminate|reflexivity].
Qed.
End WriterClaims.

Lemma reader_aborts_on_other_exception_witness :
  aborted (read_lines (B := wider_builtins) 1 ["{}"; "{not valid json"])
  = None
  /\ fatal (B := wider_builtins) long_integer_line = Some ValueError
  /\ yielded (read_jsonl_file (B := wider_builtins)
                (Some (["{}"; "{not valid json"]
                       ++ long_integer_line :: ["{}"; "{}"])%list))
     = [VDict []]
  /\ warnings (read_jsonl_file (B := wider_builtins)
                 (Some (["{}"; "{not valid json"]
                        ++ long_integer_line :: ["{}"; "{}"])%list))
     = [2%Z]
  /\ fst (main (B := wider_builtins)
            (Some (["{}"; "{not valid json"]
                   ++ long_integer_line :: ["{}"; "{}"])%list)
            None 100000 ticking_clock) = 1%Z.
Proof.
  split; [vm_compute; reflexivity|]. split; [vm_compute; reflexivity|].
  destruct (@reader_aborts_on_other_exception wider_builtins
              ["{}"; "{not valid json"] long_integer_line ["{}"; "{}"]
              ValueError None 100000 ticking_clock)
    as (_ & H2 & H3 & _ & H5);
    [vm_compute; reflexivity | vm_compute; reflexivity |].
  split; [exact H2|]. split; [exact H3 | exact H5].
Defined.

(** The claim C2 as first stated fails on the empty input: with no record
    and a chunk size of 1 the header is written zero times, not once. *)
Lemma empty_input_writes_no_header :
  (1 <= 1)%Z
  /\ normalize_all (B := sample_builtins)
       (yielded (read_lines (B := sample_builtins) 1 [])) = Ok []
  /\ aborted (read_lines (B := sample_builtins) 1 []) = None
  /\ List.length
       (filter call_header
          (calls (snd (convert_jsonl_to_csv (B := sample_builtins)
                         (Some []) None 1 ticking_clock)))) <> 1%nat.
Proof.
  split; [lia|]. split; [reflexivity|]. split; [reflexivity|].
  vm_compute. discriminate.
Qed.

Lemma chunked_writer_groups_witness :
  (1 <= 2)%Z
  /\ normalize_all (B := sample_builtins)
       (yielded (read_lines (B := sample_builtins) 1 ["{}"; "{}"; "{}"]))
     = Ok [blank_row; blank_row; blank_row]
  /\ aborted (read_lines (B := sample_builtins) 1 ["{}"; "{}"; "{}"]) = None
  /\ len (map call_rows
            (calls (snd (convert_jsonl_to_csv (B := sample_builtins)
                           (Some ["{}"; "{}"; "{}"]) None 2 ticking_clock))))
     = ceil_div (len [blank_row; blank_row; blank_row]) 2.
Proof.
  split; [lia|]. split; [vm_compute; reflexivity|].
  split; [vm_compute; reflexivity|].
  apply (@chunked_writer_groups sample_builtins ["{}"; "{}"; "{}"] None 2
           ticking_clock [blank_row; blank_row; blank_row]);
    [lia | vm_compute; reflexivity | vm_compute; reflexivity].
Defined.

(** Three inputs without a valid record: blank and malformed lines
    with a clock that ticks (status 0), the empty file converted within
    one tick of the clock (status 1), and a file whose only line is an
    integer literal of 4301 digits (status 1). *)
Lemma no_valid_record_no_write_witness :
  yielded (read_jsonl_file (B := sample_builtins)
             (Some [""; "{not valid json"; String SP (String LF "")])) = []
  /\ yielded (read_jsonl_file (B := sample_builtins) (Some [])) = []
  /\ yielded (read_jsonl_file (B := wider_builtins)
                (Some [long_integer_line])) = []
  /\ main (B := sample_builtins)
       (Some [""; "{not valid json"; String SP (String LF "")])
       None 100000 ticking_clock = (0%Z, None)
  /\ main (B := sample_builtins) (Some []) None 100000 stopped_clock
     = (1%Z, None)
  /\ main (B := wider_builtins) (Some [long_integer_line]) None 100000
       ticking_clock = (1%Z, None).
Proof.
  split; [vm_compute; reflexivity|]. split; [vm_compute; reflexivity|].
  split; [vm_compute; reflexivity|].
  destruct (@no_valid_record_no_write sample_builtins
              [""; "{not valid json"; String SP (String LF "")]
              None 100000 ticking_clock)
    as (st1 & _ & _ & _ & H1); [vm_compute; reflexivity|].
  destruct (@no_valid_record_no_write sample_builtins []
              None 100000 stopped_clock)
    as (st2 & _ & _ & _ & H2); [vm_compute; reflexivity|].
  destruct (@no_valid_record_no_write wider_builtins [long_integer_line]
              None 100000 ticking_clock)
    as (st3 & _ & _ & _ & H3); [vm_compute; reflexivity|].
  split; [exact H1|]. split; [exact H2 | exact H3].
Defined.

(* ================================================================== *)
(** * The load orchestrator *)
(* ================================================================== *)

Lemma assoc_get_set V (d : list (string * V)) k v k' :
  assoc_get (assoc_set d k v) k'
  = if String.eqb k k' then Some v else assoc_get d k'.
Proof.
  induction d as [|[k0 v0] d IH]; simpl.
  - reflexivity.
  - destruct (String.eqb k0 k) eqn:E; simpl.
    + apply String.eqb_eq in E. subst k0.
      now destruct (String.eqb k k').
    + rewrite IH. destruct (String.eqb k0 k') eqn:E'; [|reflexivity].
      apply String.eqb_eq in E'. subst k0. now rewrite String.eqb_sym, E.
Qed.

(** [update_column], seen from column [k]. *)
Lemma update_column_get f (df : DataFrame) col k :
  assoc_get (update_column f df col) k
  = if String.eqb col k then option_map f (assoc_get df k)
    else assoc_get df k.
Proof.
  unfold update_column. destruct (assoc_get df col) as [s|] eqn:E.
  - rewrite assoc_get_set. destruct (String.eqb col k) eqn:Ek; [|reflexivity].
    apply String.eqb_eq in Ek. subst k. now rewrite E.
  - destruct (String.eqb col k) eqn:Ek; [|reflexivity].
    apply String.eqb_eq in Ek. subst k. now rewrite E.
Qed.

Lemma fold_update_get f cols : forall (df : DataFrame) k,
  NoDup cols ->
  assoc_get (fold_left (update_column f) cols df) k
  = if str_in k cols then option_map f (assoc_get df k) else assoc_get df k.
Proof.
  induction cols as [|c cs IH]; intros df k Hnd; [reflexivity|].
  inversion Hnd as [|? ? Hc Hcs]; subst. simpl fold_left.
  rewrite (IH _ _ Hcs), update_column_get.
  unfold str_in at 2. simpl existsb. fold (str_in k cs).
  rewrite (String.eqb_sym k c).
  destruct (String.eqb c k) eqn:E; [|reflexivity].
  apply String.eqb_eq in E. subst k.
  destruct (str_in c cs) eqn:Hin; [|reflexivity].
  apply str_in_In in Hin. contradiction.
Qed.

Lemma assoc_set_len (df : DataFrame) col s s' :
  assoc_get df col = Some s ->
  List.length s' = List.length s ->
  df_len (assoc_set df col s') = df_len df.
Proof.
  destruct df as [|[k v] df]; simpl; [discriminate|].
  destruct (String.eqb k col); [|reflexivity].
  intros [= ->] H. unfold df_len, len. now rewrite H.
Qed.

Lemma update_column_len f (df : DataFrame) col :
  (forall s, List.length (f s) = List.length s) ->
  df_len (update_column f df col) = df_len df.
Proof.
  intros Hf. unfold update_column.
  destruct (assoc_get df col) as [s|] eqn:E; [|reflexivity].
  now apply assoc_set_len with (s := s).
Qed.

Lemma fold_update_len f cols : forall df : DataFrame,
  (forall s, List.length (f s) = List.length s) ->
  df_len (fold_left (update_column f) cols df) = df_len df.
Proof.
  induction cols as [|c cs IH]; intros df Hf; [reflexivity|].
  simpl. rewrite (IH _ Hf). now apply update_column_len.
Qed.

Lemma string_columns_nodup : NoDup string_columns.
Proof.
  unfold string_columns.
  repeat (constructor; [simpl; intuition discriminate|]). constructor.
Qed.

Lemma numeric_columns_nodup : NoDup numeric_columns.
Proof.
  unfold numeric_columns.
  repeat (constructor; [simpl; intuition discriminate|]). constructor.
Qed.

Section LoaderFacts.
Context {B : Builtins}.

Lemma astype_int_length s : forall s',
  astype_int s = Ok s' -> List.length s' = List.length s.
Proof.
  induction s as [|c s IH]; simpl; intros s'.
  - now intros [= <-].
  - destruct (cell_int c); [|discriminate]. simpl.
    destruct (astype_int s) as [r|]; [|discriminate]. simpl.
    intros [= <-]. simpl. now rewrite (IH r).
Qed.

(** A missing value in a column makes [astype(int)] fail. *)
Lemma astype_int_nan s :
  In (CFloat S754_nan) s -> astype_int s = Raise ValueError.
Proof.
  induction s as [|c s IH]; simpl; [contradiction|].
  intros [-> | H]; [reflexivity|].
  destruct (cell_int c) as [z|e] eqn:E; simpl.
  - now rewrite (IH H).
  - destruct c as [b|z|f|x]; simpl in E; try discriminate.
    + destruct f; simpl in E; try discriminate; now injection E as <-.
    + destruct (int_of_str x); try discriminate; now injection E as <-.
Qed.

Lemma astype_int_flags s :
  forallb is_flag s = true ->
  exists s', astype_int s = Ok s'
             /\ Forall (fun c => c = CInt 0 \/ c = CInt 1) s'.
Proof.
  induction s as [|c s IH]; simpl.
  - intros _. exists []. split; [reflexivity|constructor].
  - intros H. apply andb_true_iff in H as [Hc Hs].
    destruct (IH Hs) as (r & -> & Hr).
    destruct c as [b|z|f|x]; simpl in Hc; try discriminate; simpl.
    + eexists. split; [reflexivity|]. constructor; [|exact Hr].
      destruct b; auto.
    + eexists. split; [reflexivity|]. constructor; [|exact Hr].
      apply orb_true_iff in Hc as [Hz | Hz]; apply Z.eqb_eq in Hz; subst; auto.
Qed.

(** The outcome of [preprocess_dataframe] is that of the cast of the
    [verified_purchase] column. *)
Lemma preprocess_dataframe_outcome df :
  match assoc_get df "verified_purchase" with
  | None => exists df', preprocess_dataframe df = Ok df'
  | Some s =>
      match astype_int s with
      | Ok _ => exists df', preprocess_dataframe df = Ok df'
      | Raise e => preprocess_dataframe df = Raise e
      end
  end.
Proof.
  unfold preprocess_dataframe. cbv zeta.
  rewrite (fold_update_get _ _ _ string_columns_nodup).
  change (str_in "verified_purchase" string_columns) with false. cbv iota.
  destruct (assoc_get df "verified_purchase") as [s|]; [|simpl; eauto].
  destruct (astype_int s) as [s'|e]; simpl; eauto.
Qed.

(** The three steps of [preprocess_dataframe], column by column. *)
Lemma preprocess_dataframe_columns df df' col s :
  preprocess_dataframe df = Ok df' ->
  assoc_get df col = Some s ->
  exists s', recast col s = Ok s' /\ assoc_get df' col = Some s'.
Proof.
  unfold preprocess_dataframe. cbv zeta.
  set (f := fun x : series => astype_str (fillna (CStr "") x)).
  set (g := fun x : series => fillna (CInt 0) (to_numeric_coerce x)).
  set (df1 := fold_left (update_column f) string_columns df).
  remember (fold_left (update_column g) numeric_columns) as num eqn:Enum.
  intros H Hs.
  assert (H1 : forall k, assoc_get df1 k
               = if str_in k string_columns
                 then option_map f (assoc_get df k) else assoc_get df k).
  { intros k. apply fold_update_get, string_columns_nodup. }
  assert (H2 : forall df2 k, assoc_get (num df2) k
               = if str_in k numeric_columns
                 then option_map g (assoc_get df2 k) else assoc_get df2 k).
  { intros df2 k. subst num. apply fold_update_get, numeric_columns_nodup. }
  clear Enum.
  assert (H3 : exists df2,
             df' = num df2
             /\ match assoc_get df "verified_purchase" with
                | Some sv => exists sv', astype_int sv = Ok sv'
                               /\ assoc_get df2 "verified_purchase" = Some sv'
                | None => True
                end
             /\ (forall k, String.eqb "verified_purchase" k = false ->
                           assoc_get df2 k = assoc_get df1 k)).
  { rewrite H1 in H. change (str_in _ string_columns) with false in H.
    cbv iota in H.
    destruct (assoc_get df "verified_purchase") as [sv|] eqn:Ev.
    - destruct (astype_int sv) as [sv'|]; [|discriminate].
      cbn [bind] in H. exists (assoc_set df1 "verified_purchase" sv').
      split; [congruence|]. split.
      + exists sv'. split; [reflexivity|]. now rewrite assoc_get_set.
      + intros k Hk. now rewrite assoc_get_set, Hk.
    - cbn [bind] in H. exists df1. split; [congruence|]. now split. }
  destruct H3 as (df2 & -> & Hvp & Hother). clear H.
  unfold recast. rewrite H2.
  destruct (str_in col string_columns) eqn:E1.
  - assert (E2 : String.eqb "verified_purchase" col = false
                 /\ str_in col numeric_columns = false).
    { apply str_in_In in E1. simpl in E1.
      repeat (destruct E1 as [<- | E1]; [split; reflexivity|]).
      contradiction. }
    destruct E2 as [E2 E3]. exists (f s). split; [reflexivity|].
    now rewrite E3, (Hother _ E2), H1, E1, Hs.
  - destruct (String.eqb col "verified_purchase") eqn:E2.
    + apply String.eqb_eq in E2. subst col.
      change (str_in _ numeric_columns) with false. cbv iota.
      rewrite Hs in Hvp. destruct Hvp as (sv' & -> & ->). eauto.
    + rewrite String.eqb_sym in E2.
      rewrite (Hother _ E2), H1, E1, Hs.
      destruct (str_in col numeric_columns); eauto.
Qed.

Lemma preprocess_dataframe_len df df' :
  preprocess_dataframe df = Ok df' -> df_len df' = df_len df.
Proof.
  unfold preprocess_dataframe. cbv zeta.
  set (f := fun x : series => astype_str (fillna (CStr "") x)).
  set (g := fun x : series => fillna (CInt 0) (to_numeric_coerce x)).
  assert (Hf : forall s, List.length (f s) = List.length s).
  { intros s. unfold f, astype_str, fillna. now rewrite !length_map. }
  assert (Hg : forall s, List.length (g s) = List.length s).
  { intros s. unfold g, to_numeric_coerce, fillna. now rewrite !length_map. }
  pose proof (fun df2 => fold_update_len g numeric_columns df2 Hg) as Hnum.
  remember (fold_left (update_column g) numeric_columns) as num eqn:Enum.
  clear Enum.
  destruct (assoc_get _ "verified_purchase") as [sv|] eqn:E.
  - destruct (astype_int sv) as [sv'|] eqn:Ei; [|discriminate].
    cbn [bind]. intros H. assert (Hd : df' = num (assoc_set
      (fold_left (update_column f) string_columns df)
      "verified_purchase" sv')) by congruence.
    rewrite Hd, Hnum.
    erewrite assoc_set_len;
      [now apply fold_update_len | exact E
       | eapply astype_int_length; exact Ei].
  - cbn [bind]. intros H.
    assert (Hd : df' = num (fold_left (update_column f) string_columns df))
      by congruence.
    rewrite Hd, Hnum. now apply fold_update_len.
Qed.
End LoaderFacts.

Section LoaderClaims.
Context {B : Builtins}.

(** A string column comes out with every missing value replaced by the
    empty string and every other cell by its string form. *)
Lemma recast_string_column col s :
  In col string_columns ->
  recast col s
  = Ok (map (fun c => CStr (if isna c then "" else cell_str c)) s).
Proof.
  intros H. apply str_in_In in H. unfold recast. rewrite H.
  unfold astype_str, fillna. rewrite map_map. f_equal.
  apply map_ext. intros c. now destruct (isna c).
Qed.

(** A numeric column comes out with every missing value and every string
    that is not a number replaced by 0. *)
Lemma recast_numeric_column col s :
  In col numeric_columns ->
  recast col s
  = Ok (map (fun c =>
               match c with
               | CStr x =>
                   match numeric_of_str x with
                   | Some (inl z) => CInt z
                   | Some (inr f) => if isna (CFloat f) then CInt 0 else CFloat f
                   | None => CInt 0
                   end
               | _ => if isna c then CInt 0 else c
               end) s).
Proof.
  intros H. unfold recast.
  assert (E : str_in col string_columns = false
              /\ String.eqb col "verified_purchase" = false
              /\ str_in col numeric_columns = true).
  { simpl in H. repeat (destruct H as [<- | H]; [repeat split|]).
    contradiction. }
  destruct E as (-> & -> & ->).
  unfold to_numeric_coerce, fillna. rewrite map_map. f_equal.
  apply map_ext. intros [b|z|f|x]; try reflexivity.
  destruct (numeric_of_str x) as [[z|f]|]; reflexivity.
Qed.

(** X23.  When the [verified_purchase] column, if any, holds booleans or
    0/1 only, the re-cast step returns: every column is re-cast as the
    specification says and [verified_purchase] holds 0/1 integers. *)
Lemma preprocess_dataframe_recasts (df : DataFrame) :
  (forall s : series, assoc_get df "verified_purchase" = Some s ->
                      forallb is_flag s = true) ->
  exists df',
    preprocess_dataframe df = Ok df'
    /\ (forall col (s : series), assoc_get df col = Some s ->
          exists s', recast col s = Ok s' /\ assoc_get df' col = Some s')
    /\ (forall s : series, assoc_get df "verified_purchase" = Some s ->
          exists s', assoc_get df' "verified_purchase" = Some s'
                     /\ Forall (fun c => c = CInt 0 \/ c = CInt 1) s').
Proof.
  intros Hflags.
  assert (Hret : exists df', preprocess_dataframe df = Ok df').
  { pose proof (preprocess_dataframe_outcome df) as H.
    destruct (assoc_get df "verified_purchase") as [s|]; [|exact H].
    destruct (astype_int_flags s (Hflags s eq_refl)) as (s' & Hs' & _).
    now rewrite Hs' in H. }
  destruct Hret as [df' Hdf']. exists df'. split; [exact Hdf'|]. split.
  - intros col s. now apply preprocess_dataframe_columns.
  - intros s Hs.
    destruct (@preprocess_dataframe_columns B df df' _ s Hdf' Hs)
      as (s' & Hr & Hg).
    exists s'. split; [exact Hg|].
    destruct (astype_int_flags s (Hflags s Hs)) as (s2 & Hs2 & Hall).
    unfold recast in Hr. simpl in Hr. congruence.
Qed.

(** C8 (defect in the code).  The re-cast step does not accept every
    batch: a missing value in the [verified_purchase] column makes
    [astype(int)] raise, and the exception leaves [preprocess_dataframe].
    The string columns and the numeric columns are filled before being
    converted; this column is not. *)
Theorem preprocess_fails_on_missing_flag (df : DataFrame) (s : series) :
  assoc_get df "verified_purchase" = Some s ->
  In (CFloat S754_nan) s ->
  preprocess_dataframe df = Raise ValueError.
Proof.
  intros Hs Hnan. pose proof (preprocess_dataframe_outcome df) as H.
  now rewrite Hs, (astype_int_nan _ Hnan) in H.
Qed.
End LoaderClaims.

Lemma preprocess_fails_on_missing_flag_witness :
  assoc_get [("asin", [CStr "B01"; CStr "B02"]);
             ("verified_purchase", [CBool true; CFloat S754_nan])]
            "verified_purchase"
  = Some [CBool true; CFloat S754_nan]
  /\ In (CFloat S754_nan) [CBool true; CFloat S754_nan]
  /\ preprocess_dataframe (B := sample_builtins)
       [("asin", [CStr "B01"; CStr "B02"]);
        ("verified_purchase", [CBool true; CFloat S754_nan])]
     = Raise ValueError.
Proof.
  split; [reflexivity|]. split; [simpl; auto|].
  apply (@preprocess_fails_on_missing_flag sample_builtins _
           [CBool true; CFloat S754_nan]); [reflexivity | simpl; auto].
Defined.

Section OrchestratorClaims.
Context {B : Builtins}.
Variable sink_insert : sink_table -> DataFrame -> insert_outcome.

Lemma ingest_loop_app pre : forall rest st,
  ingest_loop sink_insert (pre ++ rest) st
  = match ingest_loop sink_insert pre st with
    | (st', None) => ingest_loop sink_insert rest st'
    | (st', Some e) => (st', Some e)
    end.
Proof.
  induction pre as [|chunk pre IH]; intros rest st; [reflexivity|].
  simpl. destruct (preprocess_dataframe chunk) as [df|e]; [|reflexivity].
  destruct (sql_write sink_insert df (table st)) as [tbl [e|]];
    [reflexivity|]. apply IH.
Qed.

(** The batches that went through are in the sink, after what was there,
    in order. *)
Lemma ingest_loop_committed pre : forall st st',
  ingest_loop sink_insert pre st = (st', None) ->
  batch_count st' = (batch_count st + len pre)%Z
  /\ exists done,
       Forall2 (fun chunk df => preprocess_dataframe chunk = Ok df) pre done
       /\ submitted st' = (submitted st ++ done)%list
       /\ table st' = (table st ++ done)%list.
Proof.
  induction pre as [|chunk pre IH]; intros st st'; simpl.
  - intros [= <-]. split; [unfold len; simpl; lia|].
    exists []. rewrite !app_nil_r. repeat split. constructor.
  - destruct (preprocess_dataframe chunk) as [df|e] eqn:Ep; [|discriminate].
    unfold sql_write. destruct (sink_insert (table st) df) eqn:Es;
      [|discriminate].
    intros H. apply IH in H as (Hcount & done & Hall & Hsub & Htab).
    cbn [batch_count submitted table] in *. split.
    + rewrite Hcount. unfold len. simpl List.length. lia.
    + exists (df :: done). rewrite Hsub, Htab, <- !app_assoc.
      repeat split. now constructor.
Qed.

(** C7.  When the sink refuses the insert of a batch after the batches
    [pre] went through, the run raises the sink's error.  The log gets the
    index of the batch ([len pre + 1]) with the error, then the size of the
    failed batch, then the two lines of the outer handler.  The frames
    handed to the sink are those of [pre] and the failed one, once each:
    the failed batch is not retried and no batch of [post] is submitted.
    The sink holds what it held before the run, then the batches of [pre],
    then whatever the failed insert left behind. *)
Theorem failed_insert_aborts_run tbl pre chunk post clk st_pre df stored e :
  ingest_loop sink_insert pre (ingest_init tbl) = (st_pre, None) ->
  preprocess_dataframe chunk = Ok df ->
  sink_insert (table st_pre) df = Failed stored e ->
  exists st done,
    ingest_data_to_clickhouse sink_insert tbl (pre ++ chunk :: post) clk
      = (Raise e, st)
    /\ log st = (log st_pre
                 ++ [ErrorBatch (len pre + 1) e; ErrorBatchSize (df_len chunk);
                     ErrorCritical e;
                     ErrorRowsBefore (total_rows_processed st_pre)])%list
    /\ Forall2 (fun c d => preprocess_dataframe c = Ok d) pre done
    /\ submitted st = (done ++ [df])%list
    /\ table st = (tbl ++ done ++ stored)%list.
Proof.
  intros Hpre Hprep Hfail.
  pose proof Hpre as Hpre'.
  apply ingest_loop_committed in Hpre' as (Hcount & done & Hall & Hsub & Htab).
  simpl in Hcount, Hsub, Htab.
  eexists. exists done.
  unfold ingest_data_to_clickhouse. cbv zeta.
  rewrite ingest_loop_app, Hpre. simpl ingest_loop.
  rewrite Hprep. unfold sql_write. rewrite Hfail.
  unfold batch_failed, run_failed, add_log.
  cbn [batch_count log total_rows_processed table submitted].
  split; [reflexivity|].
  cbn [batch_count log total_rows_processed table submitted].
  rewrite <- app_assoc, Hcount, Hsub, Htab, (@preprocess_dataframe_len B chunk df Hprep).
  rewrite <- app_assoc. repeat split. exact Hall.
Qed.
End OrchestratorClaims.

Lemma failed_insert_aborts_run_witness :
  ingest_loop (B := sample_builtins) narrow_sink [batch_ok] (ingest_init [])
  = (fst (ingest_loop (B := sample_builtins) narrow_sink [batch_ok]
            (ingest_init [])), None)
  /\ preprocess_dataframe (B := sample_builtins) batch_wide = Ok batch_wide
  /\ narrow_sink [batch_ok] batch_wide
     = Failed [] (SinkError "too many columns")
  /\ exists st done,
       ingest_data_to_clickhouse (B := sample_builtins) narrow_sink []
         ([batch_ok] ++ batch_wide :: [batch_later]) ticking_clock
       = (Raise (SinkError "too many columns"), st)
       /\ log st
          = (log (fst (ingest_loop (B := sample_builtins) narrow_sink
                         [batch_ok] (ingest_init [])))
             ++ [ErrorBatch (len [batch_ok] + 1)
                   (SinkError "too many columns");
                 ErrorBatchSize (df_len batch_wide);
                 ErrorCritical (SinkError "too many columns");
                 ErrorRowsBefore
                   (total_rows_processed
                      (fst (ingest_loop (B := sample_builtins) narrow_sink
                              [batch_ok] (ingest_init []))))])%list
       /\ Forall2 (fun c d => preprocess_dataframe (B := sample_builtins) c
                              = Ok d) [batch_ok] done
       /\ submitted st = (done ++ [batch_wide])%list
       /\ table st = ([] ++ done ++ [])%list.
Proof.
  split; [vm_compute; reflexivity|]. split; [vm_compute; reflexivity|].
  split; [reflexivity|].
  apply (@failed_insert_aborts_run sample_builtins narrow_sink []
           [batch_ok] batch_wide [batch_later] ticking_clock
           (fst (ingest_loop (B := sample_builtins) narrow_sink [batch_ok]
                   (ingest_init [])))
           batch_wide [] (SinkError "too many columns"));
    vm_compute; reflexivity.
Defined.

(* ================================================================== *)
(** * The normalizer, beyond the claims *)
(* ================================================================== *)

Lemma split_scan_word x : forall w r,
  string_forall nonspace x = true ->
  split_scan w (x ++ r) = split_scan (w ++ x) r.
Proof.
  induction x as [|c x IH]; intros w r Hx; simpl.
  - now rewrite append_nil_r.
  - simpl in Hx. apply andb_true_iff in Hx as [Hc Hx].
    unfold nonspace in Hc. apply negb_true_iff in Hc. rewrite Hc.
    rewrite (IH _ _ Hx), append_assoc. reflexivity.
Qed.

(** Splitting what [join] made gives the words back. *)
Lemma split_join ws : Forall word ws -> split (join " " ws) = ws.
Proof.
  induction 1 as [|w ws [Hne Hw] Hws IH]; [reflexivity|].
  rewrite join_cons. unfold split in *. destruct ws as [|w' ws'].
  - rewrite <- (append_nil_r w) at 1. rewrite (split_scan_word _ _ _ Hw).
    simpl. destruct w; [congruence|reflexivity].
  - rewrite (split_scan_word _ _ _ Hw). simpl append.
    cbn [split_scan]. rewrite isspace_SP, IH.
    destruct w; [congruence|reflexivity].
Qed.

Lemma collapse_idempotent s : collapse (collapse s) = collapse s.
Proof.
  rewrite !collapse_split. now rewrite (split_join (split_words s)).
Qed.

Lemma lower_digits s :
  string_forall digit_or_minus s = true -> lower s = s.
Proof.
  induction s as [|c s IH]; simpl; [reflexivity|].
  intros H. apply andb_true_iff in H as [Hc Hs]. rewrite (IH Hs). f_equal.
  destruct c as [[] [] [] [] [] [] [] []]; try discriminate Hc; reflexivity.
Qed.

Lemma uint_digits d :
  string_forall digit_or_minus (NilEmpty.string_of_uint d) = true.
Proof. induction d; simpl; auto. Qed.

Lemma str_of_int_digits z : string_forall digit_or_minus (str_of_int z) = true.
Proof.
  unfold str_of_int, NilZero.string_of_int, NilZero.string_of_uint.
  destruct (Z.to_int z) as [d|d]; destruct d; simpl; auto using uint_digits.
Qed.

Lemma str_of_int_one z : str_of_int z = "1" -> z = 1%Z.
Proof.
  unfold str_of_int. intros H.
  assert (Hd : NilZero.int_of_string (NilZero.string_of_int (Z.to_int z))
               = Some (Z.to_int z)).
  { apply NilZero.isi; intros E; rewrite E in H; discriminate. }
  rewrite H in Hd. simpl in Hd. injection Hd as Hd.
  rewrite <- (DecimalZ.of_to z), <- Hd. reflexivity.
Qed.

Section NormalizerProperties.
Context {B : Builtins}.

Lemma clean_text_idempotent v : clean_text (clean_text v) = clean_text v.
Proof.
  unfold clean_text. destruct (truthy v) eqn:T; [|now rewrite T].
  simpl. destruct (negb _); [|reflexivity]. now rewrite collapse_idempotent.
Qed.

Lemma images_text_string record : exists s, images_text record = VStr s.
Proof. unfold images_text. cbv zeta. destruct (truthy _); eauto. Qed.

Lemma vote_text_string record : exists s, vote_text record = VStr s.
Proof. unfold vote_text. destruct (truthy _); eauto. Qed.

Lemma restring s :
  (if truthy (VStr s) then VStr (py_str (VStr s)) else VStr "") = VStr s.
Proof.
  simpl. destruct (String.eqb s "") eqn:E; simpl; [|reflexivity].
  apply String.eqb_eq in E. now subst.
Qed.

Lemma float_of_int_raises z e : float_of_int z = Raise e -> e = OverflowError.
Proof.
  unfold float_of_int. destruct (binary_normalize _ _ _ _ _); try discriminate.
  now intros [= <-].
Qed.

(** X3.  A normalized record has the twelve columns of the header, in
    that order; its rating is a float, its epoch time an integer, its
    [verified] a boolean, its [images] and [vote] strings; each free-text
    field is a string or the falsy raw value it was given. *)
Theorem normalized_row_shape record cleaned :
  clean_and_flatten_record record = Ok cleaned ->
  map fst cleaned = flat_fields
  /\ (exists o, assoc_get cleaned "overall" = Some (VFloat o))
  /\ (exists t, assoc_get cleaned "unixReviewTime" = Some (VInt t))
  /\ (exists b, assoc_get cleaned "verified" = Some (VBool b))
  /\ (exists s, assoc_get cleaned "images" = Some (VStr s))
  /\ (exists s, assoc_get cleaned "vote" = Some (VStr s))
  /\ (forall field, In field text_fields ->
        (exists s, assoc_get cleaned field = Some (VStr s))
        \/ (assoc_get cleaned field = Some (raw record field)
            /\ truthy (raw record field) = false)).
Proof.
  intros H. apply clean_ok_inv in H as (o & t & _ & _ & ->).
  split; [reflexivity|]. split; [now exists o|]. split; [now exists t|].
  split; [now exists (verified_of record)|].
  split; [destruct (images_text_string record) as [s Hs]; exists s;
          simpl; now rewrite Hs|].
  split; [destruct (vote_text_string record) as [s Hs]; exists s;
          simpl; now rewrite Hs|].
  intros field Hf.
  assert (Hget : assoc_get (flat_row record o t) field
                 = Some (clean_text (raw record field))).
  { simpl in Hf. destruct Hf as [<- | [<- | [<- | []]]]; reflexivity. }
  rewrite Hget. unfold clean_text.
  destruct (truthy (raw record field)); [left; eauto|right; auto].
Qed.

(** X4.  The normalizer reads the twelve allow-listed keys and nothing
    else: two raw records that agree on them have the same outcome, so a
    key outside the list never reaches the output. *)
Theorem normalizer_reads_allow_list_only r1 r2 :
  (forall field, In field flat_fields ->
                 assoc_get r1 field = assoc_get r2 field) ->
  clean_and_flatten_record r1 = clean_and_flatten_record r2.
Proof.
  intros H.
  assert (Hd : forall field d, In field flat_fields ->
               dict_get_default r1 field d = dict_get_default r2 field d).
  { intros field d Hf. unfold dict_get_default. now rewrite (H field Hf). }
  assert (Hr : forall field, In field flat_fields ->
               raw r1 field = raw r2 field).
  { intros field Hf. now apply Hd. }
  rewrite !clean_and_flatten_record_eq.
  unfold overall_of, unix_time_of, flat_row, verified_of, images_text,
    vote_text.
  rewrite (Hd "images") by (simpl; auto 20).
  rewrite (Hr "overall"), (Hr "verified"), (Hr "reviewTime"),
    (Hr "reviewerID"), (Hr "asin"), (Hr "style"), (Hr "reviewerName"),
    (Hr "reviewText"), (Hr "summary"), (Hr "unixReviewTime"), (Hr "vote")
    by (simpl; auto 20).
  reflexivity.
Qed.

(** X5.  The fields [reviewTime], [reviewerID], [asin] and [style] come out
    exactly as they came in, whatever their type (a null stays a null, a
    nested object stays nested); so does a free-text field whose raw value
    is falsy (a null, 0, an empty list). *)
Theorem copied_fields_unchanged record cleaned field v :
  clean_and_flatten_record record = Ok cleaned ->
  assoc_get record field = Some v ->
  In field copied_fields \/ (In field text_fields /\ truthy v = false) ->
  assoc_get cleaned field = Some v.
Proof.
  intros H Hv Hf. apply clean_ok_inv in H as (o & t & _ & _ & ->).
  destruct Hf as [Hf | [Hf Hv']]; simpl in Hf.
  - destruct Hf as [<- | [<- | [<- | [<- | []]]]]; simpl;
      now rewrite (raw_present _ _ Hv).
  - destruct Hf as [<- | [<- | [<- | []]]]; simpl;
      rewrite (raw_present _ _ Hv); unfold clean_text; now rewrite Hv'.
Qed.

(** X6.  When the normalizer returns, the rating and the epoch time are
    those of the tables [rating_of] and [epoch_of]: the number itself for a
    number, 1 for [true], the parsed value for a string that parses; and
    the default, 0.0 or 0, for a null, a list, an object, an empty string,
    a string that does not parse, and for a NaN epoch time. *)
Theorem numeric_fields_by_kind record cleaned :
  clean_and_flatten_record record = Ok cleaned ->
  assoc_get cleaned "overall"
    = Some (VFloat (rating_of (raw record "overall")))
  /\ assoc_get cleaned "unixReviewTime"
     = Some (VInt (epoch_of (raw record "unixReviewTime"))).
Proof.
  intros H. apply clean_ok_inv in H as (o & t & Ho & Ht & ->).
  cbn [flat_row assoc_get String.eqb Ascii.eqb Bool.eqb].
  unfold overall_of in Ho. unfold unix_time_of in Ht. split.
  - do 2 f_equal.
    destruct (raw record "overall") as [|b|z|f|s|l|d]; simpl in Ho |- *.
    + congruence.
    + destruct b; simpl in Ho; congruence.
    + destruct (Z.eqb_spec z 0) as [Hz0 | Hz];
        [subst z; simpl in Ho; injection Ho as <-; reflexivity|simpl in Ho].
      destruct (float_of_int z) as [g|e] eqn:E; simpl in Ho; [congruence|].
      apply float_of_int_raises in E. subst e. discriminate.
    + destruct f; simpl in Ho; congruence.
    + destruct (String.eqb s ""); simpl in Ho; [congruence|].
      destruct (float_of_str s); simpl in Ho; congruence.
    + destruct l; simpl in Ho; congruence.
    + destruct d; simpl in Ho; congruence.
  - do 2 f_equal.
    destruct (raw record "unixReviewTime") as [|b|z|f|s|l|d];
      simpl in Ht |- *.
    + congruence.
    + destruct b; simpl in Ht; congruence.
    + destruct (Z.eqb_spec z 0) as [Hz0 | Hz];
        [subst z|]; simpl in Ht; congruence.
    + destruct f; simpl in Ht |- *; congruence.
    + destruct (String.eqb s ""); simpl in Ht; [congruence|].
      destruct (int_of_str s); simpl in Ht; congruence.
    + destruct l; simpl in Ht; congruence.
    + destruct d; simpl in Ht; congruence.
Qed.

(** X7.  Normalizing a normalized record changes nothing and cannot fail:
    the record that comes out is a fixed point of the normalizer, provided
    its rating is not the negative zero (which a second pass turns into
    0.0). *)
Theorem normalizer_idempotent record cleaned :
  clean_and_flatten_record record = Ok cleaned ->
  assoc_get cleaned "overall" <> Some (VFloat (S754_zero true)) ->
  clean_and_flatten_record cleaned = Ok cleaned.
Proof.
  intros H Hz. apply clean_ok_inv in H as (o & t & _ & _ & ->).
  set (row := flat_row record o t) in *.
  rewrite clean_and_flatten_record_eq.
  assert (Ho : overall_of row = Ok o).
  { unfold overall_of. change (raw row "overall") with (VFloat o).
    destruct o as [[]| | |]; try reflexivity. now elim Hz. }
  assert (Ht : unix_time_of row = Ok t).
  { unfold unix_time_of. change (raw row "unixReviewTime") with (VInt t).
    simpl. destruct (Z.eqb_spec t 0) as [Ht0 | Hne];
      [now subst t|reflexivity]. }
  rewrite Ho, Ht. cbn [bind]. f_equal.
  unfold flat_row at 1.
  change (raw row "reviewTime") with (raw record "reviewTime").
  change (raw row "reviewerID") with (raw record "reviewerID").
  change (raw row "asin") with (raw record "asin").
  change (raw row "style") with (raw record "style").
  change (raw row "reviewerName")
    with (clean_text (raw record "reviewerName")).
  change (raw row "reviewText") with (clean_text (raw record "reviewText")).
  change (raw row "summary") with (clean_text (raw record "summary")).
  rewrite !clean_text_idempotent.
  assert (Hv : verified_of row = verified_of record).
  { unfold verified_of at 1.
    change (raw row "verified") with (VBool (verified_of record)).
    now destruct (verified_of record). }
  assert (Hi : images_text row = images_text record).
  { unfold images_text at 1.
    change (dict_get_default row "images" (VDict []))
      with (images_text record).
    destruct (images_text_string record) as [s ->]. cbv zeta.
    change (is_dict (VStr s)) with false. cbv iota. apply restring. }
  assert (Hw : vote_text row = vote_text record).
  { unfold vote_text at 1.
    change (raw row "vote") with (vote_text record).
    destruct (vote_text_string record) as [s ->]. apply restring. }
  rewrite Hv, Hi, Hw. reflexivity.
Qed.

(** X8.  The [verified] flag, by the kind of the raw value: a JSON boolean
    is taken as it is, a JSON integer counts as true exactly when it is 1,
    and a null, a list or an object is false. *)
Theorem verified_by_kind record cleaned v :
  clean_and_flatten_record record = Ok cleaned ->
  assoc_get record "verified" = Some v ->
  match v with
  | VBool b => assoc_get cleaned "verified" = Some (VBool b)
  | VInt z => assoc_get cleaned "verified" = Some (VBool (z =? 1)%Z)
  | VNone | VList _ | VDict _ =>
      assoc_get cleaned "verified" = Some (VBool false)
  | VFloat _ | VStr _ => True
  end.
Proof.
  intros H Hv. apply clean_ok_inv in H as (o & t & _ & _ & ->).
  cbn [flat_row assoc_get String.eqb Ascii.eqb Bool.eqb].
  unfold verified_of. rewrite (raw_present _ _ Hv).
  destruct v as [|b|z|f|s|l|d]; try exact I; try reflexivity.
  - now destruct b.
  - do 2 f_equal. simpl py_str.
    rewrite (lower_digits _ (str_of_int_digits z)).
    destruct (Z.eqb_spec z 1) as [Hz1 | Hz]; [now subst z|].
    destruct (str_in (str_of_int z) ["true"; "1"; "yes"]) eqn:E;
      [|reflexivity].
    apply str_in_In in E. simpl in E.
    pose proof (str_of_int_digits z) as Hd.
    destruct E as [E | [E | [E | []]]]; rewrite <- E in Hd;
      try discriminate Hd.
    symmetry in E. now apply str_of_int_one in E.
Qed.
End NormalizerProperties.

(* ================================================================== *)
(** * The reader, beyond the claims *)
(* ================================================================== *)

Lemma warnings_In n evs : In n (warnings evs) <-> In (LogWarning n) evs.
Proof.
  induction evs as [|[r|m|m|e] evs IH]; simpl; [tauto| | | |].
  - rewrite IH. split; [auto|]. intros [H|H]; [discriminate|exact H].
  - rewrite IH. split; intros [H|H]; auto; [left; congruence|].
    left. congruence.
  - rewrite IH. split; [auto|]. intros [H|H]; [discriminate|exact H].
  - rewrite IH. split; [auto|]. intros [H|H]; [discriminate|exact H].
Qed.

Lemma infos_In n evs : In n (infos evs) <-> In (LogInfo n) evs.
Proof.
  induction evs as [|[r|m|m|e] evs IH]; simpl; [tauto| | | |].
  - rewrite IH. split; [auto|]. intros [H|H]; [discriminate|exact H].
  - rewrite IH. split; [auto|]. intros [H|H]; [discriminate|exact H].
  - rewrite IH. split; intros [H|H]; auto; [left; congruence|].
    left. congruence.
  - rewrite IH. split; [auto|]. intros [H|H]; [discriminate|exact H].
Qed.

Section ReaderProperties.
Context {B : Builtins}.

(** An event of a reader that ends normally comes from the line it was
    read on. *)
Lemma read_lines_In ev lines : forall k,
  aborted (read_lines k lines) = None ->
  (In ev (read_lines k lines)
   <-> exists i line, nth_error lines i = Some line
                      /\ In ev (read_line (k + Z.of_nat i) line)).
Proof.
  induction lines as [|l rest IH]; intros k Hend.
  - simpl. split; [contradiction|]. intros (i & line & H & _). now destruct i.
  - apply read_lines_ends in Hend as [H1 H2].
    rewrite (@read_lines_cons B k l rest H1), in_app_iff, (IH _ H2).
    simpl. split.
    + intros [H | (i & line & Hn & H)].
      * exists 0%nat, l. split; [reflexivity|]. now rewrite Z.add_0_r.
      * exists (S i), line. split; [exact Hn|].
        now replace (k + Z.of_nat (S i))%Z with (k + 1 + Z.of_nat i)%Z by lia.
    + intros ([|i] & line & Hn & H).
      * left. injection Hn as ->. now rewrite Z.add_0_r in H.
      * right. exists i, line. split; [exact Hn|].
        now replace (k + 1 + Z.of_nat i)%Z with (k + Z.of_nat (S i))%Z by lia.
Qed.

Lemma read_line_warning n m line :
  In (LogWarning n) (read_line m line) <-> n = m /\ malformed line = true.
Proof.
  unfold read_line, malformed.
  destruct (String.eqb (strip line) ""); simpl; [intuition discriminate|].
  destruct (json_loads (strip line)); simpl.
  - destruct (_ =? 0)%Z; simpl; intuition discriminate.
  - split; [intros [[= ->] | []]; auto|]. intros [-> _]. auto.
  - intuition discriminate.
Qed.

Lemma read_line_info n m line :
  In (LogInfo n) (read_line m line)
  <-> n = m /\ (m mod 100000 = 0)%Z /\ exists v, decoded_line line = Some v.
Proof.
  unfold read_line, decoded_line.
  destruct (String.eqb (strip line) ""); simpl.
  - split; [contradiction|]. intros (_ & _ & v & H). discriminate.
  - destruct (json_loads (strip line)) as [v| |e]; simpl.
    + destruct (Z.eqb_spec (m mod 100000) 0) as [E | E]; simpl.
      * split; [intros [H | [[= ->] | []]]; [discriminate|eauto]|].
        intros (-> & _ & _). auto.
      * split; [intros [H | []]; discriminate|]. intros (_ & H & _). contradiction.
    + split; [intros [H | []]; discriminate|]. intros (_ & _ & v & H). discriminate.
    + split; [intros [H | []]; discriminate|]. intros (_ & _ & v & H). discriminate.
Qed.

Lemma nth_line lines n (P : string -> Prop) :
  (exists i line, nth_error lines i = Some line
                  /\ n = (1 + Z.of_nat i)%Z /\ P line)
  <-> (1 <= n)%Z
      /\ exists line, nth_error lines (Z.to_nat (n - 1)) = Some line /\ P line.
Proof.
  split.
  - intros (i & line & Hn & -> & HP). split; [lia|].
    exists line. split; [|exact HP].
    now replace (Z.to_nat (1 + Z.of_nat i - 1)) with i by lia.
  - intros (Hn & line & Hl & HP). exists (Z.to_nat (n - 1)), line.
    split; [exact Hl|]. split; [lia|exact HP].
Qed.

(** X9.  When the read ends normally, every line of the file is accounted
    for exactly once: it is blank, or it gives one record, or it gives one
    warning. *)
Theorem every_line_accounted lines n :
  aborted (read_lines n lines) = None ->
  (List.length (yielded (read_lines n lines))
   + List.length (warnings (read_lines n lines))
   + List.length (filter blank lines))%nat
  = List.length lines.
Proof.
  revert n. induction lines as [|l rest IH]; intros n Hend; [reflexivity|].
  apply read_lines_ends in Hend as [H1 H2].
  rewrite (@read_lines_cons B n l rest H1), yielded_app, warnings_app,
    !length_app.
  specialize (IH (n + 1)%Z H2). simpl.
  unfold read_line, blank, fatal in *.
  destruct (String.eqb (strip l) ""); simpl; [lia|].
  destruct (json_loads (strip l)); simpl; [|lia|discriminate].
  destruct (_ =? 0)%Z; simpl; lia.
Qed.

(** X10.  A warning carries the number of the line it is about, counted
    from 1 over all lines, blank ones included: when the read ends
    normally, the reader warns about line [n] exactly when the file has a
    line [n] and it is malformed. *)
Theorem warning_line_numbers lines n :
  aborted (read_lines 1 lines) = None ->
  (In n (warnings (read_lines 1 lines))
   <-> (1 <= n)%Z
       /\ exists line, nth_error lines (Z.to_nat (n - 1)) = Some line
                       /\ malformed line = true).
Proof.
  intros Hend.
  rewrite warnings_In, (@read_lines_In (LogWarning n) lines 1%Z Hend),
    <- nth_line.
  split; intros (i & line & Hn & H); exists i, line.
  - apply read_line_warning in H as [-> H]. auto.
  - destruct H as [-> H]. split; [exact Hn|]. now apply read_line_warning.
Qed.

(** X11.  When the read ends normally, a progress line is logged for line
    [n] exactly when [n] is a multiple of 100000 and line [n] gave a
    record: a blank or malformed line at such a number logs no progress. *)
Theorem progress_line_numbers lines n :
  aborted (read_lines 1 lines) = None ->
  (In n (infos (read_lines 1 lines))
   <-> (1 <= n)%Z
       /\ exists line, nth_error lines (Z.to_nat (n - 1)) = Some line
                       /\ (n mod 100000 = 0)%Z
                       /\ exists v, decoded_line line = Some v).
Proof.
  intros Hend.
  rewrite infos_In, (@read_lines_In (LogInfo n) lines 1%Z Hend),
    <- nth_line.
  split; intros (i & line & Hn & H); exists i, line.
  - apply read_line_info in H as (-> & Hm & Hv). auto.
  - destruct H as (-> & Hm & Hv). split; [exact Hn|]. now apply read_line_info.
Qed.
End ReaderProperties.

(* ================================================================== *)
(** * Floats: integers below 2^53 convert exactly *)
(* ================================================================== *)

Lemma digits2_pos_bound p : forall n : nat,
  (Zpos p < 2 ^ Z.of_nat n)%Z -> (Zpos (digits2_pos p) <= Z.of_nat n)%Z.
Proof.
  induction p as [q IH|q IH|]; intros [|n] H;
    try (simpl in H; lia);
    rewrite Nat2Z.inj_succ, Z.pow_succ_r in H by lia.
  - simpl digits2_pos. rewrite Pos2Z.inj_succ, Nat2Z.inj_succ.
    assert (Zpos (digits2_pos q) <= Z.of_nat n)%Z by (apply IH; lia). lia.
  - simpl digits2_pos. rewrite Pos2Z.inj_succ, Nat2Z.inj_succ.
    assert (Zpos (digits2_pos q) <= Z.of_nat n)%Z by (apply IH; lia). lia.
  - simpl. lia.
Qed.

Lemma digits2_pos_shift p k :
  digits2_pos (Pos.iter xO p k) = (digits2_pos p + k)%positive.
Proof.
  induction k as [|k IH] using Pos.peano_ind.
  - simpl. now rewrite Pos.add_1_r.
  - rewrite Pos.iter_succ. simpl. rewrite IH. now rewrite Pos.add_succ_r.
Qed.

Lemma binary_round_exact s p :
  (Zpos p < 2 ^ 53)%Z ->
  exists m e, binary_round prec64 emax64 s p 0 = S754_finite s m e.
Proof.
  intros Hp.
  pose proof (@digits2_pos_bound p 53%nat Hp) as Hd.
  change (Z.of_nat 53) with 53%Z in Hd.
  unfold binary_round.
  assert (Hf : fexp prec64 emax64 (Zpos (digits2_pos p) + 0)
               = (Zpos (digits2_pos p) - 53)%Z).
  { unfold fexp, emin, prec64, emax64. lia. }
  rewrite Hf. unfold shl_align. rewrite Z.sub_0_r.
  assert (Haux : forall mz ez,
             (Zpos (digits2_pos mz) + ez = Zpos (digits2_pos p))%Z ->
             ez = (Zpos (digits2_pos p) - 53)%Z ->
             exists m e, binary_round_aux prec64 emax64 s (Zpos mz) ez loc_Exact
                         = S754_finite s m e).
  { intros mz ez H1 H2. unfold binary_round_aux, shr_fexp.
    cbn [shr_record_of_loc Zdigits2].
    assert (E0 : (fexp prec64 emax64 (Zpos (digits2_pos mz) + ez) - ez = 0)%Z).
    { unfold fexp, emin, prec64, emax64. lia. }
    rewrite E0. cbn [shr shr_m loc_of_shr_record round_nearest_even Zdigits2].
    rewrite E0. cbn [shr shr_m].
    assert (El : (ez <=? emax64 - prec64)%Z = true).
    { apply Z.leb_le. unfold emax64, prec64. lia. }
    rewrite El. eauto. }
  destruct (Zpos (digits2_pos p) - 53)%Z as [|q|q] eqn:E.
  - apply Haux; lia.
  - lia.
  - apply Haux; [|reflexivity]. rewrite digits2_pos_shift.
    rewrite Pos2Z.inj_add. lia.
Qed.

(** [float(z)] returns for every integer below 2^53 in magnitude. *)
Lemma float_of_int_small z :
  (Z.abs z < 2 ^ 53)%Z -> exists f, float_of_int z = Ok f.
Proof.
  intros Hz. unfold float_of_int, binary_normalize.
  destruct z as [|p|p].
  - eauto.
  - destruct (@binary_round_exact false p) as (m & e & ->); [lia|eauto].
  - destruct (@binary_round_exact true p) as (m & e & ->); [lia|eauto].
Qed.

(* ================================================================== *)
(** * The converter, beyond the claims *)
(* ================================================================== *)

Lemma singleton_groups A (gs : list (list A)) :
  Forall (fun g => (1 <= len g <= 1)%Z) gs ->
  gs = map (fun r => [r]) (List.concat gs).
Proof.
  induction 1 as [|g gs Hg _ IH]; [reflexivity|].
  destruct g as [|r [|r' g]]; unfold len in Hg; simpl in Hg; try lia.
  simpl. now rewrite <- IH.
Qed.

Lemma firstn_prefix A (a b : list A) n :
  n = List.length a -> firstn n (a ++ b) = a.
Proof.
  intros ->. rewrite firstn_app, firstn_all, Nat.sub_diag. simpl.
  apply app_nil_r.
Qed.

Section ConverterProperties.
Context {B : Builtins}.

Lemma feed_small c st x :
  (c <= 1)%Z -> chunk_data st = [] ->
  feed c st x = feed 1 st x /\ chunk_data (feed 1 st x) = [].
Proof.
  intros Hc Hd. unfold feed, append_record. cbn [chunk_data]. rewrite Hd.
  change (len ([] ++ [x])) with 1%Z.
  replace (c <=? 1)%Z with true by (symmetry; now apply Z.leb_le).
  split; reflexivity.
Qed.

Lemma fold_feed_small c cleaned : forall st,
  (c <= 1)%Z -> chunk_data st = [] ->
  fold_left (feed c) cleaned st = fold_left (feed 1) cleaned st.
Proof.
  induction cleaned as [|x xs IH]; intros st Hc Hd; [reflexivity|].
  simpl. destruct (feed_small st x Hc Hd) as [-> Hd']. now apply IH.
Qed.

(** Whatever the chunk size, the run ends as it does for some chunk size
    of at least 1: the size itself, or 1 when it is below. *)
Lemma convert_done c cleaned csv :
  exists c', (1 <= c')%Z /\ (c' = c \/ (c <= 1 /\ c' = 1)%Z)
    /\ conv_done c' csv cleaned
         (finish (fold_left (feed c) cleaned (init_state csv))).
Proof.
  destruct (Z.le_gt_cases 1 c) as [Hc | Hc].
  - exists c. split; [exact Hc|]. split; [now left|].
    exact (finish_done Hc (fold_feed_inv cleaned Hc (init_inv csv Hc))).
  - exists 1%Z. split; [lia|]. split; [right; lia|].
    rewrite (@fold_feed_small c cleaned (init_state csv)) by (lia || reflexivity).
    assert (H1 : (1 <= 1)%Z) by lia.
    exact (finish_done H1 (fold_feed_inv cleaned H1 (init_inv csv H1))).
Qed.

Lemma groups_nonempty c dest0 processed st :
  (1 <= c)%Z -> conv_inv c dest0 processed st ->
  Forall (fun x => map fst x = flat_fields) processed ->
  dest st = written dest0 (List.concat (map call_rows (calls st))).
Proof.
  intros Hc [_ _ Hrows Hfull _ _ _ Hdest] Hcols. rewrite Hdest.
  destruct (calls st) as [|k cs]; [reflexivity|].
  apply Forall_inv in Hfull. rename Hfull into Hk. simpl in *.
  destruct (call_rows k) as [|r rs]; [unfold len in Hk; simpl in Hk; lia|].
  simpl. do 3 f_equal. rewrite <- Hrows in Hcols. simpl in Hcols.
  now inversion Hcols.
Qed.

Lemma done_written c dest0 processed st :
  conv_done c dest0 processed st ->
  Forall (fun x => map fst x = flat_fields) processed ->
  dest st = written dest0 processed.
Proof.
  intros [Hrows _ _ Hsizes _ _ _ Hdest] Hcols. rewrite Hdest.
  destruct (calls st) as [|k cs]; simpl in Hrows.
  - now subst processed.
  - apply Forall_inv in Hsizes. rename Hsizes into Hk.
    destruct (call_rows k) as [|r rs]; [unfold len in Hk; simpl in Hk; lia|].
    simpl in *. subst processed. simpl. do 3 f_equal. now inversion Hcols.
Qed.

Lemma convert_loop_interrupted c pre : forall cleaned st bad post e,
  normalize_all pre = Ok cleaned ->
  normalize bad = Raise e ->
  convert_loop c (pre ++ bad :: post) st
  = (fold_left (feed c) cleaned st, Some e).
Proof.
  induction pre as [|r rest IH]; intros cleaned st bad post e; simpl.
  - intros [= <-] ->. reflexivity.
  - destruct (normalize r) as [x|]; [|discriminate]. simpl.
    destruct (normalize_all rest) as [xs|]; [|discriminate]. simpl.
    intros [= <-] Hbad. simpl. now apply IH.
Qed.

(** With a chunk size of 1 or less nothing is ever pending: the state
    after the loop is already the final one, whether the read ended
    normally or not. *)
Lemma convert_state_small lines csv c clk cleaned :
  (c <= 1)%Z ->
  normalize_all (yielded (read_lines 1 lines)) = Ok cleaned ->
  snd (convert_jsonl_to_csv (Some lines) csv c clk)
  = finish (fold_left (feed c) cleaned (init_state csv)).
Proof.
  intros Hc Hn. unfold convert_jsonl_to_csv, read_jsonl_file. cbv zeta.
  rewrite (convert_loop_feed c _ (init_state csv) Hn).
  fold (finish (fold_left (feed c) cleaned (init_state csv))).
  destruct (aborted (read_lines 1 lines)).
  - simpl.
    rewrite (@fold_feed_small c cleaned (init_state csv))
      by (lia || reflexivity).
    assert (H1 : (1 <= 1)%Z) by lia.
    destruct (fold_feed_inv cleaned H1 (init_inv csv H1)) as [Hroom _ _ _ _ _ _ _].
    unfold finish.
    destruct (chunk_data (fold_left (feed 1) cleaned (init_state csv)));
      [reflexivity|].
    unfold len in Hroom. simpl in Hroom. lia.
  - now destruct (int_div_float _ _).
Qed.


(** X13.  A chunk size of 1 or less (zero and negative sizes included)
    writes every record on its own: there are as many groups as records,
    one record each. *)
Theorem one_record_per_group lines csv c clk cleaned :
  (c <= 1)%Z ->
  normalize_all (yielded (read_lines 1 lines)) = Ok cleaned ->
  map call_rows (calls (snd (convert_jsonl_to_csv (Some lines) csv c clk)))
  = map (fun r => [r]) cleaned.
Proof.
  intros Hc Hn. rewrite (convert_state_small _ csv clk Hc Hn).
  destruct (convert_done c cleaned csv) as (c' & Hc' & Hcase & Hdone).
  assert (c' = 1%Z) by lia. subst c'.
  destruct Hdone as [Hrows _ _ Hsizes _ _ _ _].
  rewrite (singleton_groups Hsizes). now rewrite Hrows.
Qed.

(** X14.  When the input is read to the end and its records, fewer than
    2^53, all normalize, the destination holds the header and the rows,
    for every chunk size, and the outcome depends on the clock alone: when
    its two readings differ the converter returns the number of records
    and [main] exits with status 0; when they are equal the summary line
    divides by zero, the converter raises [ZeroDivisionError] and [main]
    exits with status 1. *)
Theorem successful_run_returns_count lines csv c clk cleaned :
  normalize_all (yielded (read_lines 1 lines)) = Ok cleaned ->
  aborted (read_lines 1 lines) = None ->
  (len cleaned < 2 ^ 53)%Z ->
  fst (convert_jsonl_to_csv (Some lines) csv c clk)
  = (if float_is_zero (elapsed clk)
     then Raise ZeroDivisionError else Ok (len cleaned))
  /\ main (Some lines) csv c clk
     = ((if float_is_zero (elapsed clk) then 1%Z else 0%Z),
        written csv cleaned).
Proof.
  intros Hn Hend Hlen.
  destruct (convert_done c cleaned csv) as (c' & _ & _ & Hdone).
  pose proof (done_written Hdone (normalize_all_columns _ Hn)) as Hdest.
  pose proof (done_total Hdone) as Htotal.
  assert (E : convert_jsonl_to_csv (Some lines) csv c clk
              = ((if float_is_zero (elapsed clk)
                  then Raise ZeroDivisionError else Ok (len cleaned)),
                 finish (fold_left (feed c) cleaned (init_state csv)))).
  { unfold convert_jsonl_to_csv, read_jsonl_file. cbv zeta.
    rewrite (convert_loop_feed c _ (init_state csv) Hn), Hend.
    fold (finish (fold_left (feed c) cleaned (init_state csv))).
    rewrite Htotal. unfold int_div_float.
    destruct (@float_of_int_small (len cleaned)) as [a ->].
    { pose proof (len_nonneg cleaned). lia. }
    cbn [bind]. now destruct (float_is_zero (elapsed clk)). }
  unfold main. rewrite E. split; [reflexivity|]. rewrite Hdest.
  now destruct (float_is_zero (elapsed clk)).
Qed.

(** X15.  When a record fails to normalize, the run stops with that
    exception and [main] exits with status 1.  For a chunk size [c >= 1]
    and [N] records read before the failing one, [floor(N/c)] groups were
    written: the destination holds the header and the first
    [c * floor(N/c)] rows (it is untouched when [N < c]); the records of
    the chunk in progress are lost and nothing is rolled back. *)
Theorem interrupted_run_keeps_complete_chunks
    lines csv c clk pre bad post cleaned e :
  (1 <= c)%Z ->
  yielded (read_lines 1 lines) = (pre ++ bad :: post)%list ->
  normalize_all pre = Ok cleaned ->
  normalize bad = Raise e ->
  exists st,
    convert_jsonl_to_csv (Some lines) csv c clk = (Raise e, st)
    /\ len (calls st) = (len cleaned / c)%Z
    /\ List.concat (map call_rows (calls st)) = complete_rows c cleaned
    /\ dest st = written csv (complete_rows c cleaned)
    /\ main (Some lines) csv c clk = (1%Z, dest st).
Proof.
  intros Hc Hy Hn Hbad.
  set (st := fold_left (feed c) cleaned (init_state csv)).
  assert (E : convert_jsonl_to_csv (Some lines) csv c clk = (Raise e, st)).
  { unfold convert_jsonl_to_csv, read_jsonl_file. cbv zeta. rewrite Hy.
    now rewrite (@convert_loop_interrupted c pre cleaned (init_state csv)
                   bad post e Hn Hbad). }
  exists st. split; [exact E|].
  pose proof (fold_feed_inv cleaned Hc (init_inv csv Hc)) as Hinv.
  simpl app in Hinv. fold st in Hinv.
  pose proof (groups_nonempty Hc Hinv (normalize_all_columns _ Hn)) as Hdest.
  destruct Hinv as [Hroom _ Hrows Hfull _ _ _ _].
  pose proof (full_groups_len Hfull) as Hlen.
  pose proof (len_nonneg (chunk_data st)) as Hpos.
  assert (Hq : len (calls st) = (len cleaned / c)%Z).
  { apply Z.div_unique with (r := len (chunk_data st)); [lia|].
    rewrite <- Hrows at 1. rewrite len_app, Hlen. reflexivity. }
  assert (Hrows' : List.concat (map call_rows (calls st))
                   = complete_rows c cleaned).
  { unfold complete_rows. rewrite <- Hq, <- Hlen, <- Hrows at 1.
    symmetry. apply firstn_prefix. unfold len. now rewrite Nat2Z.id. }
  split; [exact Hq|]. split; [exact Hrows'|].
  split; [now rewrite Hdest, Hrows'|].
  unfold main. now rewrite E.
Qed.

(** X16.  A line that decodes to something other than an object (a list,
    a string, a number, [null]) is yielded like any record and then stops
    the run: the converter raises [AttributeError] and [main] exits with
    status 1, unlike a malformed line, which is skipped. *)
Theorem non_object_line_aborts lines csv c clk pre bad post cleaned :
  yielded (read_lines 1 lines) = (pre ++ bad :: post)%list ->
  normalize_all pre = Ok cleaned ->
  is_dict bad = false ->
  fst (convert_jsonl_to_csv (Some lines) csv c clk) = Raise AttributeError
  /\ fst (main (Some lines) csv c clk) = 1%Z.
Proof.
  intros Hy Hn Hbad.
  assert (Hb : normalize bad = Raise AttributeError).
  { destruct bad; try reflexivity. discriminate. }
  assert (E : convert_jsonl_to_csv (Some lines) csv c clk
              = (Raise AttributeError,
                 fold_left (feed c) cleaned (init_state csv))).
  { unfold convert_jsonl_to_csv, read_jsonl_file. cbv zeta. rewrite Hy.
    now rewrite (@convert_loop_interrupted c pre cleaned (init_state csv)
                   bad post AttributeError Hn Hb). }
  unfold main. now rewrite E.
Qed.
End ConverterProperties.

(* ================================================================== *)
(** * The loader, beyond the claims *)
(* ================================================================== *)

Lemma assoc_set_keys V (d : list (string * V)) k v v0 :
  assoc_get d k = Some v0 -> map fst (assoc_set d k v) = map fst d.
Proof.
  induction d as [|[k' v'] d IH]; simpl; [discriminate|].
  destruct (String.eqb k' k) eqn:E.
  - apply String.eqb_eq in E. now subst.
  - intros H. simpl. now rewrite IH.
Qed.

Lemma assoc_get_key V (d : list (string * V)) k :
  In k (map fst d) <-> exists v, assoc_get d k = Some v.
Proof.
  induction d as [|[k' v'] d IH]; simpl.
  - split; [contradiction|]. now intros [v H].
  - destruct (String.eqb k' k) eqn:E.
    + apply String.eqb_eq in E. split; eauto.
    + apply String.eqb_neq in E. rewrite <- IH. tauto.
Qed.

Lemma update_column_keys f (df : DataFrame) col :
  map fst (update_column f df col) = map fst df.
Proof.
  unfold update_column. destruct (assoc_get df col) as [s|] eqn:E;
    [|reflexivity]. now apply assoc_set_keys with (v0 := s).
Qed.

Lemma fold_update_keys f cols : forall df : DataFrame,
  map fst (fold_left (update_column f) cols df) = map fst df.
Proof.
  induction cols as [|c cs IH]; intros df; [reflexivity|].
  simpl. now rewrite IH, update_column_keys.
Qed.

Lemma fold_update_fixed f cols : forall df : DataFrame,
  (forall col s, In col cols -> assoc_get df col = Some s -> f s = s) ->
  fold_left (update_column f) cols df = df.
Proof.
  induction cols as [|c cs IH]; intros df H; [reflexivity|].
  simpl. assert (E : update_column f df c = df).
  { unfold update_column. destruct (assoc_get df c) as [s|] eqn:Es;
      [|reflexivity].
    rewrite (H c s) by (simpl; auto). now apply assoc_set_same. }
  rewrite E. apply IH. intros col s Hc. apply H. now right.
Qed.

Section LoaderCasts.
Context {B : Builtins}.

Lemma cell_int_raises c e : cell_int c = Raise e -> e = ValueError.
Proof.
  destruct c as [b|z|f|s]; simpl; try discriminate.
  - destruct (int_of_float f); [discriminate|]. now intros [= <-].
  - destruct (int_of_str s); [discriminate|]. now intros [= <-].
Qed.

Lemma cell_int_refused c :
  cell_int c = Raise ValueError <-> refused_by_cast c = true.
Proof.
  destruct c as [b|z|f|s]; simpl; try (split; discriminate).
  - destruct f; simpl; split; try discriminate; reflexivity.
  - destruct (int_of_str s); split; try discriminate; reflexivity.
Qed.

Lemma astype_int_raises s e :
  astype_int s = Raise e
  <-> e = ValueError /\ existsb refused_by_cast s = true.
Proof.
  induction s as [|c s IH]; simpl.
  - split; [discriminate|]. intros [_ H]. discriminate.
  - destruct (cell_int c) as [z|e'] eqn:Ec; simpl.
    + assert (Hc : refused_by_cast c = false).
      { destruct (refused_by_cast c) eqn:R; [|reflexivity].
        apply cell_int_refused in R. congruence. }
      rewrite Hc. simpl. rewrite <- IH.
      destruct (astype_int s); simpl; split; intros H;
        first [discriminate H | injection H as ->; reflexivity].
    + pose proof (cell_int_raises _ Ec). subst e'.
      apply cell_int_refused in Ec. rewrite Ec. simpl.
      split; [intros [= <-]; auto|]. now intros [-> _].
Qed.

Lemma astype_int_again s s' : astype_int s = Ok s' -> astype_int s' = Ok s'.
Proof.
  revert s'. induction s as [|c s IH]; simpl; intros s'.
  - now intros [= <-].
  - destruct (cell_int c); [|discriminate]. simpl.
    destruct (astype_int s) as [r|]; [|discriminate]. simpl.
    intros [= <-]. simpl. now rewrite (IH r).
Qed.

Lemma string_cells s :
  astype_str (fillna (CStr "") s) = map string_cell s.
Proof.
  unfold astype_str, fillna. rewrite map_map. apply map_ext.
  intros c. unfold string_cell. now destruct (isna c).
Qed.

Lemma numeric_cells s :
  fillna (CInt 0) (to_numeric_coerce s) = map numeric_cell s.
Proof.
  unfold to_numeric_coerce, fillna. rewrite map_map. apply map_ext.
  intros [b|z|f|x]; try reflexivity.
  simpl. destruct (numeric_of_str x) as [[z|f]|]; reflexivity.
Qed.

Lemma string_cell_again c : string_cell (string_cell c) = string_cell c.
Proof. reflexivity. Qed.

Lemma numeric_cell_again c : numeric_cell (numeric_cell c) = numeric_cell c.
Proof.
  destruct c as [b|z|f|x]; simpl; try reflexivity.
  - destruct f; reflexivity.
  - destruct (numeric_of_str x) as [[z|f]|]; try reflexivity.
    destruct f; reflexivity.
Qed.

Lemma recast_length col s s' :
  recast col s = Ok s' -> List.length s' = List.length s.
Proof.
  unfold recast. destruct (str_in col string_columns).
  - intros [= <-]. unfold astype_str, fillna. now rewrite !length_map.
  - destruct (String.eqb col "verified_purchase").
    + apply astype_int_length.
    + destruct (str_in col numeric_columns); intros [= <-]; [|reflexivity].
      unfold to_numeric_coerce, fillna. now rewrite !length_map.
Qed.

Lemma recast_again col s s' : recast col s = Ok s' -> recast col s' = Ok s'.
Proof.
  unfold recast. destruct (str_in col string_columns).
  - intros [= <-]. rewrite !string_cells, map_map. f_equal.
  - destruct (String.eqb col "verified_purchase").
    + apply astype_int_again.
    + destruct (str_in col numeric_columns); intros [= <-]; [|reflexivity].
      rewrite !numeric_cells, map_map. f_equal.
      apply map_ext. intros c. apply numeric_cell_again.
Qed.

Lemma preprocess_dataframe_keys df df' :
  preprocess_dataframe df = Ok df' -> map fst df' = map fst df.
Proof.
  unfold preprocess_dataframe. cbv zeta.
  set (f := fun x : series => astype_str (fillna (CStr "") x)).
  set (g := fun x : series => fillna (CInt 0) (to_numeric_coerce x)).
  pose proof (fun d => fold_update_keys g numeric_columns d) as Hnum.
  remember (fold_left (update_column g) numeric_columns) as num eqn:Enum.
  clear Enum.
  destruct (assoc_get _ "verified_purchase") as [sv|] eqn:E.
  - destruct (astype_int sv) as [sv'|]; [|discriminate].
    cbn [bind]. intros H.
    assert (Hd : df' = num (assoc_set
      (fold_left (update_column f) string_columns df)
      "verified_purchase" sv')) by congruence.
    rewrite Hd, Hnum. erewrite assoc_set_keys by exact E.
    apply fold_update_keys.
  - cbn [bind]. intros H.
    assert (Hd : df' = num (fold_left (update_column f) string_columns df))
      by congruence.
    rewrite Hd, Hnum. apply fold_update_keys.
Qed.

(** A column of the outcome is the re-cast of the column of the same
    label. *)
Lemma preprocess_dataframe_source (df df' : DataFrame) col (s' : series) :
  preprocess_dataframe df = Ok df' ->
  assoc_get df' col = Some s' ->
  exists s, assoc_get df col = Some s /\ recast col s = Ok s'.
Proof.
  intros H Hs'.
  assert (Hin : In col (map fst df)).
  { rewrite <- (preprocess_dataframe_keys _ H). apply assoc_get_key. eauto. }
  apply assoc_get_key in Hin as [s Hs]. exists s. split; [exact Hs|].
  destruct (@preprocess_dataframe_columns B df df' col s H Hs)
    as (s2 & Hr & Hg).
  congruence.
Qed.
End LoaderCasts.

Section LoaderProperties.
Context {B : Builtins}.

(** X17.  The re-cast step keeps the shape of the frame: the same column
    labels in the same order, the same number of rows, and every column
    as long as it was. *)
Theorem preprocess_keeps_shape (df df' : DataFrame) :
  preprocess_dataframe df = Ok df' ->
  map fst df' = map fst df
  /\ df_len df' = df_len df
  /\ (forall col (s s' : series),
        assoc_get df col = Some s -> assoc_get df' col = Some s' ->
        List.length s' = List.length s).
Proof.
  intros H. split; [now apply preprocess_dataframe_keys|].
  split; [now apply preprocess_dataframe_len|].
  intros col s s' Hs Hs'.
  destruct (@preprocess_dataframe_columns B df df' col s H Hs)
    as (s2 & Hr & Hg).
  assert (s2 = s') by congruence. subst s2.
  now apply recast_length in Hr.
Qed.

(** X18.  What the re-cast step does to the columns it does not
    re-type as numbers, when it returns: in each of the six string columns
    a missing value becomes the empty string and every other cell its
    string form; a column that the step does not name is not touched; and
    no column appears. *)
Theorem preprocess_column_by_column (df df' : DataFrame) :
  preprocess_dataframe df = Ok df' ->
  (forall col (s : series), In col string_columns ->
     assoc_get df col = Some s ->
     assoc_get df' col = Some (map string_cell s))
  /\ (forall col, ~ In col string_columns -> ~ In col numeric_columns ->
        col <> "verified_purchase" ->
        assoc_get df' col = assoc_get df col)
  /\ (forall col, assoc_get df col = None -> assoc_get df' col = None).
Proof.
  intros H.
  assert (Hnone : forall col, assoc_get df col = None ->
                              assoc_get df' col = None).
  { intros col Hn. destruct (assoc_get df' col) as [s'|] eqn:E;
      [|reflexivity].
    destruct (@preprocess_dataframe_source B df df' col s' H E) as (s & Hs & _).
    congruence. }
  split; [|split]; try exact Hnone.
  - intros col s Hc Hs.
    destruct (@preprocess_dataframe_columns B df df' col s H Hs)
      as (s' & Hr & ->).
    rewrite (@recast_string_column B col s Hc) in Hr. injection Hr as <-.
    unfold string_cell. reflexivity.
  - intros col H1 H2 H3.
    destruct (assoc_get df col) as [s|] eqn:Hs; [|now apply Hnone].
    destruct (@preprocess_dataframe_columns B df df' col s H Hs)
      as (s' & Hr & ->).
    unfold recast in Hr.
    destruct (str_in col string_columns) eqn:E1;
      [apply str_in_In in E1; contradiction|].
    destruct (String.eqb col "verified_purchase") eqn:E2;
      [apply String.eqb_eq in E2; contradiction|].
    destruct (str_in col numeric_columns) eqn:E3;
      [apply str_in_In in E3; contradiction|].
    congruence.
Qed.

(** Within the [int64] range a cell is refused by the cast exactly when
    it is a missing value or a string that is not an integer literal. *)
Lemma refused_no_integer s :
  forallb int64_cell s = true ->
  existsb refused_by_cast s = existsb no_integer s.
Proof.
  induction s as [|c s IH]; [reflexivity|]. simpl.
  intros H. apply andb_true_iff in H as [Hc Hs]. rewrite (IH Hs). f_equal.
  destruct c as [b|z|f|x]; try reflexivity.
  destruct f; try reflexivity. simpl in Hc. discriminate.
Qed.

(** X19.  On a frame whose [verified_purchase] cells are booleans,
    integers and finite floats within the [int64] range, missing values,
    and strings that are not integer literals beyond that range, the
    re-cast step fails in one case only: one of these cells is a missing
    value or a string that is not an integer literal; the exception is
    then a [ValueError]. *)
Theorem preprocess_fails_exactly_when (df : DataFrame) e :
  (forall s : series, assoc_get df "verified_purchase" = Some s ->
                      forallb int64_cell s = true) ->
  (preprocess_dataframe df = Raise e
   <-> e = ValueError
       /\ exists s : series,
            assoc_get df "verified_purchase" = Some s
            /\ existsb no_integer s = true).
Proof.
  intros Hdom.
  pose proof (preprocess_dataframe_outcome df) as H.
  destruct (assoc_get df "verified_purchase") as [s|].
  - specialize (Hdom s eq_refl).
    pose proof (refused_no_integer s Hdom) as Hr.
    destruct (astype_int s) as [s'|e'] eqn:Es.
    + destruct H as [df' H]. rewrite H. split; [discriminate|].
      intros (-> & s0 & [= <-] & Hs0).
      assert (Hraise : astype_int s = Raise ValueError)
        by (apply astype_int_raises; split; [reflexivity|congruence]).
      congruence.
    + rewrite H. apply astype_int_raises in Es as [-> Hs]. split.
      * intros [= <-]. split; [reflexivity|]. exists s. split; congruence.
      * now intros (-> & _).
  - destruct H as [df' H]. rewrite H. split; [discriminate|].
    intros (_ & s & Hs & _). discriminate.
Qed.

(** X20.  The re-cast step is idempotent: a frame that came out of it goes
    through it again unchanged. *)
Theorem preprocess_idempotent (df df' : DataFrame) :
  preprocess_dataframe df = Ok df' ->
  preprocess_dataframe df' = Ok df'.
Proof.
  intros H.
  assert (Hfix : forall col (s' : series),
             assoc_get df' col = Some s' -> recast col s' = Ok s').
  { intros col s' Hs'.
    destruct (@preprocess_dataframe_source B df df' col s' H Hs') as (s & _ & Hr).
    now apply recast_again in Hr. }
  unfold preprocess_dataframe. cbv zeta.
  rewrite fold_update_fixed.
  2:{ intros col s Hc Hs. specialize (Hfix col s Hs).
      rewrite (@recast_string_column B col s Hc) in Hfix.
      rewrite string_cells. injection Hfix as Hfix. exact Hfix. }
  assert (E : match assoc_get df' "verified_purchase" with
              | Some s => s' <- astype_int s ;;
                          Ok (assoc_set df' "verified_purchase" s')
              | None => Ok df'
              end = Ok df').
  { destruct (assoc_get df' "verified_purchase") as [s|] eqn:Es;
      [|reflexivity].
    pose proof (Hfix _ s Es) as Hr. unfold recast in Hr. simpl in Hr.
    rewrite Hr. cbn [bind]. now rewrite assoc_set_same. }
  rewrite E. cbn [bind]. rewrite fold_update_fixed; [reflexivity|].
  intros col s Hc Hs. specialize (Hfix col s Hs).
  rewrite (@recast_numeric_column B col s Hc) in Hfix.
  rewrite numeric_cells. injection Hfix as Hfix. exact Hfix.
Qed.
End LoaderProperties.

Section OrchestratorProperties.
Context {B : Builtins}.

Lemma df_len_nonneg (df : DataFrame) : (0 <= df_len df)%Z.
Proof. destruct df as [|[k s] df]; simpl; [lia|apply len_nonneg]. Qed.

Lemma total_rows_nonneg dfs : (0 <= total_rows dfs)%Z.
Proof.
  induction dfs as [|d dfs IH]; simpl; [lia|].
  pose proof (df_len_nonneg d). lia.
Qed.

Lemma total_rows_preprocessed chunks : forall dfs,
  Forall2 (fun chunk df => preprocess_dataframe chunk = Ok df) chunks dfs ->
  total_rows dfs = total_rows chunks.
Proof.
  induction 1 as [|c d cs ds Hc _ IH]; [reflexivity|].
  simpl. now rewrite IH, (@preprocess_dataframe_len B c d Hc).
Qed.

Lemma ingest_loop_all sink_insert chunks : forall dfs st,
  Forall2 (fun chunk df => preprocess_dataframe chunk = Ok df) chunks dfs ->
  (forall k d, nth_error dfs k = Some d ->
               sink_insert (table st ++ firstn k dfs)%list d = Committed) ->
  exists st',
    ingest_loop sink_insert chunks st = (st', None)
    /\ table st' = (table st ++ dfs)%list
    /\ submitted st' = (submitted st ++ dfs)%list
    /\ total_rows_processed st'
       = (total_rows_processed st + total_rows dfs)%Z
    /\ batch_count st' = (batch_count st + len chunks)%Z.
Proof.
  intros dfs st Hall. revert st.
  induction Hall as [|c d cs ds Hc _ IH]; intros st Hsink.
  - exists st. simpl. rewrite !app_nil_r. repeat split; try lia.
    unfold len. simpl. lia.
  - simpl ingest_loop. rewrite Hc. unfold sql_write.
    cbn [table]. pose proof (Hsink 0%nat d eq_refl) as H0.
    simpl in H0. rewrite app_nil_r in H0. rewrite H0.
    match goal with |- context [ingest_loop _ cs ?s] => set (st1 := s) end.
    destruct (IH st1) as (st' & Hloop & Htab & Hsub & Htot & Hcnt).
    { intros k d' Hk. cbn [st1 table]. rewrite <- app_assoc.
      exact (Hsink (S k) d' Hk). }
    exists st'. split; [exact Hloop|].
    cbn [st1 table submitted total_rows_processed batch_count] in *.
    rewrite Htab, Hsub, Htot, Hcnt, <- !app_assoc. simpl.
    repeat split; try lia. unfold len. simpl List.length. lia.
Qed.

(** X21.  When every batch goes through the re-cast step and the sink
    commits every insert, each re-cast batch is handed to the sink once,
    in order: the sink holds what it held before, then the batches.  The
    outcome then depends on the clock alone: when its two readings differ
    the run returns the number of rows read (fewer than 2^53); when they
    are equal the summary line divides by zero and the run raises
    [ZeroDivisionError], every batch being in the sink already. *)
Theorem ingest_commits_every_batch
    (sink_insert : sink_table -> DataFrame -> insert_outcome)
    tbl chunks dfs clk :
  Forall2 (fun chunk df => preprocess_dataframe chunk = Ok df) chunks dfs ->
  (forall k d, nth_error dfs k = Some d ->
               sink_insert (tbl ++ firstn k dfs)%list d = Committed) ->
  (total_rows chunks < 2 ^ 53)%Z ->
  exists st,
    ingest_data_to_clickhouse sink_insert tbl chunks clk
      = ((if float_is_zero (elapsed clk)
          then Raise ZeroDivisionError else Ok (total_rows chunks)), st)
    /\ table st = (tbl ++ dfs)%list
    /\ submitted st = dfs
    /\ batch_count st = len chunks.
Proof.
  intros Hall Hsink Hlt.
  destruct (@ingest_loop_all sink_insert chunks dfs (ingest_init tbl) Hall Hsink)
    as (st' & Hloop & Htab & Hsub & Htot & Hcnt).
  simpl in Htab, Hsub, Htot, Hcnt.
  rewrite (total_rows_preprocessed Hall) in Htot.
  unfold ingest_data_to_clickhouse. cbv zeta. rewrite Hloop.
  unfold add_log. cbn [total_rows_processed]. rewrite Htot.
  unfold int_div_float.
  destruct (@float_of_int_small (total_rows chunks)) as [a ->].
  { pose proof (total_rows_nonneg chunks). lia. }
  cbn [bind]. destruct (float_is_zero (elapsed clk)).
  - unfold run_failed, add_log. eexists. split; [reflexivity|].
    cbn [table submitted batch_count]. auto.
  - eexists. split; [reflexivity|]. cbn [table submitted batch_count].
    auto.
Qed.

(** X22.  When the re-cast step fails on a batch, after the batches [pre]
    went through, that batch is never handed to the sink: the run raises
    the error, logs the batch index and size, and the sink holds exactly
    what the earlier batches left in it. *)
Theorem failed_recast_submits_nothing
    (sink_insert : sink_table -> DataFrame -> insert_outcome)
    tbl pre chunk post clk st_pre e :
  ingest_loop sink_insert pre (ingest_init tbl) = (st_pre, None) ->
  preprocess_dataframe chunk = Raise e ->
  exists st,
    ingest_data_to_clickhouse sink_insert tbl (pre ++ chunk :: post) clk
      = (Raise e, st)
    /\ submitted st = submitted st_pre
    /\ table st = table st_pre
    /\ log st = (log st_pre
                 ++ [ErrorBatch (len pre + 1) e; ErrorBatchSize (df_len chunk);
                     ErrorCritical e;
                     ErrorRowsBefore (total_rows_processed st_pre)])%list.
Proof.
  intros Hpre Hfail.
  pose proof Hpre as Hpre'.
  apply ingest_loop_committed in Hpre' as (Hcount & _).
  simpl in Hcount.
  unfold ingest_data_to_clickhouse. cbv zeta.
  rewrite ingest_loop_app, Hpre. simpl ingest_loop. rewrite Hfail.
  unfold batch_failed, run_failed, add_log.
  cbn [batch_count log total_rows_processed table submitted].
  eexists. split; [reflexivity|].
  cbn [batch_count log total_rows_processed table submitted].
  rewrite <- app_assoc, Hcount. auto.
Qed.
End OrchestratorProperties.

(* ================================================================== *)
(** * The properties outside the claims, on concrete inputs *)
(* ================================================================== *)

Lemma normalizer_raises_only_overflow_witness :
  clean_and_flatten_record (B := sample_builtins)
    [("unixReviewTime", VFloat float_inf)] = Raise OverflowError
  /\ OverflowError = OverflowError.
Proof.
  split; [vm_compute; reflexivity|].
  apply (@normalizer_raises_only_overflow sample_builtins
           [("unixReviewTime", VFloat float_inf)] OverflowError).
  vm_compute; reflexivity.
Defined.

Lemma normalizer_returns_witness :
  (forall z, raw numeric_record "overall" = VInt z ->
             float_of_int z <> Raise OverflowError)
  /\ (forall s, raw numeric_record "unixReviewTime"
                <> VFloat (S754_infinity s))
  /\ exists cleaned,
       clean_and_flatten_record (B := sample_builtins) numeric_record
       = Ok cleaned.
Proof.
  assert (H1 : forall z, raw numeric_record "overall" = VInt z ->
                         float_of_int z <> Raise OverflowError).
  { intros z H. vm_compute in H. injection H as <-.
    vm_compute. discriminate. }
  assert (H2 : forall s, raw numeric_record "unixReviewTime"
                         <> VFloat (S754_infinity s)).
  { intros s. vm_compute. discriminate. }
  split; [exact H1|]. split; [exact H2|].
  exact (@normalizer_returns sample_builtins numeric_record H1 H2).
Defined.

Lemma normalized_row_shape_witness :
  clean_and_flatten_record (B := sample_builtins) odd_record = Ok odd_row
  /\ map fst odd_row = flat_fields
  /\ (exists o, assoc_get odd_row "overall" = Some (VFloat o))
  /\ (exists t, assoc_get odd_row "unixReviewTime" = Some (VInt t)).
Proof.
  split; [vm_compute; reflexivity|].
  destruct (@normalized_row_shape sample_builtins odd_record odd_row)
    as (H1 & H2 & H3 & _); [vm_compute; reflexivity|].
  auto.
Defined.

Lemma normalizer_reads_allow_list_only_witness :
  (forall field, In field flat_fields ->
                 assoc_get odd_record field
                 = assoc_get (removelast odd_record) field)
  /\ clean_and_flatten_record (B := sample_builtins) odd_record
     = clean_and_flatten_record (B := sample_builtins)
         (removelast odd_record).
Proof.
  assert (H : forall field, In field flat_fields ->
                assoc_get odd_record field
                = assoc_get (removelast odd_record) field).
  { intros field Hin. unfold flat_fields in Hin. simpl in Hin.
    repeat (destruct Hin as [<- | Hin]; [reflexivity|]).
    contradiction. }
  split; [exact H|].
  exact (@normalizer_reads_allow_list_only sample_builtins odd_record
           (removelast odd_record) H).
Defined.

Lemma copied_fields_unchanged_witness :
  clean_and_flatten_record (B := sample_builtins) odd_record = Ok odd_row
  /\ assoc_get odd_record "style" = Some (VDict [("k", VInt 1)])
  /\ In "style" copied_fields
  /\ assoc_get odd_row "style" = Some (VDict [("k", VInt 1)]).
Proof.
  split; [vm_compute; reflexivity|]. split; [reflexivity|].
  split; [simpl; auto|].
  apply (@copied_fields_unchanged sample_builtins odd_record odd_row
           "style" (VDict [("k", VInt 1)]));
    [vm_compute; reflexivity | reflexivity | left; simpl; auto].
Defined.

Lemma numeric_fields_by_kind_witness :
  clean_and_flatten_record (B := sample_builtins) scenario_record
  = Ok scenario_row
  /\ assoc_get scenario_row "overall"
     = Some (VFloat (rating_of (B := sample_builtins)
                       (raw scenario_record "overall")))
  /\ assoc_get scenario_row "unixReviewTime"
     = Some (VInt (epoch_of (B := sample_builtins)
                     (raw scenario_record "unixReviewTime"))).
Proof.
  split; [vm_compute; reflexivity|].
  apply (@numeric_fields_by_kind sample_builtins scenario_record
           scenario_row).
  vm_compute; reflexivity.
Defined.

Lemma normalizer_idempotent_witness :
  clean_and_flatten_record (B := sample_builtins) odd_record = Ok odd_row
  /\ assoc_get odd_row "overall" <> Some (VFloat (S754_zero true))
  /\ clean_and_flatten_record (B := sample_builtins) odd_row = Ok odd_row.
Proof.
  split; [vm_compute; reflexivity|]. split; [vm_compute; discriminate|].
  apply (@normalizer_idempotent sample_builtins odd_record odd_row);
    [vm_compute; reflexivity | vm_compute; discriminate].
Defined.

Lemma verified_by_kind_witness :
  clean_and_flatten_record (B := sample_builtins) odd_record = Ok odd_row
  /\ assoc_get odd_record "verified" = Some (VBool true)
  /\ assoc_get odd_row "verified" = Some (VBool true).
Proof.
  split; [vm_compute; reflexivity|]. split; [reflexivity|].
  apply (@verified_by_kind sample_builtins odd_record odd_row (VBool true));
    [vm_compute; reflexivity | reflexivity].
Defined.

Lemma every_line_accounted_witness :
  aborted (read_lines (B := sample_builtins) 1
             ["{}"; ""; "{not valid json"; "{}"]) = None
  /\ (List.length
        (yielded (read_lines (B := sample_builtins) 1
                    ["{}"; ""; "{not valid json"; "{}"]))
      + List.length
          (warnings (read_lines (B := sample_builtins) 1
                       ["{}"; ""; "{not valid json"; "{}"]))
      + List.length (filter blank ["{}"; ""; "{not valid json"; "{}"]))%nat
     = 4%nat.
Proof.
  split; [vm_compute; reflexivity|].
  apply (@every_line_accounted sample_builtins
           ["{}"; ""; "{not valid json"; "{}"] 1%Z).
  vm_compute; reflexivity.
Defined.

Lemma warning_line_numbers_witness :
  aborted (read_lines (B := sample_builtins) 1
             ["{}"; ""; "{not valid json"; "{}"]) = None
  /\ In 3%Z (warnings (read_lines (B := sample_builtins) 1
                         ["{}"; ""; "{not valid json"; "{}"])).
Proof.
  split; [vm_compute; reflexivity|].
  apply (@warning_line_numbers sample_builtins
           ["{}"; ""; "{not valid json"; "{}"] 3%Z);
    [vm_compute; reflexivity|].
  split; [lia|]. exists "{not valid json". split; reflexivity.
Defined.

Lemma progress_line_numbers_witness :
  aborted (read_lines (B := sample_builtins) 1
             ["{}"; ""; "{not valid json"; "{}"]) = None
  /\ ~ In 4%Z (infos (read_lines (B := sample_builtins) 1
                         ["{}"; ""; "{not valid json"; "{}"])).
Proof.
  split; [vm_compute; reflexivity|].
  intros H.
  apply (@progress_line_numbers sample_builtins
           ["{}"; ""; "{not valid json"; "{}"] 4%Z) in H;
    [|vm_compute; reflexivity].
  destruct H as (_ & line & _ & Hm & _). vm_compute in Hm. discriminate.
Defined.


Lemma one_record_per_group_witness :
  (0 <= 1)%Z
  /\ normalize_all (B := sample_builtins)
       (yielded (read_lines (B := sample_builtins) 1 ["{}"; "{}"; "{}"]))
     = Ok [blank_row; blank_row; blank_row]
  /\ map call_rows
       (calls (snd (convert_jsonl_to_csv (B := sample_builtins)
                      (Some ["{}"; "{}"; "{}"]) None 0 ticking_clock)))
     = map (fun r => [r]) [blank_row; blank_row; blank_row].
Proof.
  split; [lia|]. split; [vm_compute; reflexivity|].
  apply (@one_record_per_group sample_builtins
           ["{}"; "{}"; "{}"] None 0 ticking_clock
           [blank_row; blank_row; blank_row]);
    [lia | vm_compute; reflexivity].
Defined.

Lemma successful_run_returns_count_witness :
  normalize_all (B := sample_builtins)
    (yielded (read_lines (B := sample_builtins) 1 ["{}"; "{}"; "{}"]))
  = Ok [blank_row; blank_row; blank_row]
  /\ aborted (read_lines (B := sample_builtins) 1 ["{}"; "{}"; "{}"]) = None
  /\ (len [blank_row; blank_row; blank_row] < 2 ^ 53)%Z
  /\ main (B := sample_builtins) (Some ["{}"; "{}"; "{}"]) None 2
       ticking_clock
     = (0%Z, written None [blank_row; blank_row; blank_row])
  /\ fst (convert_jsonl_to_csv (B := sample_builtins)
            (Some ["{}"; "{}"; "{}"]) None 2 stopped_clock)
     = Raise ZeroDivisionError
  /\ main (B := sample_builtins) (Some ["{}"; "{}"; "{}"]) None 2
       stopped_clock
     = (1%Z, written None [blank_row; blank_row; blank_row]).
Proof.
  split; [vm_compute; reflexivity|]. split; [vm_compute; reflexivity|].
  split; [vm_compute; reflexivity|].
  destruct (@successful_run_returns_count sample_builtins
              ["{}"; "{}"; "{}"] None 2 ticking_clock
              [blank_row; blank_row; blank_row]) as [_ H1];
    [vm_compute; reflexivity | vm_compute; reflexivity
     | vm_compute; reflexivity |].
  destruct (@successful_run_returns_count sample_builtins
              ["{}"; "{}"; "{}"] None 2 stopped_clock
              [blank_row; blank_row; blank_row]) as [H2 H3];
    [vm_compute; reflexivity | vm_compute; reflexivity
     | vm_compute; reflexivity |].
  split; [exact H1|]. split; [exact H2 | exact H3].
Defined.

Lemma interrupted_run_keeps_complete_chunks_witness :
  (1 <= 2)%Z
  /\ yielded (read_lines (B := wider_builtins) 1
                ["{}"; "{}"; "{}"; infinite_time_line; "{}"])
     = ([VDict []; VDict []; VDict []]
        ++ infinite_time_record :: [VDict []])%list
  /\ normalize_all (B := wider_builtins) [VDict []; VDict []; VDict []]
     = Ok [blank_row; blank_row; blank_row]
  /\ normalize (B := wider_builtins) infinite_time_record
     = Raise OverflowError
  /\ exists st,
       convert_jsonl_to_csv (B := wider_builtins)
         (Some ["{}"; "{}"; "{}"; infinite_time_line; "{}"]) None 2
         ticking_clock = (Raise OverflowError, st)
       /\ len (calls st) = (len [blank_row; blank_row; blank_row] / 2)%Z
       /\ List.concat (map call_rows (calls st))
          = complete_rows 2 [blank_row; blank_row; blank_row]
       /\ dest st
          = written None (complete_rows 2 [blank_row; blank_row; blank_row])
       /\ main (B := wider_builtins)
            (Some ["{}"; "{}"; "{}"; infinite_time_line; "{}"]) None 2
            ticking_clock = (1%Z, dest st).
Proof.
  split; [lia|]. split; [vm_compute; reflexivity|].
  split; [vm_compute; reflexivity|]. split; [vm_compute; reflexivity|].
  apply (@interrupted_run_keeps_complete_chunks wider_builtins
           ["{}"; "{}"; "{}"; infinite_time_line; "{}"] None 2 ticking_clock
           [VDict []; VDict []; VDict []] infinite_time_record [VDict []]
           [blank_row; blank_row; blank_row] OverflowError);
    [lia | vm_compute; reflexivity | vm_compute; reflexivity
     | vm_compute; reflexivity].
Defined.

Lemma non_object_line_aborts_witness :
  yielded (read_lines (B := wider_builtins) 1 ["{}"; "[]"; "{}"])
  = ([VDict []] ++ VList [] :: [VDict []])%list
  /\ normalize_all (B := wider_builtins) [VDict []] = Ok [blank_row]
  /\ is_dict (VList []) = false
  /\ fst (convert_jsonl_to_csv (B := wider_builtins)
            (Some ["{}"; "[]"; "{}"]) None 2 ticking_clock)
     = Raise AttributeError
  /\ fst (main (B := wider_builtins) (Some ["{}"; "[]"; "{}"]) None 2
            ticking_clock) = 1%Z.
Proof.
  split; [vm_compute; reflexivity|]. split; [vm_compute; reflexivity|].
  split; [reflexivity|].
  apply (@non_object_line_aborts wider_builtins ["{}"; "[]"; "{}"] None 2
           ticking_clock [VDict []] (VList []) [VDict []] [blank_row]);
    [vm_compute; reflexivity | vm_compute; reflexivity | reflexivity].
Defined.

Lemma preprocess_dataframe_recasts_witness :
  (forall s : series, assoc_get mixed_frame "verified_purchase" = Some s ->
                      forallb is_flag s = true)
  /\ exists df',
       preprocess_dataframe (B := sample_builtins) mixed_frame = Ok df'
       /\ forall s : series,
            assoc_get mixed_frame "verified_purchase" = Some s ->
            exists s', assoc_get df' "verified_purchase" = Some s'
                       /\ Forall (fun c => c = CInt 0 \/ c = CInt 1) s'.
Proof.
  assert (H : forall s : series,
            assoc_get mixed_frame "verified_purchase" = Some s ->
            forallb is_flag s = true).
  { intros s Hs. vm_compute in Hs. injection Hs as <-. reflexivity. }
  split; [exact H|].
  destruct (@preprocess_dataframe_recasts sample_builtins mixed_frame H)
    as (df' & H1 & _ & H3).
  exists df'. split; [exact H1 | exact H3].
Defined.

Lemma preprocess_keeps_shape_witness :
  preprocess_dataframe (B := sample_builtins) mixed_frame
  = Ok mixed_frame_recast
  /\ map fst mixed_frame_recast = map fst mixed_frame
  /\ df_len mixed_frame_recast = df_len mixed_frame.
Proof.
  split; [vm_compute; reflexivity|].
  destruct (@preprocess_keeps_shape sample_builtins mixed_frame
              mixed_frame_recast) as (H1 & H2 & _);
    [vm_compute; reflexivity|].
  auto.
Defined.

Lemma preprocess_column_by_column_witness :
  preprocess_dataframe (B := sample_builtins) flagged_frame
  = Ok flagged_frame_recast
  /\ (forall col (s : series), In col string_columns ->
        assoc_get flagged_frame col = Some s ->
        assoc_get flagged_frame_recast col
        = Some (map (string_cell (B := sample_builtins)) s))
  /\ (forall col, ~ In col string_columns -> ~ In col numeric_columns ->
        col <> "verified_purchase" ->
        assoc_get flagged_frame_recast col = assoc_get flagged_frame col).
Proof.
  split; [vm_compute; reflexivity|].
  destruct (@preprocess_column_by_column sample_builtins flagged_frame
              flagged_frame_recast) as (H1 & H2 & _);
    [vm_compute; reflexivity|].
  auto.
Defined.

Lemma preprocess_fails_exactly_when_witness :
  (forall s : series,
     assoc_get holed_frame "verified_purchase" = Some s ->
     forallb (int64_cell (B := sample_builtins)) s = true)
  /\ preprocess_dataframe (B := sample_builtins) holed_frame
     = Raise ValueError.
Proof.
  assert (H : forall s : series,
            assoc_get holed_frame "verified_purchase" = Some s ->
            forallb (int64_cell (B := sample_builtins)) s = true).
  { intros s Hs. vm_compute in Hs. injection Hs as <-. reflexivity. }
  split; [exact H|].
  apply (@preprocess_fails_exactly_when sample_builtins holed_frame
           ValueError H).
  split; [reflexivity|].
  exists [CBool true; CFloat S754_nan]. split; reflexivity.
Defined.

Lemma preprocess_idempotent_witness :
  preprocess_dataframe (B := sample_builtins) mixed_frame
  = Ok mixed_frame_recast
  /\ preprocess_dataframe (B := sample_builtins) mixed_frame_recast
     = Ok mixed_frame_recast.
Proof.
  split; [vm_compute; reflexivity|].
  apply (@preprocess_idempotent sample_builtins mixed_frame
           mixed_frame_recast).
  vm_compute; reflexivity.
Defined.

Lemma ingest_commits_every_batch_witness :
  Forall2 (fun chunk df =>
             preprocess_dataframe (B := sample_builtins) chunk = Ok df)
          [flagged_frame; batch_ok] [flagged_frame_recast; batch_ok]
  /\ (forall k d, nth_error [flagged_frame_recast; batch_ok] k = Some d ->
        always_commits
          ([] ++ firstn k [flagged_frame_recast; batch_ok])%list d
        = Committed)
  /\ (total_rows [flagged_frame; batch_ok] < 2 ^ 53)%Z
  /\ (exists st,
        ingest_data_to_clickhouse (B := sample_builtins) always_commits []
          [flagged_frame; batch_ok] ticking_clock
        = (Ok (total_rows [flagged_frame; batch_ok]), st)
        /\ table st = ([] ++ [flagged_frame_recast; batch_ok])%list
        /\ submitted st = [flagged_frame_recast; batch_ok]
        /\ batch_count st = len [flagged_frame; batch_ok])
  /\ (exists st,
        ingest_data_to_clickhouse (B := sample_builtins) always_commits []
          [flagged_frame; batch_ok] stopped_clock
        = (Raise ZeroDivisionError, st)
        /\ table st = ([] ++ [flagged_frame_recast; batch_ok])%list
        /\ submitted st = [flagged_frame_recast; batch_ok]
        /\ batch_count st = len [flagged_frame; batch_ok]).
Proof.
  assert (H1 : Forall2 (fun chunk df =>
                 preprocess_dataframe (B := sample_builtins) chunk = Ok df)
               [flagged_frame; batch_ok] [flagged_frame_recast; batch_ok]).
  { repeat constructor; vm_compute; reflexivity. }
  assert (H2 : forall k d,
             nth_error [flagged_frame_recast; batch_ok] k = Some d ->
             always_commits
               ([] ++ firstn k [flagged_frame_recast; batch_ok])%list d
             = Committed).
  { intros k d _. reflexivity. }
  assert (H3 : (total_rows [flagged_frame; batch_ok] < 2 ^ 53)%Z).
  { vm_compute. reflexivity. }
  split; [exact H1|]. split; [exact H2|]. split; [exact H3|].
  split.
  - exact (@ingest_commits_every_batch sample_builtins always_commits []
             [flagged_frame; batch_ok] [flagged_frame_recast; batch_ok]
             ticking_clock H1 H2 H3).
  - exact (@ingest_commits_every_batch sample_builtins always_commits []
             [flagged_frame; batch_ok] [flagged_frame_recast; batch_ok]
             stopped_clock H1 H2 H3).
Defined.

Lemma failed_recast_submits_nothing_witness :
  ingest_loop (B := sample_builtins) always_commits [batch_ok]
    (ingest_init [])
  = (fst (ingest_loop (B := sample_builtins) always_commits [batch_ok]
            (ingest_init [])), None)
  /\ preprocess_dataframe (B := sample_builtins) holed_frame
     = Raise ValueError
  /\ exists st,
       ingest_data_to_clickhouse (B := sample_builtins) always_commits []
         ([batch_ok] ++ holed_frame :: [batch_later]) ticking_clock
       = (Raise ValueError, st)
       /\ submitted st = [batch_ok]
       /\ table st = [batch_ok].
Proof.
  split; [vm_compute; reflexivity|]. split; [vm_compute; reflexivity|].
  destruct (@failed_recast_submits_nothing sample_builtins always_commits
              [] [batch_ok] holed_frame [batch_later] ticking_clock
              (fst (ingest_loop (B := sample_builtins) always_commits
                      [batch_ok] (ingest_init [])))
              ValueError)
    as (st & H1 & H2 & H3 & _);
    [vm_compute; reflexivity | vm_compute; reflexivity |].
  exists st. split; [exact H1|]. split; [exact H2 | exact H3].
Defined.
